(** * smart_shield: the browser client [static/js/app.js]

    A shallow embedding of the [PatientMonitoringApp] class: the alert
    classification, the privacy filter over the canvas pixel buffer,
    the indicator panel, the session with its start, stop, render and
    analyze methods, the alerts panel and the status poll.  The model
    comes first, one module for each part of the program; the
    properties follow, one section for each group of facts.  Numbers are binary64 values where the program
    multiplies or divides, and integers where it counts and indexes. *)

From Stdlib Require Import ZArith List Bool Lia String Ascii.
From Stdlib Require Import Floats.SpecFloat DecimalString.
Import ListNotations.

Local Open Scope Z_scope.

(** Linear arithmetic with quotients and remainders by constants. *)
Ltac lia_div := Z.to_euclidean_division_equations; lia.

(* ================================================================== *)
(** * JavaScript strings *)
(* ================================================================== *)

(** Strings are sequences of code units.  Every literal the program
  compares against is ASCII, for which a match on UTF-8 bytes and a
  match on UTF-16 code units coincide. *)
Module JsString.

Local Open Scope string_scope.

(** [starts_with s p]: [p] is an initial segment of [s]. *)
Fixpoint starts_with (s p : string) {struct p} : bool :=
  match p, s with
  | EmptyString, _ => true
  | String _ _, EmptyString => false
  | String a p', String b s' => Ascii.eqb a b && starts_with s' p'
  end.

(** [String.prototype.includes]: the needle occurs at some position. *)
Fixpoint includes (s needle : string) : bool :=
  starts_with s needle ||
  match s with
  | EmptyString => false
  | String _ s' => includes s' needle
  end.

(** [str.charAt(0).toUpperCase()] on one ASCII unit: only the letters
    a-z change.  Outside ASCII the upper case is a matter of the
    Unicode tables, which can also give two units for one; they are not
    modelled here. *)
Definition toUpperCase_ascii (c : ascii) : ascii :=
  let n := nat_of_ascii c in
  if (Nat.leb 97 n && Nat.leb n 122)%bool then ascii_of_nat (n - 32) else c.

(** [capitalizeFirst(str)]:
    [str.charAt(0).toUpperCase() + str.slice(1)], for a string that is
    empty or begins with an ASCII unit ([ascii_first]); every string
    that the program itself passes is one. *)
Definition capitalizeFirst (str : string) : string :=
  match str with
  | EmptyString => EmptyString
  | String c rest => String (toUpperCase_ascii c) rest
  end.

(** The string is empty or begins with an ASCII unit. *)
Definition ascii_first (str : string) : bool :=
  match str with
  | EmptyString => true
  | String c _ => Nat.ltb (nat_of_ascii c) 128
  end.

(** The declarative reading of [includes]. *)
Definition occurs_in (needle s : string) : Prop :=
  exists pre post, s = pre ++ needle ++ post.

End JsString.

(* ================================================================== *)
(** * Alert classification *)
(* ================================================================== *)

Module Alerts.
Import JsString.
Local Open Scope string_scope.

(** [getAlertClass(issue)] *)
Definition getAlertClass (issue : string) : string :=
  if includes issue "Fall" then "alert-critical"
  else if includes issue "Aggression" then "alert-warning"
  else if includes issue "Risky" then "alert-caution"
  else "alert-info".

(** [getAlertIcon(issue)] *)
Definition getAlertIcon (issue : string) : string :=
  if includes issue "Fall" then "&#9888;"
  else if includes issue "Aggression" then "&#9889;"
  else if includes issue "Risky" then "&#9888;"
  else if includes issue "Emotion" then "&#128528;"
  else "&#8505;".

(** The four categories, as the CSS class that carries each. *)
Inductive category := critical | warning | caution | info.

Definition class_of (c : category) : string :=
  match c with
  | critical => "alert-critical"
  | warning => "alert-warning"
  | caution => "alert-caution"
  | info => "alert-info"
  end.

(** The precedence list read as a specification. *)
Definition classified (issue : string) (c : category) : Prop :=
  match c with
  | critical => occurs_in "Fall" issue
  | warning => ~ occurs_in "Fall" issue /\ occurs_in "Aggression" issue
  | caution => ~ occurs_in "Fall" issue /\ ~ occurs_in "Aggression" issue
               /\ occurs_in "Risky" issue
  | info => ~ occurs_in "Fall" issue /\ ~ occurs_in "Aggression" issue
            /\ ~ occurs_in "Risky" issue
  end.

End Alerts.


(* ================================================================== *)
(** * JavaScript numbers *)
(* ================================================================== *)

(** A Number is an IEEE-754 binary64 value: the Standard Library's
    specification floats at precision 53 and maximal exponent 1024. *)
Module JsNumber.

Definition prec : Z := 53.
Definition emax : Z := 1024.

Definition number := spec_float.

(** An integer as a Number (exact below [2^53]). *)
Definition of_Z (z : Z) : number := binary_normalize prec emax z 0 false.

(** [x * y] and [x / y]. *)
Definition mul (x y : number) : number := SFmul prec emax x y.
Definition div (x y : number) : number := SFdiv prec emax x y.

(** The decimal literal [m / 10^k], [m] and [10^k] below [2^53]: the
    double nearest to it, as one correctly rounded division of two exact
    integers yields. *)
Definition literal (m : Z) (k : Z) : number := div (of_Z m) (of_Z (10 ^ k)).

Definition lit_0_25 : number := literal 25 2.
Definition lit_0_05 : number := literal 5 2.
Definition lit_0_5 : number := literal 5 1.
Definition lit_0_45 : number := literal 45 2.
Definition lit_0_7 : number := literal 7 1.
Definition lit_100 : number := of_Z 100.
Definition lit_0 : number := of_Z 0.

(** [Math.floor(x)] as an integer; [None] for NaN and the infinities,
    which [Math.floor] returns unchanged. *)
Definition Math_floor (x : number) : option Z :=
  match x with
  | S754_zero _ => Some 0
  | S754_finite s m e => Some (Z.shiftl (cond_Zopp s (Zpos m)) e)
  | S754_infinity _ | S754_nan => None
  end.

(** ToBoolean on a Number: zeros and NaN are falsy. *)
Definition truthy (x : number) : bool :=
  match x with
  | S754_zero _ | S754_nan => false
  | S754_infinity _ | S754_finite _ _ _ => true
  end.

(** [v || d] where [v] is a property that may be absent. *)
Definition or_default (v : option number) (d : number) : number :=
  match v with
  | Some x => if truthy x then x else d
  | None => d
  end.

(** The conversion of a Number to a WebIDL [unsigned long], as the
    [width] and [height] setters of a canvas apply it: truncation
    towards zero, modulo [2^32]; NaN and the infinities become 0. *)
Definition ToUint32 (x : number) : Z :=
  match x with
  | S754_finite s m e =>
      (cond_Zopp s (Z.shiftl (Zpos m) e)) mod 2 ^ 32
  | _ => 0
  end.

(** Sign test used by the CSS parser on a printed Number. *)
Definition is_negative (x : number) : bool :=
  match x with
  | S754_finite true _ _ | S754_infinity true => true
  | _ => false
  end.

Definition is_finite (x : number) : bool :=
  match x with
  | S754_zero _ | S754_finite _ _ _ => true
  | _ => false
  end.

End JsNumber.


(* ================================================================== *)
(** * Control flow *)
(* ================================================================== *)

(** How a call completes: normally, or by throwing. *)
Inductive exn := IndexSizeError | OtherError (msg : string).

Inductive completion (A : Type) :=
| Normal (a : A)
| Throw (e : exn).
Arguments Normal {A} a.
Arguments Throw {A} e.

(** [for (let i = init; test(i); i = next(i)) body(i)] over a state
    [St], unrolled at most [fuel] times. *)
Fixpoint for_loop {St : Type} (fuel : nat) (init : Z) (test : Z -> bool)
    (next : Z -> Z) (body : Z -> St -> St) (s : St) : St :=
  match fuel with
  | O => s
  | S fuel' =>
      if test init
      then for_loop fuel' (next init) test next body (body init s)
      else s
  end.

(* ================================================================== *)
(** * The 2D canvas *)
(* ================================================================== *)

Module Canvas2D.

(** The bitmap of a canvas: [4 * canvas_width * canvas_height] bytes,
    RGBA per pixel, rows from the top.  Colours are held as written
    (not premultiplied by alpha): these are the bytes of the engine
    where alpha is 255, the only alpha that a drawn video frame has.
    An engine that stores colours premultiplied gives other colour
    bytes back where alpha is lower, so what is stated of colour bytes
    is stated of opaque canvases ([CanvasAlpha.opaque]). *)
Record canvas := {
  canvas_width : Z;
  canvas_height : Z;
  bitmap : list Z
}.

(** An [ImageData]: its [data] is a [Uint8ClampedArray]. *)
Record ImageData := {
  img_width : Z;
  img_height : Z;
  data : list Z
}.

(** Reading element [idx] of a typed array: [undefined] out of range. *)
Definition load (d : list Z) (idx : Z) : option Z :=
  if idx <? 0 then None else nth_error d (Z.to_nat idx).

(** In-range element, for statements about array contents. *)
Definition get (d : list Z) (idx : Z) : Z := nth (Z.to_nat idx) d 0.

Fixpoint upd (d : list Z) (n : nat) (v : Z) : list Z :=
  match d, n with
  | [], _ => []
  | _ :: t, O => v :: t
  | h :: t, S n' => h :: upd t n' v
  end.

(** The conversion applied by a store into a [Uint8ClampedArray]; a
    Number is an integer here, or NaN ([None]), which stores 0. *)
Definition ToUint8Clamp (v : option Z) : Z :=
  match v with
  | Some z => Z.max 0 (Z.min 255 z)
  | None => 0
  end.

(** [d[idx] = v] on a typed array: ignored out of range. *)
Definition store (d : list Z) (idx : Z) (v : option Z) : list Z :=
  if idx <? 0 then d else upd d (Z.to_nat idx) (ToUint8Clamp v).

(** Byte [ch] of the pixel at column [X], row [Y]. *)
Definition byte_at (c : canvas) (X Y ch : Z) : Z :=
  get (bitmap c) ((Y * canvas_width c + X) * 4 + ch).

Definition inside (c : canvas) (X Y : Z) : bool :=
  (0 <=? X) && (X <? canvas_width c) && (0 <=? Y) && (Y <? canvas_height c).

(** [ctx.getImageData(sx, sy, sw, sh)]: a copy of the rectangle, with
    transparent black for pixels outside the canvas; an empty rectangle
    raises IndexSizeError; a negative extent is taken from its other
    side.  The copy is byte for byte, which is exact for the pixels
    whose alpha is 255. *)
Definition getImageData (c : canvas) (sx sy sw sh : Z) : completion ImageData :=
  if (sw =? 0) || (sh =? 0) then Throw IndexSizeError
  else
    let sx := if sw <? 0 then sx + sw else sx in
    let sy := if sh <? 0 then sy + sh else sy in
    let sw := Z.abs sw in
    let sh := Z.abs sh in
    Normal {| img_width := sw;
              img_height := sh;
              data := map (fun k =>
                             let k := Z.of_nat k in
                             let p := k / 4 in
                             let X := sx + p mod sw in
                             let Y := sy + p / sw in
                             if inside c X Y then byte_at c X Y (k mod 4) else 0)
                          (seq 0 (Z.to_nat (4 * sw * sh))) |}.

(** [ctx.putImageData(img, dx, dy)]: the pixels of [img] that fall
    inside the canvas replace those of the bitmap, byte for byte, which
    is exact for the pixels whose alpha is 255. *)
Definition putImageData (c : canvas) (img : ImageData) (dx dy : Z) : canvas :=
  {| canvas_width := canvas_width c;
     canvas_height := canvas_height c;
     bitmap := map (fun k =>
                      let k := Z.of_nat k in
                      let p := k / 4 in
                      let X := p mod canvas_width c in
                      let Y := p / canvas_width c in
                      if (dx <=? X) && (X <? dx + img_width img)
                         && (dy <=? Y) && (Y <? dy + img_height img)
                      then get (data img)
                             (((Y - dy) * img_width img + (X - dx)) * 4 + k mod 4)
                      else get (bitmap c) k)
                   (seq 0 (List.length (bitmap c))) |}.

End Canvas2D.

(* ================================================================== *)
(** * The privacy filter *)
(* ================================================================== *)

Module FaceRegion.
Import JsNumber.

Record region := { x : Z; y : Z; width : Z; height : Z }.

(** The object literal [faceRegion] of [applyPrivacyFilter], for a
    canvas of [w] by [h]; [None] when a coordinate is not finite. *)
Definition faceRegion (w h : Z) : option region :=
  match Math_floor (mul (of_Z w) lit_0_25),
        Math_floor (mul (of_Z h) lit_0_05),
        Math_floor (mul (of_Z w) lit_0_5),
        Math_floor (mul (of_Z h) lit_0_45) with
  | Some x, Some y, Some width, Some height =>
      Some {| x := x; y := y; width := width; height := height |}
  | _, _, _, _ => None
  end.

End FaceRegion.

Module PrivacyFilter.
Import JsNumber Canvas2D.

(** [this.PIXELATION_SIZE] *)
Definition PIXELATION_SIZE : Z := 16.

(** The accumulators [r, g, b, count] of the first pass; a colour sum
    is [None] once it is NaN. *)
Record sums := { r : option Z; g : option Z; b : option Z; count : Z }.

(** [acc += d[idx]] *)
Definition add_load (acc : option Z) (d : list Z) (idx : Z) : option Z :=
  match acc, load d idx with
  | Some a, Some v => Some (a + v)
  | _, _ => None
  end.

(** [Math.floor(acc / count)] *)
Definition floor_div (acc : option Z) (count : Z) : option Z :=
  match acc with
  | Some a => Math_floor (div (of_Z a) (of_Z count))
  | None => None
  end.

(** First pass over the block at [(x, y)] of a [W] by [H] image. *)
Definition block_sums (W H : Z) (d : list Z) (x y : Z) : sums :=
  let pixelSize := PIXELATION_SIZE in
  for_loop (Z.to_nat pixelSize) 0
    (fun dy => (dy <? pixelSize) && (y + dy <? H)) Z.succ
    (fun dy acc =>
       for_loop (Z.to_nat pixelSize) 0
         (fun dx => (dx <? pixelSize) && (x + dx <? W)) Z.succ
         (fun dx acc =>
            let idx := ((y + dy) * W + (x + dx)) * 4 in
            {| r := add_load (r acc) d idx;
               g := add_load (g acc) d (idx + 1);
               b := add_load (b acc) d (idx + 2);
               count := count acc + 1 |})
         acc)
    {| r := Some 0; g := Some 0; b := Some 0; count := 0 |}.

(** Second pass: the block is overwritten with one colour. *)
Definition block_fill (W H : Z) (x y : Z) (r g b : option Z) (d : list Z) : list Z :=
  let pixelSize := PIXELATION_SIZE in
  for_loop (Z.to_nat pixelSize) 0
    (fun dy => (dy <? pixelSize) && (y + dy <? H)) Z.succ
    (fun dy d =>
       for_loop (Z.to_nat pixelSize) 0
         (fun dx => (dx <? pixelSize) && (x + dx <? W)) Z.succ
         (fun dx d =>
            let idx := ((y + dy) * W + (x + dx)) * 4 in
            store (store (store d idx r) (idx + 1) g) (idx + 2) b)
         d)
    d.

(** The body of the two outer loops, for one block. *)
Definition pixelate_block (W H : Z) (x y : Z) (d : list Z) : list Z :=
  let acc := block_sums W H d x y in
  let r := floor_div (r acc) (count acc) in
  let g := floor_div (g acc) (count acc) in
  let b := floor_div (b acc) (count acc) in
  block_fill W H x y r g b d.

(** The two outer loops over the [data] of a [W] by [H] image. *)
Definition pixelate (W H : Z) (d : list Z) : list Z :=
  let pixelSize := PIXELATION_SIZE in
  for_loop (Z.to_nat H) 0 (fun y => y <? H) (fun y => y + pixelSize)
    (fun y d =>
       for_loop (Z.to_nat W) 0 (fun x => x <? W) (fun x => x + pixelSize)
         (fun x d => pixelate_block W H x y d)
         d)
    d.

(** [applyPrivacyFilter()]: the completion and the canvas it leaves.
    A coordinate that is not finite reaches [getImageData] as 0, which
    raises as an empty rectangle does. *)
Definition applyPrivacyFilter (c : canvas) : completion unit * canvas :=
  let w := canvas_width c in
  let h := canvas_height c in
  match FaceRegion.faceRegion w h with
  | None => (Throw IndexSizeError, c)
  | Some fr =>
      match getImageData c (FaceRegion.x fr) (FaceRegion.y fr)
              (FaceRegion.width fr) (FaceRegion.height fr) with
      | Throw e => (Throw e, c)
      | Normal imageData =>
          let data' :=
            pixelate (FaceRegion.width fr) (FaceRegion.height fr) (data imageData) in
          (Normal tt,
           putImageData c
             {| img_width := img_width imageData;
                img_height := img_height imageData;
                data := data' |}
             (FaceRegion.x fr) (FaceRegion.y fr))
      end
  end.

End PrivacyFilter.


(* ================================================================== *)
(** * What the filter is to compute *)
(* ================================================================== *)

Module FilterSpec.
Import Canvas2D PrivacyFilter.

(** [f 0 + f 1 + ... + f (n - 1)] *)
Definition sum_upto (f : Z -> Z) (n : Z) : Z :=
  fold_right Z.add 0 (map (fun k => f (Z.of_nat k)) (seq 0 (Z.to_nat n))).

(** Index of byte [ch] of pixel [(i, j)] in the data of an image [W]
    pixels wide. *)
Definition idx (W i j ch : Z) : Z := (j * W + i) * 4 + ch.

(** The origin of the block that holds coordinate [i], and the side of
    a block at origin [o] clipped to a side of length [L]. *)
Definition block_origin (i : Z) : Z := PIXELATION_SIZE * (i / PIXELATION_SIZE).
Definition block_extent (L o : Z) : Z := Z.min PIXELATION_SIZE (L - o).

(** The sum of [f] over the [bw] by [bh] pixels from [(x, y)]. *)
Definition block_sum (f : Z -> Z -> Z) (x y bw bh : Z) : Z :=
  sum_upto (fun dy => sum_upto (fun dx => f (x + dx) (y + dy)) bw) bh.

(** The floored mean of channel [ch] over the clipped block of the
    image data [d] that holds pixel [(i, j)]. *)
Definition data_block_mean (W H : Z) (d : list Z) (i j ch : Z) : Z :=
  let ox := block_origin i in
  let oy := block_origin j in
  let bw := block_extent W ox in
  let bh := block_extent H oy in
  block_sum (fun i' j' => get d (idx W i' j' ch)) ox oy bw bh / (bw * bh).

(** The image data the filter is to produce. *)
Definition pixelated (W H : Z) (d : list Z) (i j ch : Z) : Z :=
  if ch <? 3 then data_block_mean W H d i j ch else get d (idx W i j ch).

(** The byte that the stores of the second pass leave in channel [ch]
    of a block whose colour is [(cr, cg, cb)]. *)
Definition fill_byte (cr cg cb : option Z) (ch : Z) : Z :=
  ToUint8Clamp (if ch =? 0 then cr else if ch =? 1 then cg else cb).

(** Every byte of the data of a [W] by [H] image is in range. *)
Definition bytes_in (W H : Z) (d : list Z) : Prop :=
  forall i j ch, 0 <= i < W -> 0 <= j < H -> 0 <= ch < 4 ->
    0 <= get d (idx W i j ch) <= 255.

(** The pixels the loops have been through when the inner loop is at
    column [x] of the row of blocks at [y]. *)
Definition passed (y x i j : Z) : bool :=
  (j <? y) || ((j <? y + PIXELATION_SIZE) && (i <? x)).

Definition in_region (fr : FaceRegion.region) (X Y : Z) : bool :=
  (FaceRegion.x fr <=? X) && (X <? FaceRegion.x fr + FaceRegion.width fr)
  && (FaceRegion.y fr <=? Y) && (Y <? FaceRegion.y fr + FaceRegion.height fr).

(** The floored mean of channel [ch] of the canvas [c] over the block
    of the region [fr], clipped to the region, that holds the canvas
    pixel [(X, Y)]. *)
Definition block_mean_at (c : canvas) (fr : FaceRegion.region) (X Y ch : Z) : Z :=
  let ox := block_origin (X - FaceRegion.x fr) in
  let oy := block_origin (Y - FaceRegion.y fr) in
  let bw := block_extent (FaceRegion.width fr) ox in
  let bh := block_extent (FaceRegion.height fr) oy in
  block_sum (fun X' Y' => byte_at c X' Y' ch)
    (FaceRegion.x fr + ox) (FaceRegion.y fr + oy) bw bh / (bw * bh).

(** Every element of [d] is a byte. *)
Definition all_bytes (d : list Z) : bool :=
  forallb (fun v => (0 <=? v) && (v <=? 255)) d.

(** A canvas the browser can hold: dimensions in the range of an
    [unsigned long], a bitmap of [4 * width * height] bytes, and every
    index a safe integer. *)
Definition canvas_ok (c : canvas) : bool :=
  (0 <=? canvas_width c) && (canvas_width c <? 2 ^ 32)
  && (0 <=? canvas_height c) && (canvas_height c <? 2 ^ 32)
  && (4 * canvas_width c * canvas_height c <? 2 ^ 53)
  && (Z.of_nat (List.length (bitmap c)) =? 4 * canvas_width c * canvas_height c)
  && all_bytes (bitmap c).

End FilterSpec.


(* ================================================================== *)
(** * The indicator panel *)
(* ================================================================== *)

Module Indicators.
Import JsString JsNumber.
Local Open Scope string_scope.

(** The parsed body of a response of [/api/analyze]; a field is [None]
    when the object does not have it. *)
Record AnalysisResult := {
  fall_detected : option bool;
  fall_confidence : option number;
  aggression : option bool;
  aggression_confidence : option number;
  risky_behavior : option bool;
  risky_confidence : option number;
  emotion : option string;
  emotion_confidence : option number
}.

(** ToBoolean of a flag that may be absent. *)
Definition flag (v : option bool) : bool :=
  match v with
  | Some b => b
  | None => false
  end.

(** [v || d] on a string that may be absent: the empty string is
    falsy. *)
Definition string_or (v : option string) (d : string) : string :=
  match v with
  | Some EmptyString | None => d
  | Some s => s
  end.

(** ** Elements *)

(** An element with the class [indicator-status]. *)
Record status_element := { textContent : string; color : string }.

(** A card, with the [.indicator-status] element that
    [querySelector] finds in it, if any. *)
Record card := { classList : list string; indicator_status : option status_element }.

(** A confidence bar; the inline width is a percentage, [None] while
    the inline style has none. *)
Record bar := { width : option number; background : string }.

(** What [innerHTML] was given: a string of the program, or the text
    that the engine prints for a built-in member. *)
Inductive html := Markup (s : string) | BuiltinText (member : string).

(** The elements that [updateIndicators] looks up by id; [None] when
    [getElementById] finds nothing. *)
Record document := {
  fallIndicator : option card;
  fallConfidence : option bar;
  aggressionIndicator : option card;
  aggressionConfidence : option bar;
  riskyIndicator : option card;
  riskyConfidence : option bar;
  emotionIcon : option html;
  emotionStatus : option status_element;
  emotionConfidence : option bar
}.

(** [classList.add] and [classList.remove] *)
Definition classList_add (l : list string) (c : string) : list string :=
  if existsb (String.eqb c) l then l else (l ++ [c])%list.

Definition classList_remove (l : list string) (c : string) : list string :=
  filter (fun x => negb (String.eqb c x)) l.

(** [style.width = `${v}%`]: a percentage that is negative or not
    finite does not parse, and the declaration keeps its value. *)
Definition set_width (b : bar) (v : number) : bar :=
  if is_finite v && negb (is_negative v)
  then {| width := Some v; background := background b |}
  else b.

Definition set_background (b : bar) (v : string) : bar :=
  {| width := width b; background := v |}.

(** ** Property lookup on an object literal *)

(** [obj[key]]: an own property, a member inherited from
    [Object.prototype], or [undefined]. *)
Inductive property := Own (v : string) | Inherited (member : string) | Undefined.

Definition object_prototype_keys : list string :=
  ["constructor"; "hasOwnProperty"; "isPrototypeOf"; "propertyIsEnumerable";
   "toLocaleString"; "toString"; "valueOf"; "__proto__";
   "__defineGetter__"; "__defineSetter__"; "__lookupGetter__"; "__lookupSetter__"].

Fixpoint own_property (table : list (string * string)) (key : string) : option string :=
  match table with
  | [] => None
  | (k, v) :: rest => if String.eqb k key then Some v else own_property rest key
  end.

Definition lookup (table : list (string * string)) (key : string) : property :=
  match own_property table key with
  | Some v => Own v
  | None =>
      if existsb (String.eqb key) object_prototype_keys
      then Inherited key else Undefined
  end.

(** [p || q] where [q] is an own property: a built-in member is a
    function or an object, hence truthy. *)
Definition property_or (p : property) (q : string) : html :=
  match p with
  | Own EmptyString | Undefined => Markup q
  | Own v => Markup v
  | Inherited m => BuiltinText m
  end.

(** Assigning a property to a colour declaration: [undefined] and the
    text of a built-in member do not parse as a colour, and the
    declaration keeps its value. *)
Definition css_assign (old : string) (p : property) : string :=
  match p with
  | Own v => v
  | Inherited _ | Undefined => old
  end.

Definition emotionIcons : list (string * string) :=
  [("happy", "&#128522;"); ("sad", "&#128546;"); ("angry", "&#128544;");
   ("scared", "&#128552;"); ("neutral", "&#128528;")].

Definition emotionColors : list (string * string) :=
  [("happy", "var(--success-color)"); ("sad", "var(--info-color)");
   ("angry", "var(--danger-color)"); ("scared", "var(--warning-color)");
   ("neutral", "var(--secondary-color)")].

(** ** [updateIndicators] *)

(** One of the three blocks for fall, aggression and risky behaviour,
    which differ in their strings only: [detected] is the flag,
    [confidence] the confidence field. *)
Definition update_flag_indicator
    (detected : bool) (confidence : option number)
    (activeClass activeText activeColor idleText : string)
    (c : card) (st : status_element) (b : bar) : card * bar :=
  let c' :=
    if detected
    then {| classList := classList_add (classList c) activeClass;
            indicator_status :=
              Some {| textContent := activeText; color := activeColor |} |}
    else {| classList := classList_remove (classList c) activeClass;
            indicator_status :=
              Some {| textContent := idleText; color := "" |} |} in
  let b1 := set_width b (mul (or_default confidence lit_0) lit_100) in
  let b2 := set_background b1
              (if detected then activeColor else "var(--success-color)") in
  (c', b2).

(** The guard [if (card && confidence && status)] around a block. *)
Definition guarded_flag_indicator
    (detected : bool) (confidence : option number)
    (activeClass activeText activeColor idleText : string)
    (c : option card) (b : option bar) : option card * option bar :=
  match c, b with
  | Some c0, Some b0 =>
      match indicator_status c0 with
      | Some st =>
          let '(c', b') :=
            update_flag_indicator detected confidence
              activeClass activeText activeColor idleText c0 st b0 in
          (Some c', Some b')
      | None => (c, b)
      end
  | _, _ => (c, b)
  end.

Definition updateIndicators (results : AnalysisResult) (doc : document) : document :=
  let '(fallCard, fallBar) :=
    guarded_flag_indicator (flag (fall_detected results)) (fall_confidence results)
      "active-fall" "FALL DETECTED!" "var(--danger-color)" "No Fall Detected"
      (fallIndicator doc) (fallConfidence doc) in
  let '(aggressionCard, aggressionBar) :=
    guarded_flag_indicator (flag (aggression results)) (aggression_confidence results)
      "active-aggression" "AGGRESSION DETECTED!" "var(--warning-color)"
      "Normal Behavior"
      (aggressionIndicator doc) (aggressionConfidence doc) in
  let '(riskyCard, riskyBar) :=
    guarded_flag_indicator (flag (risky_behavior results)) (risky_confidence results)
      "active-risky" "RISKY BEHAVIOR!" "#eab308" "Safe Position"
      (riskyIndicator doc) (riskyConfidence doc) in
  let '(icon, status, emotionBar) :=
    match emotionIcon doc, emotionStatus doc, emotionConfidence doc with
    | Some _, Some st, Some b =>
        let emotion := string_or (emotion results) "neutral" in
        let icon' := property_or (lookup emotionIcons emotion) "&#128528;" in
        let st' := {| textContent := capitalizeFirst emotion;
                      color := css_assign (color st) (lookup emotionColors emotion) |} in
        let b1 := set_width b
                    (mul (or_default (emotion_confidence results) lit_0_5) lit_100) in
        let b2 := {| width := width b1;
                     background :=
                       css_assign (background b1) (lookup emotionColors emotion) |} in
        (Some icon', Some st', Some b2)
    | i, s, b => (i, s, b)
    end in
  {| fallIndicator := fallCard; fallConfidence := fallBar;
     aggressionIndicator := aggressionCard; aggressionConfidence := aggressionBar;
     riskyIndicator := riskyCard; riskyConfidence := riskyBar;
     emotionIcon := icon; emotionStatus := status; emotionConfidence := emotionBar |}.

(** ** [resetIndicators] *)

Definition reset_card (c : card) : card :=
  {| classList :=
       classList_remove
         (classList_remove (classList_remove (classList c) "active-fall")
            "active-aggression") "active-risky";
     indicator_status :=
       match indicator_status c with
       | Some st => Some {| textContent := textContent st; color := "" |}
       | None => None
       end |}.

Definition reset_bar (b : bar) : bar := set_width b lit_0.

(** Modelled from the spec: the page markup, which says which elements
    carry the classes [indicator-card] and [confidence-fill], is not
    part of the sources; section 4.4 has all four indicators forced to
    inactive, 0% and the default colour, so the three cards, the
    emotion status and the four bars are taken to be selected. *)
Definition resetIndicators (doc : document) : document :=
  {| fallIndicator := option_map reset_card (fallIndicator doc);
     fallConfidence := option_map reset_bar (fallConfidence doc);
     aggressionIndicator := option_map reset_card (aggressionIndicator doc);
     aggressionConfidence := option_map reset_bar (aggressionConfidence doc);
     riskyIndicator := option_map reset_card (riskyIndicator doc);
     riskyConfidence := option_map reset_bar (riskyConfidence doc);
     emotionIcon := emotionIcon doc;
     emotionStatus :=
       option_map (fun st => {| textContent := textContent st; color := "" |})
         (emotionStatus doc);
     emotionConfidence := option_map reset_bar (emotionConfidence doc) |}.

(** ** Reading the panel *)

(** An indicator is active when its card carries its class. *)
Definition active (c : option card) (activeClass : string) : bool :=
  match c with
  | Some c0 => existsb (String.eqb activeClass) (classList c0)
  | None => false
  end.

(** The bar fill, in percent. *)
Definition fill (b : option bar) : option number :=
  match b with
  | Some b0 => width b0
  | None => None
  end.

(** The emotion label on display. *)
Definition emotion_label (doc : document) : option string :=
  option_map textContent (emotionStatus doc).

Definition present {A : Type} (o : option A) : bool :=
  match o with
  | Some _ => true
  | None => false
  end.

Definition has_status (c : option card) : bool :=
  match c with
  | Some c0 => present (indicator_status c0)
  | None => false
  end.

(** Every element of the panel is in the page. *)
Definition complete (doc : document) : bool :=
  has_status (fallIndicator doc) && present (fallConfidence doc)
  && has_status (aggressionIndicator doc) && present (aggressionConfidence doc)
  && has_status (riskyIndicator doc) && present (riskyConfidence doc)
  && present (emotionIcon doc) && present (emotionStatus doc)
  && present (emotionConfidence doc).

(** The values of the emotion field that the tables know. *)
Definition known_emotions : list string :=
  ["happy"; "sad"; "angry"; "scared"; "neutral"].

End Indicators.

(* ================================================================== *)
(** * The session: start, stop, render, analyze *)
(* ================================================================== *)

Module Session.
Import JsString JsNumber Canvas2D.
Local Open Scope string_scope.

Definition MediaStream := positive.
Definition timer := positive.

(** The body of a request. *)
Inductive body := NoBody | JsonImage (image : string).

(** What the page does to the outside. *)
Inductive event :=
| GetUserMedia
| Play
| TrackStop (s : MediaStream)
| SetInterval (ms : Z) (id : timer)
| ClearInterval (id : timer)
| RequestAnimationFrame
| Fetch (method url : string) (b : body)
| ConsoleError (context : string)
| Alert (message : string).

(** The status badge: the background of its dot and its label. *)
Record badge := { dot_background : string; label : string }.

Section Browser.

(** A decoded video frame, and the two operations of the browser that
    consume one or produce an encoding: [drawImage frame w h] is the
    bitmap that [ctx.drawImage(video, 0, 0, w, h)] paints on a canvas
    of [w] by [h], and [toDataURL c] is
    [c.toDataURL('image/jpeg', 0.7)]. *)
Variable Frame : Type.
Variable drawImage : Frame -> Z -> Z -> list Z.
Variable toDataURL : canvas -> string.

(** The video element: the stream it plays, the dimensions it reports
    and the frame it shows. *)
Record video_element := {
  srcObject : option MediaStream;
  videoWidth : Z;
  videoHeight : Z;
  current_frame : Frame
}.

(** The application object with the elements it holds, and the trace of
    what it did, oldest first.  The video, the overlay and the two
    buttons are taken to be in the page; the canvas may be missing, as
    the code tests. *)
Record app := {
  isMonitoring : bool;
  stream : option MediaStream;
  analysisInterval : option timer;
  video : video_element;
  display : option canvas;
  overlay_hidden : bool;
  startBtn_disabled : bool;
  stopBtn_disabled : bool;
  statusBadge : option badge;
  indicators : Indicators.document;
  trace : list event
}.

Definition set_isMonitoring (v : bool) (s : app) : app :=
  {| isMonitoring := v; stream := stream s;
     analysisInterval := analysisInterval s; video := video s;
     display := display s; overlay_hidden := overlay_hidden s;
     startBtn_disabled := startBtn_disabled s;
     stopBtn_disabled := stopBtn_disabled s; statusBadge := statusBadge s;
     indicators := indicators s; trace := trace s |}.

Definition set_stream (v : option MediaStream) (s : app) : app :=
  {| isMonitoring := isMonitoring s; stream := v;
     analysisInterval := analysisInterval s; video := video s;
     display := display s; overlay_hidden := overlay_hidden s;
     startBtn_disabled := startBtn_disabled s;
     stopBtn_disabled := stopBtn_disabled s; statusBadge := statusBadge s;
     indicators := indicators s; trace := trace s |}.

Definition set_analysisInterval (v : option timer) (s : app) : app :=
  {| isMonitoring := isMonitoring s; stream := stream s;
     analysisInterval := v; video := video s;
     display := display s; overlay_hidden := overlay_hidden s;
     startBtn_disabled := startBtn_disabled s;
     stopBtn_disabled := stopBtn_disabled s; statusBadge := statusBadge s;
     indicators := indicators s; trace := trace s |}.

Definition set_video (v : video_element) (s : app) : app :=
  {| isMonitoring := isMonitoring s; stream := stream s;
     analysisInterval := analysisInterval s; video := v;
     display := display s; overlay_hidden := overlay_hidden s;
     startBtn_disabled := startBtn_disabled s;
     stopBtn_disabled := stopBtn_disabled s; statusBadge := statusBadge s;
     indicators := indicators s; trace := trace s |}.

Definition set_display (v : option canvas) (s : app) : app :=
  {| isMonitoring := isMonitoring s; stream := stream s;
     analysisInterval := analysisInterval s; video := video s;
     display := v; overlay_hidden := overlay_hidden s;
     startBtn_disabled := startBtn_disabled s;
     stopBtn_disabled := stopBtn_disabled s; statusBadge := statusBadge s;
     indicators := indicators s; trace := trace s |}.

(** The overlay and the two buttons change together. *)
Definition set_controls (hidden startDisabled stopDisabled : bool) (s : app) : app :=
  {| isMonitoring := isMonitoring s; stream := stream s;
     analysisInterval := analysisInterval s; video := video s;
     display := display s; overlay_hidden := hidden;
     startBtn_disabled := startDisabled;
     stopBtn_disabled := stopDisabled; statusBadge := statusBadge s;
     indicators := indicators s; trace := trace s |}.

Definition set_statusBadge (v : option badge) (s : app) : app :=
  {| isMonitoring := isMonitoring s; stream := stream s;
     analysisInterval := analysisInterval s; video := video s;
     display := display s; overlay_hidden := overlay_hidden s;
     startBtn_disabled := startBtn_disabled s;
     stopBtn_disabled := stopBtn_disabled s; statusBadge := v;
     indicators := indicators s; trace := trace s |}.

Definition set_indicators (v : Indicators.document) (s : app) : app :=
  {| isMonitoring := isMonitoring s; stream := stream s;
     analysisInterval := analysisInterval s; video := video s;
     display := display s; overlay_hidden := overlay_hidden s;
     startBtn_disabled := startBtn_disabled s;
     stopBtn_disabled := stopBtn_disabled s; statusBadge := statusBadge s;
     indicators := v; trace := trace s |}.

(** One more event at the end of the trace. *)
Definition emit (e : event) (s : app) : app :=
  {| isMonitoring := isMonitoring s; stream := stream s;
     analysisInterval := analysisInterval s; video := video s;
     display := display s; overlay_hidden := overlay_hidden s;
     startBtn_disabled := startBtn_disabled s;
     stopBtn_disabled := stopBtn_disabled s; statusBadge := statusBadge s;
     indicators := indicators s; trace := (trace s ++ [e])%list |}.

(** ** A method body: state passing, with exceptions *)

Definition M (A : Type) : Type := app -> completion A * app.

Definition ret {A : Type} (a : A) : M A := fun s => (Normal a, s).

Definition bind {A B : Type} (m : M A) (k : A -> M B) : M B :=
  fun s =>
    match m s with
    | (Normal a, s') => k a s'
    | (Throw e, s') => (Throw e, s')
    end.

Definition throw {A : Type} (e : exn) : M A := fun s => (Throw e, s).

Definition modify (f : app -> app) : M unit := fun s => (Normal tt, f s).

(** [try { body } catch (error) { handler }] *)
Definition try_catch (m : M unit) (handler : exn -> M unit) : M unit :=
  fun s =>
    match m s with
    | (Normal _, s') => (Normal tt, s')
    | (Throw e, s') => handler e s'
    end.

Notation "x <- m ;; k" := (bind m (fun x => k))
  (at level 61, m at next level, right associativity).
Notation "m ;;; k" := (bind m (fun _ => k))
  (at level 61, right associativity).

(** ** What the environment answers to an awaited call *)

(** To [getUserMedia]: a stream, or a rejection. *)
Inductive media_answer := Granted (s : MediaStream) | Denied.

(** To [video.play()]: the video plays, reporting its dimensions and
    showing a frame, or the promise rejects. *)
Inductive play_answer := Playing (w h : Z) (f : Frame) | PlayRejected.

(** To [fetch]: a response with its [ok] flag and its body parsed as an
    analysis result ([None] when it is not JSON), or a rejection.  A
    body that is JSON is taken to have the shape of a result: each
    field that [updateIndicators] reads is absent or of the type it is
    read at. *)
Inductive fetch_answer :=
| Response (ok : bool) (json : option Indicators.AnalysisResult)
| Rejected.

Record start_answers := {
  media : media_answer;
  play : play_answer;
  interval_id : timer;
  toggle : fetch_answer
}.

(** ** Methods *)

(** [updateStatusBadge(text, active)] *)
Definition updateStatusBadge (text : string) (active : bool) : M unit :=
  modify (fun s =>
    match statusBadge s with
    | Some _ =>
        set_statusBadge
          (Some {| dot_background :=
                     if active then "var(--success-color)"
                     else "var(--secondary-color)";
                   label := text |}) s
    | None => s
    end).

(** [showError(message)] *)
Definition showError (message : string) : M unit := modify (emit (Alert message)).

(** [this.canvas.width = w; this.canvas.height = h]: a canvas that is
    given dimensions is cleared to transparent black; with no canvas
    the assignment throws. *)
Definition resize_display (w h : Z) : M unit :=
  fun s =>
    match display s with
    | Some _ =>
        (Normal tt,
         set_display
           (Some {| canvas_width := w; canvas_height := h;
                    bitmap := repeat 0 (Z.to_nat (4 * w * h)) |}) s)
    | None => (Throw (OtherError "TypeError"), s)
    end.

(** [renderFrame()], one cycle: the next one is a callback of
    [requestAnimationFrame]. *)
Definition renderFrame : M unit :=
  fun s =>
    match isMonitoring s, display s with
    | true, Some c =>
        let drawn :=
          {| canvas_width := canvas_width c;
             canvas_height := canvas_height c;
             bitmap := drawImage (current_frame (video s))
                         (canvas_width c) (canvas_height c) |} in
        match PrivacyFilter.applyPrivacyFilter drawn with
        | (Normal _, filtered) =>
            (Normal tt, emit RequestAnimationFrame (set_display (Some filtered) s))
        | (Throw e, kept) => (Throw e, set_display (Some kept) s)
        end
    | _, _ => (Normal tt, s)
    end.

(** [startMonitoring()], run to its end with the answers [a]. *)
Definition startMonitoring (a : start_answers) : M unit :=
  try_catch
    (modify (emit GetUserMedia) ;;;
     match media a with
     | Denied => throw (OtherError "NotAllowedError")
     | Granted st =>
         modify (set_stream (Some st)) ;;;
         modify (fun s =>
           set_video {| srcObject := Some st;
                        videoWidth := videoWidth (video s);
                        videoHeight := videoHeight (video s);
                        current_frame := current_frame (video s) |} s) ;;;
         modify (emit Play) ;;;
         match play a with
         | PlayRejected => throw (OtherError "play")
         | Playing w h f =>
             modify (set_video {| srcObject := Some st; videoWidth := w;
                                  videoHeight := h; current_frame := f |}) ;;;
             resize_display (if (w =? 0)%Z then 640 else w)
                            (if (h =? 0)%Z then 480 else h) ;;;
             modify (set_isMonitoring true) ;;;
             modify (set_controls true true false) ;;;
             updateStatusBadge "Monitoring Active" true ;;;
             renderFrame ;;;
             modify (emit (SetInterval 500 (interval_id a))) ;;;
             modify (set_analysisInterval (Some (interval_id a))) ;;;
             modify (emit (Fetch "POST" "/api/status/toggle" NoBody)) ;;;
             match toggle a with
             | Rejected => throw (OtherError "fetch")
             | Response _ _ => ret tt
             end
         end
     end)
    (fun _ =>
       modify (emit (ConsoleError "Error starting monitoring:")) ;;;
       showError
         "Could not access camera. Please allow camera permissions and try again.").

(** [stopMonitoring()] *)
Definition stopMonitoring : M unit :=
  modify (set_isMonitoring false) ;;;
  (fun s =>
     match stream s with
     | Some st => (Normal tt, set_stream None (emit (TrackStop st) s))
     | None => (Normal tt, s)
     end) ;;;
  (fun s =>
     match analysisInterval s with
     | Some id => (Normal tt, set_analysisInterval None (emit (ClearInterval id) s))
     | None => (Normal tt, s)
     end) ;;;
  modify (set_controls false false true) ;;;
  updateStatusBadge "System Ready" false ;;;
  modify (fun s => set_indicators (Indicators.resetIndicators (indicators s)) s) ;;;
  modify (emit (Fetch "POST" "/api/status/toggle" NoBody)).

(** The image that [analyzeFrame] encodes: the video frame drawn on a
    fresh canvas of half the dimensions of the display canvas. *)
Definition snapshot (v : video_element) (c : canvas) : string :=
  let w := ToUint32 (mul (of_Z (canvas_width c)) lit_0_5) in
  let h := ToUint32 (mul (of_Z (canvas_height c)) lit_0_5) in
  toDataURL {| canvas_width := w; canvas_height := h;
               bitmap := drawImage (current_frame v) w h |}.

(** [analyzeFrame()], one tick, run to its end with the answer [a] of
    the service and with nothing else running while it awaits the
    answer; [Ticks] gives its two parts apart. *)
Definition analyzeFrame (a : fetch_answer) : M unit :=
  fun s =>
    match isMonitoring s, display s with
    | true, Some c =>
        try_catch
          (let imageData := snapshot (video s) c in
           modify (emit (Fetch "POST" "/api/analyze" (JsonImage imageData))) ;;;
           match a with
           | Rejected => throw (OtherError "fetch")
           | Response true (Some results) =>
               modify (fun s =>
                 set_indicators
                   (Indicators.updateIndicators results (indicators s)) s)
           | Response true None => throw (OtherError "SyntaxError")
           | Response false _ => ret tt
           end)
          (fun _ => modify (emit (ConsoleError "Error analyzing frame:")))
          s
    | _, _ => (Normal tt, s)
    end.

(** ** Reading a run *)

(** The state a method leaves. *)
Definition run (m : M unit) (s : app) : app := snd (m s).

(** The events a method adds to the trace of [s]. *)
Definition new_events (m : M unit) (s : app) : list event :=
  skipn (List.length (trace s)) (trace (run m s)).

Definition is_GetUserMedia (e : event) : bool :=
  match e with GetUserMedia => true | _ => false end.

Definition is_ConsoleError (e : event) : bool :=
  match e with ConsoleError _ => true | _ => false end.

Definition is_Fetch (url : string) (e : event) : bool :=
  match e with Fetch _ u _ => String.eqb u url | _ => false end.

(** The session is Active or Idle by [isMonitoring]. *)
Definition Active (s : app) : Prop := isMonitoring s = true.
Definition Idle (s : app) : Prop := isMonitoring s = false.

(** The same application with another bitmap on its display canvas. *)
Definition with_bitmap (bm : list Z) (s : app) : app :=
  match display s with
  | Some c =>
      set_display
        (Some {| canvas_width := canvas_width c;
                 canvas_height := canvas_height c; bitmap := bm |}) s
  | None => s
  end.

(** The session fields of the application. *)
Definition session_of (s : app) : bool * option MediaStream * option timer :=
  (isMonitoring s, stream s, analysisInterval s).

(** A tick fails by a transport error or by a response that is not
    2xx. *)
Definition failed (a : fetch_answer) : bool :=
  match a with
  | Rejected => true
  | Response ok _ => negb ok
  end.

End Browser.

Arguments srcObject {Frame} _.
Arguments videoWidth {Frame} _.
Arguments videoHeight {Frame} _.
Arguments current_frame {Frame} _.
Arguments isMonitoring {Frame} _.
Arguments stream {Frame} _.
Arguments analysisInterval {Frame} _.
Arguments video {Frame} _.
Arguments display {Frame} _.
Arguments overlay_hidden {Frame} _.
Arguments startBtn_disabled {Frame} _.
Arguments stopBtn_disabled {Frame} _.
Arguments statusBadge {Frame} _.
Arguments indicators {Frame} _.
Arguments trace {Frame} _.
Arguments set_isMonitoring {Frame} _ _.
Arguments set_stream {Frame} _ _.
Arguments set_analysisInterval {Frame} _ _.
Arguments set_video {Frame} _ _.
Arguments set_display {Frame} _ _.
Arguments set_controls {Frame} _ _ _ _.
Arguments set_statusBadge {Frame} _ _.
Arguments set_indicators {Frame} _ _.
Arguments emit {Frame} _ _.
Arguments Playing {Frame} _ _ _.
Arguments PlayRejected {Frame}.
Arguments media {Frame} _.
Arguments play {Frame} _.
Arguments interval_id {Frame} _.
Arguments toggle {Frame} _.
Arguments updateStatusBadge {Frame} _ _ _.
Arguments showError {Frame} _ _.
Arguments resize_display {Frame} _ _ _.
Arguments renderFrame {Frame} _ _.
Arguments startMonitoring {Frame} _ _ _.
Arguments stopMonitoring {Frame} _.
Arguments snapshot {Frame} _ _ _ _.
Arguments analyzeFrame {Frame} _ _ _ _.
Arguments run {Frame} _ _.
Arguments new_events {Frame} _ _.
Arguments Active {Frame} _.
Arguments Idle {Frame} _.
Arguments with_bitmap {Frame} _ _.
Arguments session_of {Frame} _.

End Session.

(* ================================================================== *)
(** * Sample inputs *)
(* ================================================================== *)

Module Samples.
Import Canvas2D.

(** A canvas of [w] by [h] pixels filled with a fixed pattern of
    bytes. *)
Definition patterned (w h : Z) : canvas :=
  {| canvas_width := w;
     canvas_height := h;
     bitmap := map (fun k => (Z.of_nat k * 37 + 11) mod 256)
                   (seq 0 (Z.to_nat (4 * w * h))) |}.

(** Its region is 4 by 4 pixels: one block, clipped. *)
Definition small_canvas : canvas := patterned 8 9.

(** Its region is 16 by 16 pixels: one whole block. *)
Definition aligned_canvas : canvas := patterned 32 36.

(** A panel with every element, as a page would first show it. *)
Definition idle_card (text : string) : Indicators.card :=
  {| Indicators.classList := ["indicator-card"%string];
     Indicators.indicator_status :=
       Some {| Indicators.textContent := text; Indicators.color := "" |} |}.

Definition empty_bar : Indicators.bar :=
  {| Indicators.width := None; Indicators.background := "" |}.

Definition panel : Indicators.document :=
  {| Indicators.fallIndicator := Some (idle_card "No Fall Detected");
     Indicators.fallConfidence := Some empty_bar;
     Indicators.aggressionIndicator := Some (idle_card "Normal Behavior");
     Indicators.aggressionConfidence := Some empty_bar;
     Indicators.riskyIndicator := Some (idle_card "Safe Position");
     Indicators.riskyConfidence := Some empty_bar;
     Indicators.emotionIcon := Some (Indicators.Markup "&#128528;");
     Indicators.emotionStatus :=
       Some {| Indicators.textContent := "Neutral"; Indicators.color := "" |};
     Indicators.emotionConfidence := Some empty_bar |}.

(** A result with no field at all. *)
Definition no_fields : Indicators.AnalysisResult :=
  {| Indicators.fall_detected := None; Indicators.fall_confidence := None;
     Indicators.aggression := None; Indicators.aggression_confidence := None;
     Indicators.risky_behavior := None; Indicators.risky_confidence := None;
     Indicators.emotion := None; Indicators.emotion_confidence := None |}.

(** The result [{fall_detected: true, fall_confidence: 0.9}]. *)
Definition fall_result : Indicators.AnalysisResult :=
  {| Indicators.fall_detected := Some true;
     Indicators.fall_confidence := Some (JsNumber.literal 9 1);
     Indicators.aggression := None; Indicators.aggression_confidence := None;
     Indicators.risky_behavior := None; Indicators.risky_confidence := None;
     Indicators.emotion := None; Indicators.emotion_confidence := None |}.

(** A result whose emotion is none of the five. *)
Definition confused_result : Indicators.AnalysisResult :=
  {| Indicators.fall_detected := None; Indicators.fall_confidence := None;
     Indicators.aggression := None; Indicators.aggression_confidence := None;
     Indicators.risky_behavior := None; Indicators.risky_confidence := None;
     Indicators.emotion := Some "confused"%string;
     Indicators.emotion_confidence := None |}.

(** A result whose four confidences are 0. *)
Definition zero_result : Indicators.AnalysisResult :=
  {| Indicators.fall_detected := Some false;
     Indicators.fall_confidence := Some JsNumber.lit_0;
     Indicators.aggression := Some false;
     Indicators.aggression_confidence := Some JsNumber.lit_0;
     Indicators.risky_behavior := Some false;
     Indicators.risky_confidence := Some JsNumber.lit_0;
     Indicators.emotion := Some "happy"%string;
     Indicators.emotion_confidence := Some JsNumber.lit_0 |}.

(** A browser for the examples: a frame is one byte, drawn as a flat
    bitmap, and an encoding is the list of the bytes it stands for. *)
Definition flat_drawImage (f : Z) (w h : Z) : list Z :=
  repeat f (Z.to_nat (4 * w * h)).

Definition byte_string (l : list Z) : string :=
  fold_right (fun v acc => String (ascii_of_nat (Z.to_nat v)) acc) EmptyString l.

Definition plain_toDataURL (c : canvas) : string := byte_string (bitmap c).

(** The application before any start, on a display canvas of 8 by 9. *)
Definition idle_app : Session.app Z :=
  {| Session.isMonitoring := false;
     Session.stream := None;
     Session.analysisInterval := None;
     Session.video :=
       {| Session.srcObject := None; Session.videoWidth := 0;
          Session.videoHeight := 0; Session.current_frame := 0 |};
     Session.display := Some small_canvas;
     Session.overlay_hidden := false;
     Session.startBtn_disabled := false;
     Session.stopBtn_disabled := true;
     Session.statusBadge :=
       Some {| Session.dot_background := "var(--secondary-color)";
               Session.label := "System Ready" |};
     Session.indicators := panel;
     Session.trace := [] |}.

(** Answers of a camera that is granted and a service that answers. *)
Definition good_answers : Session.start_answers Z :=
  {| Session.media := Session.Granted 1%positive;
     Session.play := Session.Playing 8 9 65;
     Session.interval_id := 7%positive;
     Session.toggle := Session.Response true None |}.

(** The answers to a second request for the camera. *)
Definition second_answers : Session.start_answers Z :=
  {| Session.media := Session.Granted 2%positive;
     Session.play := Session.Playing 8 9 66;
     Session.interval_id := 8%positive;
     Session.toggle := Session.Response true None |}.

(** The application after one start. *)
Definition active_app : Session.app Z :=
  Session.run (Session.startMonitoring flat_drawImage good_answers) idle_app.

End Samples.

(* ================================================================== *)
(** * Blocks of the face region *)
(* ================================================================== *)

Module FilterBlocks.
Import Canvas2D FilterSpec.

(** The canvas pixel [(X', Y')] lies in the region, in the block that
    holds [(X, Y)]. *)
Definition in_block_of (fr : FaceRegion.region) (X Y X' Y' : Z) : Prop :=
  in_region fr X' Y' = true /\
  block_origin (X' - FaceRegion.x fr) = block_origin (X - FaceRegion.x fr) /\
  block_origin (Y' - FaceRegion.y fr) = block_origin (Y - FaceRegion.y fr).

End FilterBlocks.

(* ================================================================== *)
(** * More sample inputs *)
(* ================================================================== *)

Module Scenarios.
Import Canvas2D.

(** The small canvas with its first two pixels, which lie outside the
    region, blacked out. *)
Definition small_canvas_other : canvas :=
  {| canvas_width := 8;
     canvas_height := 9;
     bitmap := map (fun k => if (k <? 8)%nat then 0
                             else (Z.of_nat k * 37 + 11) mod 256)
                   (seq 0 (Z.to_nat (4 * 8 * 9))) |}.

End Scenarios.

(* ================================================================== *)
(** * The panel as it shows, and the reset on any markup *)
(* ================================================================== *)

Module IndicatorViews.
Import JsString JsNumber Indicators.
Local Open Scope string_scope.

(** A percentage that the style parser takes: finite and not
    negative. *)
Definition valid_percent (v : number) : bool :=
  is_finite v && negb (is_negative v).

(** What a card shows: whether it carries its class, and the text and
    the colour of its status. *)
Definition card_view (c : option card) (activeClass : string)
  : bool * option string * option string :=
  (active c activeClass,
   match c with
   | Some c0 => option_map textContent (indicator_status c0)
   | None => None
   end,
   match c with
   | Some c0 => option_map color (indicator_status c0)
   | None => None
   end).

(** What a bar shows: its fill and its background. *)
Definition bar_view (b : option bar) : option number * option string :=
  (fill b, option_map background b).

(** What the panel shows. *)
Record view := {
  fall_view : bool * option string * option string;
  fall_bar_view : option number * option string;
  aggression_view : bool * option string * option string;
  aggression_bar_view : option number * option string;
  risky_view : bool * option string * option string;
  risky_bar_view : option number * option string;
  emotion_icon_view : option html;
  emotion_status_view : option status_element;
  emotion_bar_view : option number * option string
}.

Definition view_of (doc : document) : view :=
  {| fall_view := card_view (fallIndicator doc) "active-fall";
     fall_bar_view := bar_view (fallConfidence doc);
     aggression_view := card_view (aggressionIndicator doc) "active-aggression";
     aggression_bar_view := bar_view (aggressionConfidence doc);
     risky_view := card_view (riskyIndicator doc) "active-risky";
     risky_bar_view := bar_view (riskyConfidence doc);
     emotion_icon_view := emotionIcon doc;
     emotion_status_view := emotionStatus doc;
     emotion_bar_view := bar_view (emotionConfidence doc) |}.

(** A result that the panel can show in full: each confidence, or its
    default, times 100 is a percentage that parses, and the emotion is
    absent, empty or one of the five. *)
Definition showable (r : AnalysisResult) : Prop :=
  valid_percent (mul (or_default (fall_confidence r) lit_0) lit_100) = true /\
  valid_percent (mul (or_default (aggression_confidence r) lit_0) lit_100) = true /\
  valid_percent (mul (or_default (risky_confidence r) lit_0) lit_100) = true /\
  valid_percent (mul (or_default (emotion_confidence r) lit_0_5) lit_100) = true /\
  In (string_or (emotion r) "neutral") known_emotions.

(** Which of the elements of the panel the markup gives the classes
    that [resetIndicators] selects by: [indicator-card] for a card,
    [indicator-status] inside such a card for the emotion status, and
    [confidence-fill] for a bar. *)
Record selection := {
  fall_card_selected : bool;
  aggression_card_selected : bool;
  risky_card_selected : bool;
  emotion_status_selected : bool;
  fall_bar_selected : bool;
  aggression_bar_selected : bool;
  risky_bar_selected : bool;
  emotion_bar_selected : bool
}.

Definition when {A : Type} (selected : bool) (f : A -> A) (o : option A) : option A :=
  if selected then option_map f o else o.

(** [resetIndicators()] on a page whose markup selects [sel]. *)
Definition resetIndicators_on (sel : selection) (doc : document) : document :=
  {| fallIndicator := when (fall_card_selected sel) reset_card (fallIndicator doc);
     fallConfidence := when (fall_bar_selected sel) reset_bar (fallConfidence doc);
     aggressionIndicator :=
       when (aggression_card_selected sel) reset_card (aggressionIndicator doc);
     aggressionConfidence :=
       when (aggression_bar_selected sel) reset_bar (aggressionConfidence doc);
     riskyIndicator := when (risky_card_selected sel) reset_card (riskyIndicator doc);
     riskyConfidence := when (risky_bar_selected sel) reset_bar (riskyConfidence doc);
     emotionIcon := emotionIcon doc;
     emotionStatus :=
       when (emotion_status_selected sel)
         (fun st => {| textContent := textContent st; color := "" |})
         (emotionStatus doc);
     emotionConfidence :=
       when (emotion_bar_selected sel) reset_bar (emotionConfidence doc) |}.

Definition everything : selection :=
  {| fall_card_selected := true; aggression_card_selected := true;
     risky_card_selected := true; emotion_status_selected := true;
     fall_bar_selected := true; aggression_bar_selected := true;
     risky_bar_selected := true; emotion_bar_selected := true |}.

(** The texts and the markup that the panel holds, which no reset
    writes: the three status texts, the emotion label, the emotion
    icon and the four bar backgrounds. *)
Definition texts_of (doc : document)
  : list (option string) * option html * list (option string) :=
  ([snd (fst (card_view (fallIndicator doc) "active-fall"));
    snd (fst (card_view (aggressionIndicator doc) "active-aggression"));
    snd (fst (card_view (riskyIndicator doc) "active-risky"));
    option_map textContent (emotionStatus doc)],
   emotionIcon doc,
   [option_map background (fallConfidence doc);
    option_map background (aggressionConfidence doc);
    option_map background (riskyConfidence doc);
    option_map background (emotionConfidence doc)]).

(** No card carries any of the three classes of an active indicator. *)
Definition inactive (c : option card) : bool :=
  negb (active c "active-fall") && negb (active c "active-aggression")
  && negb (active c "active-risky").

End IndicatorViews.

(* ================================================================== *)
(** * More runs of the session *)
(* ================================================================== *)

Module SessionScenarios.
Import Samples.

(** A camera that is refused. *)
Definition denied_answers : Session.start_answers Z :=
  {| Session.media := Session.Denied;
     Session.play := Session.PlayRejected;
     Session.interval_id := 9%positive;
     Session.toggle := Session.Rejected |}.

(** A camera that is granted, on a video that does not play. *)
Definition unplayable_answers : Session.start_answers Z :=
  {| Session.media := Session.Granted 3%positive;
     Session.play := Session.PlayRejected;
     Session.interval_id := 10%positive;
     Session.toggle := Session.Response true None |}.

(** A camera whose picture is one pixel wide. *)
Definition tiny_answers : Session.start_answers Z :=
  {| Session.media := Session.Granted 4%positive;
     Session.play := Session.Playing 1 9 67;
     Session.interval_id := 11%positive;
     Session.toggle := Session.Response true None |}.

(** A camera that is granted, and a service that cannot be reached. *)
Definition offline_answers : Session.start_answers Z :=
  {| Session.media := Session.Granted 5%positive;
     Session.play := Session.Playing 8 9 68;
     Session.interval_id := 12%positive;
     Session.toggle := Session.Rejected |}.

End SessionScenarios.


(* ================================================================== *)
(** * The alerts panel *)
(* ================================================================== *)

Module AlertFeed.
Import JsString JsNumber Alerts.
Local Open Scope string_scope.

(** The line break and the double quote of the template literals. *)
Definition nl : string := String (ascii_of_nat 10) EmptyString.
Definition dq : string := String (ascii_of_nat 34) EmptyString.

Fixpoint spaces (n : nat) : string :=
  match n with
  | O => EmptyString
  | S n' => String " " (spaces n')
  end.

(** One line of a template literal: the line break that ends the line
    before it, its indentation and its text. *)
Definition line (indent : nat) (text : string) : string :=
  nl ++ spaces indent ++ text.

(** The decimal digits of a natural number. *)
Definition decimal (n : Z) : string := NilZero.string_of_uint (N.to_uint (Z.to_N n)).

(** An alert of the feed.  [issue] is [None] when the property is
    missing or null; [timestamp] likewise; [confidence] and [action] are
    what the multiplication and the template make of the properties, a
    Number and a string. *)
Record alert := {
  issue : option string;
  timestamp : option string;
  confidence : number;
  action : string
}.

(** What [response.json()] gives to [renderAlerts]: null (or another
    value that is falsy), an array of alerts, or a value that is
    neither, such as the object of an error body, of which the code
    reads whether its [length] is the number 0. *)
Inductive feed :=
| FeedNull
| FeedArray (l : list alert)
| FeedObject (length_is_zero : bool).

(** The list element and what the page did, oldest first. *)
Record panel := { alertsList : option string; log : list Session.event }.

Definition logged (e : Session.event) (p : panel) : panel :=
  {| alertsList := alertsList p; log := (log p ++ [e])%list |}.

(** What the service answers to a request: a response with its [ok]
    flag and its body parsed ([None] when it does not parse), or a
    rejection. *)
Inductive answer (A : Type) := Answered (ok : bool) (json : option A) | Unreachable.
Arguments Answered {A} _ _.
Arguments Unreachable {A}.

Inductive reply := Replied (ok : bool) | NoReply.

Section Engine.

(** The two conversions that belong to the engine and its locale:
    [new Date(iso).toLocaleTimeString()], and the exponential notation
    that [toFixed] falls back to from [1e21] on. *)
Variable toLocaleTimeString : string -> string.
Variable exponential : number -> string.

(** [x.toFixed(0)]: the nearest integer, the larger one of two that are
    as near, in decimal digits after the sign of [x]. *)
Definition toFixed0 (x : number) : string :=
  match x with
  | S754_nan => "NaN"
  | S754_infinity false => "Infinity"
  | S754_infinity true => "-Infinity"
  | S754_zero _ => "0"
  | S754_finite s m e =>
      let n := if (0 <=? e)%Z then Z.pos m * 2 ^ e
               else (2 * Z.pos m + 2 ^ (- e)) / 2 ^ (1 - e) in
      if (10 ^ 21 <=? n)%Z then exponential x
      else (if s then "-" else EmptyString) ++ decimal n
  end.

(** [formatTime(isoString)] *)
Definition formatTime (isoString : option string) : string :=
  match isoString with
  | None => EmptyString
  | Some EmptyString => EmptyString
  | Some iso => toLocaleTimeString iso
  end.

(** The markup of one alert; [issue.includes] throws on an issue that
    is missing. *)
Definition alert_item (a : alert) : completion string :=
  match issue a with
  | None => Throw (OtherError "TypeError")
  | Some i =>
      let alertClass := getAlertClass i in
      let icon := getAlertIcon i in
      Normal
        (line 16 ("<div class=" ++ dq ++ "alert-item " ++ alertClass ++ dq ++ ">")
         ++ line 20 ("<div class=" ++ dq ++ "alert-icon" ++ dq ++ ">" ++ icon ++ "</div>")
         ++ line 20 ("<div class=" ++ dq ++ "alert-content" ++ dq ++ ">")
         ++ line 24 ("<div class=" ++ dq ++ "alert-title" ++ dq ++ ">" ++ i ++ "</div>")
         ++ line 24 ("<div class=" ++ dq ++ "alert-meta" ++ dq ++ ">")
         ++ line 28 (formatTime (timestamp a) ++ " | Confidence: "
                     ++ toFixed0 (mul (confidence a) lit_100) ++ "%")
         ++ line 24 "</div>"
         ++ line 24 ("<div class=" ++ dq ++ "alert-action" ++ dq ++ ">" ++ action a
                     ++ "</div>")
         ++ line 20 "</div>"
         ++ line 16 "</div>"
         ++ line 12 EmptyString)
  end.

(** [alerts.map(alert => ...)]: in order, up to the first throw. *)
Fixpoint map_items (l : list alert) : completion (list string) :=
  match l with
  | [] => Normal []
  | a :: l' =>
      match alert_item a with
      | Throw e => Throw e
      | Normal item =>
          match map_items l' with
          | Throw e => Throw e
          | Normal items => Normal (item :: items)
          end
      end
  end.

Definition no_alerts : string :=
  line 16 ("<div class=" ++ dq ++ "no-alerts" ++ dq ++ ">")
  ++ line 20 ("<span class=" ++ dq ++ "no-alerts-icon" ++ dq ++ ">&#10003;</span>")
  ++ line 20 "<p>No alerts detected</p>"
  ++ line 16 "</div>"
  ++ line 12 EmptyString.

(** [renderAlerts(alerts)], on the [innerHTML] of the list element
    ([None] when the page has none): the completion, the [innerHTML]
    and the value that was passed, which [reverse()] changes in
    place.  A value that is no array has no [reverse] to call. *)
Definition renderAlerts (alertsList : option string) (alerts : feed)
  : completion unit * option string * feed :=
  match alertsList with
  | None => (Normal tt, None, alerts)
  | Some shown =>
      match alerts with
      | FeedNull | FeedArray [] | FeedObject true =>
          (Normal tt, Some no_alerts, alerts)
      | FeedObject false => (Throw (OtherError "TypeError"), Some shown, alerts)
      | FeedArray l =>
          let reversed := rev l in
          match map_items reversed with
          | Throw e => (Throw e, Some shown, FeedArray reversed)
          | Normal items =>
              (Normal tt, Some (String.concat EmptyString items), FeedArray reversed)
          end
      end
  end.

(** [loadAlerts()], run to its end with the answer [a]. *)
Definition loadAlerts (a : answer feed) (p : panel) : panel :=
  let p1 := logged (Session.Fetch "GET" "/api/alerts?limit=20" Session.NoBody) p in
  let failed := logged (Session.ConsoleError "Error loading alerts:") in
  match a with
  | Unreachable => failed p1
  | Answered _ None => failed p1
  | Answered _ (Some alerts) =>
      match renderAlerts (alertsList p1) alerts with
      | (Normal _, shown, _) => {| alertsList := shown; log := log p1 |}
      | (Throw _, shown, _) => failed {| alertsList := shown; log := log p1 |}
      end
  end.

(** [clearAlerts()], run to its end with the answer [c] to the request
    that clears, whose body is not read, and the answer [a] to the one
    that reloads. *)
Definition clearAlerts (c : reply) (a : answer feed) (p : panel) : panel :=
  let p1 := logged (Session.Fetch "POST" "/api/alerts/clear" Session.NoBody) p in
  match c with
  | NoReply => logged (Session.ConsoleError "Error clearing alerts:") p1
  | Replied _ => loadAlerts a p1
  end.

(** The text of an item that is rendered. *)
Definition item_text (a : alert) : string :=
  match alert_item a with
  | Normal item => item
  | Throw _ => EmptyString
  end.

End Engine.

End AlertFeed.

(* ================================================================== *)
(** * The status poll *)
(* ================================================================== *)

Module StatusPoll.
Import Session AlertFeed.
Local Open Scope string_scope.

(** The body of [/api/status]: null, or an object with the truth value
    of its [monitoring_active], false when it has none. *)
Inductive status := StatusNull | StatusObject (monitoring_active : bool).

Section Browser.

Variable Frame : Type.

(** [updateSystemStatus()], run to its end with the answer [a]. *)
Definition updateSystemStatus (a : answer status) : M Frame unit :=
  try_catch Frame
    (bind Frame (modify Frame (emit (Fetch "GET" "/api/status" NoBody)))
       (fun _ =>
          match a with
          | Unreachable => throw Frame (OtherError "fetch")
          | Answered _ None => throw Frame (OtherError "SyntaxError")
          | Answered _ (Some st) =>
              fun s =>
                match statusBadge s with
                | None => (Normal tt, s)
                | Some _ =>
                    match st with
                    | StatusNull => (Throw (OtherError "TypeError"), s)
                    | StatusObject true =>
                        (Normal tt,
                         set_statusBadge
                           (Some {| dot_background := "var(--success-color)";
                                    label := "Monitoring Active" |}) s)
                    | StatusObject false =>
                        (Normal tt,
                         set_statusBadge
                           (Some {| dot_background := "var(--secondary-color)";
                                    label := "System Ready" |}) s)
                    end
                end
          end))
    (fun _ => modify Frame (emit (ConsoleError "Error updating system status:"))).

End Browser.

Arguments updateSystemStatus {Frame} _ _.

End StatusPoll.

(* ================================================================== *)
(** * Sample alerts *)
(* ================================================================== *)

Module AlertScenarios.
Import AlertFeed.
Local Open Scope string_scope.

(** An engine for the examples: the time is shown as it is written,
    and no number is large enough for the exponential notation. *)
Definition written_time (iso : string) : string := iso.
Definition no_exponential (x : JsNumber.number) : string := "1e+21".

Definition fall_alert : alert :=
  {| issue := Some "Fall Detected <b>now</b>";
     timestamp := Some "2024-01-01T10:00:00";
     confidence := JsNumber.literal 29 2;
     action := "Check the patient" |}.

Definition emotion_alert : alert :=
  {| issue := Some "Emotion: sad";
     timestamp := None;
     confidence := JsNumber.literal 57 2;
     action := "Observe" |}.



End AlertScenarios.

(* ================================================================== *)
(** * Opaque canvases *)
(* ================================================================== *)

Module CanvasAlpha.
Import Canvas2D.

(** Every pixel of the canvas has alpha 255.  On such a canvas the
    bytes that [getImageData] gives and that [putImageData] takes are
    the bytes that the engine holds, whether or not it stores colours
    premultiplied by alpha. *)
Definition opaque (c : canvas) : bool :=
  forallb (fun j =>
             forallb (fun i => byte_at c (Z.of_nat i) (Z.of_nat j) 3 =? 255)
                     (seq 0 (Z.to_nat (canvas_width c))))
          (seq 0 (Z.to_nat (canvas_height c))).

End CanvasAlpha.

Module OpaqueSamples.
Import Canvas2D.

(** A canvas of [w] by [h] opaque pixels whose colours follow a fixed
    pattern. *)
Definition opaque_patterned (w h : Z) : canvas :=
  {| canvas_width := w;
     canvas_height := h;
     bitmap := map (fun k => if (Nat.modulo k 4 =? 3)%nat then 255
                             else (Z.of_nat k * 37 + 11) mod 256)
                   (seq 0 (Z.to_nat (4 * w * h))) |}.

(** Its region is 4 by 4 pixels: one block, clipped. *)
Definition small_opaque_canvas : canvas := opaque_patterned 8 9.

(** Its region is 16 by 16 pixels: one whole block. *)
Definition aligned_opaque_canvas : canvas := opaque_patterned 32 36.

(** A browser that draws a frame, which is one byte, as opaque grey. *)
Definition grey_drawImage (f : Z) (w h : Z) : list Z :=
  flat_map (fun _ => [f; f; f; 255]) (seq 0 (Z.to_nat (w * h))).

(** The application after one start on that browser. *)
Definition grey_active_app : Session.app Z :=
  Session.run (Session.startMonitoring grey_drawImage Samples.good_answers)
    Samples.idle_app.

End OpaqueSamples.

(* ================================================================== *)
(** * A tick in its two parts *)
(* ================================================================== *)

(** [analyzeFrame] awaits the answer of the service: what it does with
    the answer runs later, on the state that the application has by
    then.  The two parts are given apart here, so that a stop, or
    another tick, can come between them. *)
Module Ticks.
Import JsString JsNumber Canvas2D Session.
Local Open Scope string_scope.

Section Browser.

Variable Frame : Type.
Variable drawImage : Frame -> Z -> Z -> list Z.
Variable toDataURL : canvas -> string.

(** [analyzeFrame()] up to [await fetch(...)]: the test of the session,
    the snapshot and the request; [true] when a request is sent. *)
Definition analyzeFrame_request : M Frame bool :=
  fun s =>
    match isMonitoring s, display s with
    | true, Some c =>
        (Normal true,
         emit (Fetch "POST" "/api/analyze"
                 (JsonImage (snapshot drawImage toDataURL (video s) c))) s)
    | _, _ => (Normal false, s)
    end.

(** [analyzeFrame()] from the answer [a] on: the rest of the [try]
    block and its [catch], with no test of the session. *)
Definition analyzeFrame_resume (a : fetch_answer) : M Frame unit :=
  try_catch Frame
    match a with
    | Rejected => throw Frame (OtherError "fetch")
    | Response true (Some results) =>
        modify Frame (fun s =>
          set_indicators (Indicators.updateIndicators results (indicators s)) s)
    | Response true None => throw Frame (OtherError "SyntaxError")
    | Response false _ => ret Frame tt
    end
    (fun _ => modify Frame (emit (ConsoleError "Error analyzing frame:"))).

End Browser.

Arguments analyzeFrame_request {Frame} _ _ _.
Arguments analyzeFrame_resume {Frame} _ _.

End Ticks.

(* ================================================================== *)
(** * Facts about strings *)
(* ================================================================== *)

Section AlertFacts.
Import JsString Alerts.
Local Open Scope string_scope.

Lemma starts_with_app (s p : string) :
  starts_with s p = true <-> exists t, s = p ++ t.
Proof.
  revert s; induction p as [|a p IH]; intros s; simpl.
  - split; [intros _; now exists s | reflexivity].
  - destruct s as [|b s].
    + split; [discriminate | intros [t Ht]; discriminate].
    + rewrite andb_true_iff, Ascii.eqb_eq, IH. split.
      * intros [-> [t ->]]. now exists t.
      * intros [t Ht]. injection Ht as -> ->. split; [reflexivity | now exists t].
Qed.

Lemma includes_occurs (s needle : string) :
  includes s needle = true <-> occurs_in needle s.
Proof.
  unfold occurs_in. induction s as [|b s IH].
  - simpl. rewrite orb_false_r, starts_with_app. split.
    + intros [t Ht]. exists EmptyString, t. exact Ht.
    + intros [pre [post H]]. destruct pre; simpl in H.
      * now exists post.
      * discriminate.
  - simpl includes. rewrite orb_true_iff, starts_with_app, IH. split.
    + intros [[t Ht] | [pre [post H]]].
      * exists EmptyString, t. exact Ht.
      * exists (String b pre), post. simpl. now rewrite H.
    + intros [pre [post H]]. destruct pre as [|c pre]; simpl in H.
      * left. now exists post.
      * right. injection H as _ H. now exists pre, post.
Qed.

Lemma class_of_inj (c d : category) : class_of c = class_of d -> c = d.
Proof. destruct c, d; simpl; intros H; try reflexivity; discriminate H. Qed.

End AlertFacts.



(* ================================================================== *)
(** * Facts about binary64 rounding *)
(* ================================================================== *)

Section NumberFacts.
Import JsNumber.

Lemma digits2_pos_bounds (p : positive) :
  2 ^ (Zpos (digits2_pos p) - 1) <= Zpos p < 2 ^ Zpos (digits2_pos p).
Proof.
  induction p as [p IH|p IH|]; simpl digits2_pos.
  - rewrite Pos2Z.inj_succ.
    replace (Z.succ (Zpos (digits2_pos p)) - 1)
      with (Z.succ (Zpos (digits2_pos p) - 1)) by lia.
    rewrite !Z.pow_succ_r by lia. lia.
  - rewrite Pos2Z.inj_succ.
    replace (Z.succ (Zpos (digits2_pos p)) - 1)
      with (Z.succ (Zpos (digits2_pos p) - 1)) by lia.
    rewrite !Z.pow_succ_r by lia. lia.
  - simpl. lia.
Qed.

Lemma Zdigits2_bounds (m : Z) :
  0 < m -> 2 ^ (Zdigits2 m - 1) <= m < 2 ^ Zdigits2 m.
Proof.
  destruct m as [|p|p]; try lia. intros _. apply digits2_pos_bounds.
Qed.

Lemma Zdigits2_nonneg (m : Z) : 0 <= Zdigits2 m.
Proof. destruct m; simpl; lia. Qed.

(** An upper bound on a number bounds its count of digits. *)
Lemma Zdigits2_le (m k : Z) : 0 <= m -> 0 <= k -> m < 2 ^ k -> Zdigits2 m <= k.
Proof.
  intros Hm Hk Hlt. destruct (Z.eq_dec m 0) as [->|Hne]; [simpl; lia|].
  pose proof (Zdigits2_bounds m ltac:(lia)) as [Hlo _].
  assert (2 ^ (Zdigits2 m - 1) < 2 ^ k) as H by lia.
  apply Z.pow_lt_mono_r_iff in H; lia.
Qed.

(** A lower bound on a number bounds its count of digits from below. *)
Lemma Zdigits2_ge (m k : Z) : 0 <= k -> 2 ^ k <= m -> k + 1 <= Zdigits2 m.
Proof.
  intros Hk Hle.
  assert (0 < m) as Hm by (pose proof (Z.pow_pos_nonneg 2 k); lia).
  pose proof (Zdigits2_bounds m Hm) as [_ Hhi].
  pose proof (Zdigits2_nonneg m).
  assert (2 ^ k < 2 ^ Zdigits2 m) as H' by lia.
  apply Z.pow_lt_mono_r_iff in H'; lia.
Qed.

Lemma shr_1_m (mrs : shr_record) :
  0 <= shr_m mrs -> shr_m (shr_1 mrs) = shr_m mrs / 2.
Proof.
  destruct mrs as [m r s]; simpl. intros Hm.
  rewrite <- Z.div2_div.
  destruct m as [|[p|p|]|p]; try reflexivity; lia.
Qed.

Lemma iter_pos_shr_m (n : positive) :
  forall mrs, 0 <= shr_m mrs ->
  shr_m (iter_pos shr_1 n mrs) = shr_m mrs / 2 ^ Zpos n.
Proof.
  induction n as [n IH|n IH|]; intros mrs Hm; simpl iter_pos.
  - assert (0 <= shr_m (shr_1 mrs)) as H1
      by (rewrite shr_1_m by assumption; apply Z.div_pos; lia).
    assert (0 <= shr_m (iter_pos shr_1 n (shr_1 mrs))) as H2
      by (rewrite IH by assumption; apply Z.div_pos; [assumption|];
          apply Z.pow_pos_nonneg; lia).
    rewrite IH, IH, shr_1_m by assumption.
    rewrite !Z.div_div by (try apply Z.pow_pos_nonneg; lia).
    f_equal. rewrite Pos2Z.inj_xI, <- Z.pow_add_r, <- Z.pow_succ_r by lia.
    f_equal. lia.
  - assert (0 <= shr_m (iter_pos shr_1 n mrs)) as H2
      by (rewrite IH by assumption; apply Z.div_pos; [assumption|];
          apply Z.pow_pos_nonneg; lia).
    rewrite IH, IH by assumption.
    rewrite !Z.div_div by (try apply Z.pow_pos_nonneg; lia).
    f_equal. rewrite Pos2Z.inj_xO, <- Z.pow_add_r by lia.
    f_equal. lia.
  - rewrite shr_1_m by assumption. reflexivity.
Qed.

(** A right shift divides the mantissa and raises the exponent. *)
Lemma shr_spec (mrs : shr_record) (e n : Z) :
  0 <= shr_m mrs ->
  snd (shr mrs e n) = e + Z.max 0 n /\
  shr_m (fst (shr mrs e n)) = shr_m mrs / 2 ^ Z.max 0 n.
Proof.
  intros Hm. destruct n as [|p|p]; simpl.
  - split; [lia | now rewrite Z.div_1_r].
  - split; [lia | now apply iter_pos_shr_m].
  - split; [lia | now rewrite Z.div_1_r].
Qed.

Lemma shr_m_of_loc (m : Z) (l : location) : shr_m (shr_record_of_loc m l) = m.
Proof. destruct l as [|[]]; reflexivity. Qed.

Lemma round_nearest_even_bounds (m : Z) (l : location) :
  m <= round_nearest_even m l <= m + 1.
Proof.
  destruct l as [|[]]; simpl; try lia. destruct (Z.even m); lia.
Qed.

(** Dividing by [2^k] moves a bound stated on the grid of exponent [e]
    to the grid of exponent [e + k]. *)
Lemma grid_le (m e k A : Z) :
  0 <= k -> e + k <= 0 ->
  A * 2 ^ (- e) <= m -> A * 2 ^ (- (e + k)) <= m / 2 ^ k.
Proof.
  intros Hk He H.
  assert (0 < 2 ^ k) by (apply Z.pow_pos_nonneg; lia).
  apply Z.div_le_lower_bound; [assumption|].
  replace (- e) with (- (e + k) + k) in H by lia.
  rewrite Z.pow_add_r in H by lia. lia.
Qed.

Lemma grid_lt (m e k A : Z) :
  0 <= k -> e + k <= 0 ->
  m < A * 2 ^ (- e) -> m / 2 ^ k < A * 2 ^ (- (e + k)).
Proof.
  intros Hk He H.
  assert (0 < 2 ^ k) by (apply Z.pow_pos_nonneg; lia).
  apply Z.div_lt_upper_bound; [assumption|].
  replace (- e) with (- (e + k) + k) in H by lia.
  rewrite Z.pow_add_r in H by lia. lia.
Qed.

(** The floor of a rounded value: when the exact value [mx * 2^ex] lies
    in [[K, K+1)] and stays at least one unit of the rounding grid
    below [K + 1], rounding cannot leave that interval. *)
Lemma binary_round_aux_floor (mx ex : Z) (lx : location) (K N : Z) :
  0 < mx -> ex <= 0 -> 0 <= K -> K + 1 <= 2 ^ 52 -> 0 <= N ->
  fexp prec emax (Zdigits2 mx + ex) - ex <= N ->
  K * 2 ^ (- ex) <= mx ->
  mx + 2 ^ N < (K + 1) * 2 ^ (- ex) ->
  Math_floor (binary_round_aux prec emax false mx ex lx) = Some K.
Proof.
  intros Hmx Hex HK HK52 HN Hn Hlo Hhi.
  assert (0 < 2 ^ (- ex)) as Hpex by (apply Z.pow_pos_nonneg; lia).
  assert (0 < 2 ^ N) as HpN by (apply Z.pow_pos_nonneg; lia).
  (* the first shift *)
  assert (Zdigits2 mx + ex <= 52) as Hd.
  { assert (Zdigits2 mx <= 52 - ex); [|lia].
    apply Zdigits2_le; try lia.
    replace (52 - ex) with (52 + - ex) by lia.
    rewrite Z.pow_add_r by lia. nia. }
  unfold binary_round_aux, shr_fexp.
  set (n1 := fexp prec emax (Zdigits2 mx + ex) - ex) in *.
  pose proof (shr_spec (shr_record_of_loc mx lx) ex n1) as S1.
  rewrite shr_m_of_loc in S1. specialize (S1 ltac:(lia)).
  destruct (shr (shr_record_of_loc mx lx) ex n1) as [mrs1 e1].
  simpl in S1. destruct S1 as [He1 Hq].
  set (k1 := Z.max 0 n1) in *.
  assert (0 <= k1 <= N) as Hk1 by lia.
  assert (e1 <= 0) as He1'.
  { subst e1 k1 n1. unfold fexp, emin, prec, emax in *. lia. }
  assert (2 ^ k1 <= 2 ^ N) as Hpk by (apply Z.pow_le_mono_r; lia).
  assert (0 < 2 ^ k1) as Hpk1 by (apply Z.pow_pos_nonneg; lia).
  assert (K * 2 ^ (- e1) <= shr_m mrs1) as Hlo1.
  { rewrite Hq, He1. apply grid_le; lia. }
  assert (shr_m mrs1 + 1 < (K + 1) * 2 ^ (- e1)) as Hhi1.
  { rewrite Hq, He1.
    replace (mx / 2 ^ k1 + 1) with ((mx + 1 * 2 ^ k1) / 2 ^ k1)
      by (rewrite Z.div_add by lia; reflexivity).
    apply grid_lt; lia. }
  assert (0 <= shr_m mrs1) as Hq0
    by (rewrite Hq; apply Z.div_pos; lia).
  (* rounding *)
  pose proof (round_nearest_even_bounds (shr_m mrs1) (loc_of_shr_record mrs1))
    as Hm1.
  set (m1 := round_nearest_even (shr_m mrs1) (loc_of_shr_record mrs1)) in *.
  (* the second shift *)
  assert (0 < 2 ^ (- e1)) as Hpe1 by (apply Z.pow_pos_nonneg; lia).
  assert (Zdigits2 m1 + e1 <= 52) as Hd1.
  { assert (Zdigits2 m1 <= 52 - e1); [|lia].
    apply Zdigits2_le; try lia.
    replace (52 - e1) with (52 + - e1) by lia.
    rewrite Z.pow_add_r by lia. nia. }
  set (n2 := fexp prec emax (Zdigits2 m1 + e1) - e1) in *.
  pose proof (shr_spec (shr_record_of_loc m1 loc_Exact) e1 n2) as S2.
  rewrite shr_m_of_loc in S2. specialize (S2 ltac:(lia)).
  destruct (shr (shr_record_of_loc m1 loc_Exact) e1 n2) as [mrs2 e2].
  simpl in S2. destruct S2 as [He2 Hm2].
  set (k2 := Z.max 0 n2) in *.
  assert (0 <= k2) as Hk2 by lia.
  assert (e2 <= 0) as He2'.
  { subst e2 k2 n2. unfold fexp, emin, prec, emax in *. lia. }
  assert (K * 2 ^ (- e2) <= shr_m mrs2) as Hlo2.
  { rewrite Hm2, He2. apply grid_le; lia. }
  assert (shr_m mrs2 < (K + 1) * 2 ^ (- e2)) as Hhi2.
  { rewrite Hm2, He2. apply grid_lt; lia. }
  assert (0 < 2 ^ (- e2)) as Hpe2 by (apply Z.pow_pos_nonneg; lia).
  destruct (shr_m mrs2) as [|m|m] eqn:Em.
  - simpl. f_equal. nia.
  - replace (e2 <=? emax - prec) with true
      by (symmetry; apply Z.leb_le; unfold emax, prec; lia).
    simpl Math_floor. f_equal.
    rewrite Z.shiftl_div_pow2 by lia.
    symmetry. apply Z.div_unique with (r := Zpos m - K * 2 ^ (- e2)); lia.
  - nia.
Qed.

Lemma Zdigits2_53 (m : Z) : 2 ^ 52 <= m < 2 ^ 53 -> Zdigits2 m = 53.
Proof.
  intros [Hlo Hhi].
  pose proof (Zdigits2_le m 53 ltac:(lia) ltac:(lia) Hhi).
  pose proof (Zdigits2_ge m 52 ltac:(lia) Hlo). lia.
Qed.

(** A mantissa of 53 digits with an exponent in range is already
    rounded. *)
Lemma binary_round_aux_canonical (m : positive) (e : Z) :
  2 ^ 52 <= Zpos m < 2 ^ 53 -> -1074 <= e <= 971 ->
  binary_round_aux prec emax false (Zpos m) e loc_Exact = S754_finite false m e.
Proof.
  intros Hm He.
  assert (fexp prec emax (Zdigits2 (Zpos m) + e) - e = 0) as Hn.
  { rewrite (Zdigits2_53 _ Hm). unfold fexp, emin, prec, emax. lia. }
  unfold binary_round_aux, shr_fexp. rewrite Hn. simpl shr.
  cbv beta iota. simpl round_nearest_even. rewrite Hn. simpl.
  replace (e <=? 971) with true by (symmetry; apply Z.leb_le; lia).
  reflexivity.
Qed.

(** A positive integer below [2^53] is represented exactly, on a
    mantissa of 53 digits. *)
Lemma of_Z_finite (w : Z) :
  0 < w < 2 ^ 53 ->
  exists m e,
    of_Z w = S754_finite false m e /\
    Zpos m = w * 2 ^ (- e) /\ -52 <= e <= 0 /\ 2 ^ 52 <= Zpos m < 2 ^ 53.
Proof.
  intros [Hlo Hhi]. destruct w as [|p|p]; try lia.
  pose proof (digits2_pos_bounds p) as [Hd1 Hd2].
  assert (Zpos (digits2_pos p) <= 53) as Hd
    by (apply (Zdigits2_le (Zpos p) 53); lia).
  unfold of_Z, binary_normalize, binary_round, shl_align.
  replace (fexp prec emax (Zpos (digits2_pos p) + 0) - 0)
    with (Zpos (digits2_pos p) - 53)
    by (unfold fexp, emin, prec, emax; lia).
  replace (fexp prec emax (Zpos (digits2_pos p) + 0))
    with (Zpos (digits2_pos p) - 53)
    by (unfold fexp, emin, prec, emax; lia).
  destruct (Zpos (digits2_pos p) - 53) as [|k|k] eqn:Ek; try lia.
  - exists p, 0. split; [|split; [|split]].
    + apply binary_round_aux_canonical; [|lia].
      replace (Zpos (digits2_pos p)) with 53 in * by lia.
      simpl in Hd1. lia.
    + simpl. lia.
    + lia.
    + replace (Zpos (digits2_pos p)) with 53 in * by lia. simpl in Hd1. lia.
  - assert (Zpos (Pos.iter xO p k) = Zpos p * 2 ^ Zpos k) as Hsh.
    { change (Pos.iter xO p k) with (shift_pos k p).
      rewrite shift_pos_correct. change (Z.pow_pos 2 k) with (2 ^ Zpos k). lia. }
    assert (2 ^ 52 <= Zpos (Pos.iter xO p k) < 2 ^ 53) as Hrange.
    { rewrite Hsh.
      assert (Zpos k = 53 - Zpos (digits2_pos p)) as -> by lia.
      split.
      - replace 52 with ((Zpos (digits2_pos p) - 1) + (53 - Zpos (digits2_pos p)))
          at 1 by lia.
        rewrite Z.pow_add_r by lia.
        apply Z.mul_le_mono_nonneg_r; [apply Z.pow_nonneg; lia | exact Hd1].
      - replace 53 with (Zpos (digits2_pos p) + (53 - Zpos (digits2_pos p)))
          at 2 by lia.
        rewrite Z.pow_add_r by lia.
        apply Z.mul_lt_mono_pos_r; [apply Z.pow_pos_nonneg; lia | exact Hd2]. }
    exists (Pos.iter xO p k), (Zneg k). split; [|split; [|split]].
    + apply binary_round_aux_canonical; [exact Hrange | lia].
    + rewrite Hsh. reflexivity.
    + lia.
    + exact Hrange.
Qed.

(** The floor of the product of an integer with a positive constant
    [M * 2^E] of 53 digits. *)
Lemma floor_mul_of_Z (w : Z) (M : positive) (E K : Z) :
  0 < w < 2 ^ 53 -> 2 ^ 52 <= Zpos M < 2 ^ 53 -> -1000 <= E <= 0 ->
  0 <= K -> K + 1 <= 2 ^ 52 ->
  K * 2 ^ (- E) <= w * Zpos M ->
  w * Zpos M + 2 * w < (K + 1) * 2 ^ (- E) ->
  Math_floor (mul (of_Z w) (S754_finite false M E)) = Some K.
Proof.
  intros Hw HM HE HK HK52 Hlo Hhi.
  destruct (of_Z_finite w Hw) as (m & e & -> & Hm & He & Hmr).
  unfold mul, SFmul. simpl xorb. rewrite Pos2Z.inj_mul.
  assert (0 < 2 ^ (- e)) as Hpe by (apply Z.pow_pos_nonneg; lia).
  assert (0 < 2 ^ (- E)) as HpE by (apply Z.pow_pos_nonneg; lia).
  assert (2 ^ (- (e + E)) = 2 ^ (- e) * 2 ^ (- E)) as Hpow
    by (rewrite <- Z.pow_add_r by lia; f_equal; lia).
  apply binary_round_aux_floor with (N := 53); try lia.
  - assert (Zdigits2 (Zpos m * Zpos M) <= 106).
    { apply Zdigits2_le; try lia.
      change (2 ^ 106) with (2 ^ 53 * 2 ^ 53). nia. }
    unfold fexp, emin, prec, emax. lia.
  - rewrite Hpow, Hm. nia.
  - rewrite Hpow, Hm.
    assert (2 ^ 53 <= 2 * (w * 2 ^ (- e))) by lia.
    nia.
Qed.

Lemma lit_0_25_eq : lit_0_25 = S754_finite false 4503599627370496 (-54).
Proof. reflexivity. Qed.

Lemma lit_0_5_eq : lit_0_5 = S754_finite false 4503599627370496 (-53).
Proof. reflexivity. Qed.

Lemma lit_0_05_eq : lit_0_05 = S754_finite false 7205759403792794 (-57).
Proof. reflexivity. Qed.

Lemma lit_0_45_eq : lit_0_45 = S754_finite false 8106479329266893 (-54).
Proof. reflexivity. Qed.

Lemma floor_mul_0_25 (w : Z) :
  0 <= w < 2 ^ 32 -> Math_floor (mul (of_Z w) lit_0_25) = Some (w / 4).
Proof.
  intros Hw. destruct (Z.eq_dec w 0) as [->|Hne]; [reflexivity|].
  rewrite lit_0_25_eq.
  apply floor_mul_of_Z; change (2 ^ (- -54)) with 18014398509481984;
    change (2 ^ 52) with 4503599627370496;
    change (2 ^ 53) with 9007199254740992;
    change (2 ^ 32) with 4294967296 in Hw; lia_div.
Qed.

Lemma floor_mul_0_5 (w : Z) :
  0 <= w < 2 ^ 32 -> Math_floor (mul (of_Z w) lit_0_5) = Some (w / 2).
Proof.
  intros Hw. destruct (Z.eq_dec w 0) as [->|Hne]; [reflexivity|].
  rewrite lit_0_5_eq.
  apply floor_mul_of_Z; change (2 ^ (- -53)) with 9007199254740992;
    change (2 ^ 52) with 4503599627370496;
    change (2 ^ 53) with 9007199254740992;
    change (2 ^ 32) with 4294967296 in Hw; lia_div.
Qed.

Lemma floor_mul_0_05 (h : Z) :
  0 <= h < 2 ^ 32 -> Math_floor (mul (of_Z h) lit_0_05) = Some (h / 20).
Proof.
  intros Hh. destruct (Z.eq_dec h 0) as [->|Hne]; [reflexivity|].
  rewrite lit_0_05_eq.
  apply floor_mul_of_Z; change (2 ^ (- -57)) with 144115188075855872;
    change (2 ^ 52) with 4503599627370496;
    change (2 ^ 53) with 9007199254740992;
    change (2 ^ 32) with 4294967296 in Hh; lia_div.
Qed.

Lemma floor_mul_0_45 (h : Z) :
  0 <= h < 2 ^ 32 -> Math_floor (mul (of_Z h) lit_0_45) = Some (9 * h / 20).
Proof.
  intros Hh. destruct (Z.eq_dec h 0) as [->|Hne]; [reflexivity|].
  rewrite lit_0_45_eq.
  apply floor_mul_of_Z; change (2 ^ (- -54)) with 18014398509481984;
    change (2 ^ 52) with 4503599627370496;
    change (2 ^ 53) with 9007199254740992;
    change (2 ^ 32) with 4294967296 in Hh; lia_div.
Qed.

(** The floor of a quotient of two integers is their integer quotient:
    rounding the division cannot reach the next integer. *)
Lemma floor_div_of_Z (a b : Z) :
  0 <= a < 2 ^ 51 -> 0 < b < 2 ^ 53 ->
  Math_floor (div (of_Z a) (of_Z b)) = Some (a / b).
Proof.
  intros Ha Hb.
  destruct (of_Z_finite b Hb) as (m2 & e2 & Eb & Hm2 & He2 & Hr2).
  destruct (Z.eq_dec a 0) as [->|Hne].
  { rewrite Eb. reflexivity. }
  destruct (of_Z_finite a ltac:(change (2 ^ 53) with (4 * 2 ^ 51); lia))
    as (m1 & e1 & Ea & Hm1 & He1 & Hr1).
  rewrite Ea, Eb. unfold div, SFdiv, SFdiv_core_binary.
  rewrite (Zdigits2_53 _ Hr1), (Zdigits2_53 _ Hr2).
  replace (Z.min (fexp prec emax (53 + e1 - (53 + e2))) (e1 - e2))
    with (e1 - e2 - 53) by (unfold fexp, emin, prec, emax; lia).
  replace (e1 - e2 - (e1 - e2 - 53)) with 53 by lia.
  cbv beta iota zeta.
  change (IntDef.Z.shiftl (Zpos m1) 53) with (Z.shiftl (Zpos m1) 53).
  rewrite Z.shiftl_mul_pow2 by lia.
  change (IntDef.Z.div_eucl (Zpos m1 * 2 ^ 53) (Zpos m2))
    with (Z.div_eucl (Zpos m1 * 2 ^ 53) (Zpos m2)).
  destruct (Z.div_eucl (Zpos m1 * 2 ^ 53) (Zpos m2)) as [q r] eqn:Eqr.
  assert (q = Zpos m1 * 2 ^ 53 / Zpos m2) as Hq
    by (unfold Z.div; rewrite Eqr; reflexivity).
  simpl xorb.
  assert (0 < 2 ^ (- e1)) as Hp1 by (apply Z.pow_pos_nonneg; lia).
  assert (0 < 2 ^ (- e2)) as Hp2 by (apply Z.pow_pos_nonneg; lia).
  set (X := 2 ^ (- (e1 - e2 - 53))).
  assert (X * 2 ^ (- e2) = 2 ^ 53 * 2 ^ (- e1)) as HX.
  { unfold X. rewrite <- !Z.pow_add_r by lia. f_equal. lia. }
  assert (0 < X) as HpX by (apply Z.pow_pos_nonneg; lia).
  assert (Zpos m2 * q <= Zpos m1 * 2 ^ 53) as Hq1
    by (rewrite Hq; apply Z.mul_div_le; lia).
  assert (Zpos m1 * 2 ^ 53 < Zpos m2 * (q + 1)) as Hq2.
  { rewrite Hq. pose proof (Z.mul_succ_div_gt (Zpos m1 * 2 ^ 53) (Zpos m2) ltac:(lia)). lia. }
  assert (a / b * b <= a) as Hk1 by (pose proof (Z.mul_div_le a b ltac:(lia)); lia).
  assert (a + 1 <= (a / b + 1) * b) as Hk2
    by (pose proof (Z.mul_succ_div_gt a b ltac:(lia)); lia).
  assert (0 <= a / b) as Hk0 by (apply Z.div_pos; lia).
  assert (a / b <= a) as Hk3 by (apply Z.div_le_upper_bound; nia).
  assert (2 ^ 52 <= q < 2 ^ 54) as Hqr.
  { change (2 ^ 54) with (2 * 2 ^ 53). change (2 ^ 53) with (2 * 2 ^ 52) in *. split; nia. }
  assert (2 <= 2 ^ (- e1)) as HP1.
  { assert (2 ^ (- e1) <= 1 -> False); [|lia]. intros Hc.
    assert (a * 2 ^ (- e1) <= a * 1) by (apply Z.mul_le_mono_nonneg_l; lia).
    change (2 ^ 52) with (2 * 2 ^ 51) in Hr1. lia. }
  apply binary_round_aux_floor with (N := 1); try lia.
  - assert (Zdigits2 q <= 54) by (apply Zdigits2_le; lia).
    unfold fexp, emin, prec, emax. lia.
  - fold X. rewrite Hq. apply Z.div_le_lower_bound; [lia|].
    rewrite Hm1, Hm2.
    replace (b * 2 ^ (- e2) * (a / b * X))
      with (a / b * b * (X * 2 ^ (- e2))) by ring.
    rewrite HX.
    replace (a * 2 ^ (- e1) * 2 ^ 53) with (a * (2 ^ 53 * 2 ^ (- e1))) by ring.
    apply Z.mul_le_mono_nonneg_r; lia.
  - fold X. change (2 ^ 1) with 2.
    apply (Z.mul_lt_mono_pos_l (Zpos m2)); [lia|].
    assert (Zpos m2 * ((a / b + 1) * X) = (a / b + 1) * b * (2 ^ 53 * 2 ^ (- e1)))
      as -> by (rewrite Hm2, <- HX; ring).
    assert ((a + 1) * (2 ^ 53 * 2 ^ (- e1)) <= (a / b + 1) * b * (2 ^ 53 * 2 ^ (- e1)))
      by (apply Z.mul_le_mono_nonneg_r; lia).
    assert (Zpos m2 * (q + 2) <= Zpos m1 * 2 ^ 53 + 2 * Zpos m2) by lia.
    assert ((a + 1) * (2 ^ 53 * 2 ^ (- e1))
            = Zpos m1 * 2 ^ 53 + 2 ^ 53 * 2 ^ (- e1)) as Hexp
      by (rewrite Hm1; ring).
    assert (2 ^ 53 * 2 <= 2 ^ 53 * 2 ^ (- e1))
      by (apply Z.mul_le_mono_nonneg_l; lia).
    lia.
Qed.

End NumberFacts.

(* ================================================================== *)
(** * The face region *)
(* ================================================================== *)

Section FaceRegionFacts.
Import JsNumber FaceRegion.

(** The region in integer arithmetic, for canvas dimensions in the
    range of an [unsigned long]. *)
Lemma faceRegion_eq (w h : Z) :
  0 <= w < 2 ^ 32 -> 0 <= h < 2 ^ 32 ->
  faceRegion w h =
  Some {| x := w / 4; y := h / 20; width := w / 2; height := 9 * h / 20 |}.
Proof.
  intros Hw Hh. unfold faceRegion.
  now rewrite floor_mul_0_25, floor_mul_0_05, floor_mul_0_5, floor_mul_0_45.
Qed.

End FaceRegionFacts.

(* ================================================================== *)
(** * Loops and arrays *)
(* ================================================================== *)

Section LoopFacts.

(** The invariant rule: a loop whose counter grows towards a bound that
    its test enforces leaves by its test, within [bound - init]
    iterations, with the invariant. *)
Lemma for_loop_rule {St : Type} (P : Z -> St -> Prop) (test : Z -> bool)
    (next : Z -> Z) (body : Z -> St -> St) (bound : Z) :
  (forall j, test j = true -> j < next j /\ j < bound) ->
  (forall j t, test j = true -> P j t -> P (next j) (body j t)) ->
  forall fuel i s, bound - i <= Z.of_nat fuel -> P i s ->
  exists j, test j = false /\ P j (for_loop fuel i test next body s).
Proof.
  intros Hvar Hstep fuel. induction fuel as [|fuel IH]; intros i s Hfuel HP.
  - exists i. split; [|exact HP].
    destruct (test i) eqn:E; [|reflexivity].
    apply Hvar in E. simpl in Hfuel. lia.
  - simpl. destruct (test i) eqn:E.
    + apply IH; [|now apply Hstep].
      apply Hvar in E. lia.
    + exists i. split; assumption.
Qed.

(** More fuel than the loop needs changes nothing. *)
Lemma for_loop_fuel {St : Type} (test : Z -> bool) (next : Z -> Z)
    (body : Z -> St -> St) (bound : Z) :
  (forall j, test j = true -> j < next j /\ j < bound) ->
  forall fuel extra i s, bound - i <= Z.of_nat fuel ->
  for_loop (fuel + extra) i test next body s = for_loop fuel i test next body s.
Proof.
  intros Hvar fuel. induction fuel as [|fuel IH]; intros extra i s Hfuel.
  - simpl. destruct extra as [|extra]; [reflexivity|]. simpl.
    destruct (test i) eqn:E; [|reflexivity].
    apply Hvar in E. simpl in Hfuel. lia.
  - simpl. destruct (test i) eqn:E; [|reflexivity].
    apply IH. apply Hvar in E. lia.
Qed.

(** The fuel that the filter gives each of its loops is enough: the
    loops over a side of [L] pixels in steps of 16, and the loops over
    the at most 16 pixels of a block side. *)
Lemma outer_loop_fuel {St : Type} (L : Z) (body : Z -> St -> St) (s : St)
    (extra : nat) :
  for_loop (Z.to_nat L + extra) 0 (fun i => i <? L)
    (fun i => i + PrivacyFilter.PIXELATION_SIZE) body s
  = for_loop (Z.to_nat L) 0 (fun i => i <? L)
      (fun i => i + PrivacyFilter.PIXELATION_SIZE) body s.
Proof.
  apply for_loop_fuel with (bound := L); [|lia].
  intros j E. apply Z.ltb_lt in E. unfold PrivacyFilter.PIXELATION_SIZE. lia.
Qed.

Lemma inner_loop_fuel {St : Type} (o L : Z) (body : Z -> St -> St) (s : St)
    (extra : nat) :
  for_loop (Z.to_nat PrivacyFilter.PIXELATION_SIZE + extra) 0
    (fun d => (d <? PrivacyFilter.PIXELATION_SIZE) && (o + d <? L)) Z.succ body s
  = for_loop (Z.to_nat PrivacyFilter.PIXELATION_SIZE) 0
      (fun d => (d <? PrivacyFilter.PIXELATION_SIZE) && (o + d <? L)) Z.succ body s.
Proof.
  apply for_loop_fuel with (bound := PrivacyFilter.PIXELATION_SIZE).
  - intros j E. apply andb_true_iff in E as [E _]. apply Z.ltb_lt in E. lia.
  - unfold PrivacyFilter.PIXELATION_SIZE. simpl Z.to_nat. lia.
Qed.

End LoopFacts.

Section ArrayFacts.
Import Canvas2D.

Lemma length_upd (d : list Z) (n : nat) (v : Z) :
  List.length (upd d n v) = List.length d.
Proof.
  revert n; induction d as [|h t IH]; intros [|n]; simpl; auto.
Qed.

Lemma nth_upd_eq (d : list Z) (n : nat) (v : Z) :
  (n < List.length d)%nat -> nth n (upd d n v) 0 = v.
Proof.
  revert n; induction d as [|h t IH]; intros [|n]; simpl; intros H;
    try lia; auto. apply IH. lia.
Qed.

Lemma nth_upd_ne (d : list Z) (n m : nat) (v : Z) :
  n <> m -> nth m (upd d n v) 0 = nth m d 0.
Proof.
  revert n m; induction d as [|h t IH]; intros [|n] [|m]; simpl; intros H;
    try congruence; auto.
Qed.

Lemma length_store (d : list Z) (i : Z) (v : option Z) :
  List.length (store d i v) = List.length d.
Proof.
  unfold store. destruct (i <? 0); [reflexivity | apply length_upd].
Qed.

Lemma get_store_eq (d : list Z) (i : Z) (v : option Z) :
  0 <= i < Z.of_nat (List.length d) ->
  get (store d i v) i = ToUint8Clamp v.
Proof.
  intros Hi. unfold get, store.
  destruct (i <? 0) eqn:E; [apply Z.ltb_lt in E; lia|].
  apply nth_upd_eq. lia.
Qed.

Lemma get_store_ne (d : list Z) (i j : Z) (v : option Z) :
  0 <= j -> i <> j -> get (store d i v) j = get d j.
Proof.
  intros Hj Hne. unfold get, store.
  destruct (i <? 0) eqn:E; [reflexivity|].
  apply Z.ltb_ge in E. apply nth_upd_ne. lia.
Qed.

Lemma load_get (d : list Z) (i : Z) :
  0 <= i < Z.of_nat (List.length d) -> load d i = Some (get d i).
Proof.
  intros Hi. unfold load, get.
  destruct (i <? 0) eqn:E; [apply Z.ltb_lt in E; lia|].
  apply nth_error_nth'. lia.
Qed.

Lemma get_map_seq (f : nat -> Z) (n : nat) (k : Z) :
  0 <= k < Z.of_nat n -> get (map f (seq 0 n)) k = f (Z.to_nat k).
Proof.
  intros Hk. unfold get.
  rewrite nth_indep with (d' := f 0%nat) by (rewrite length_map, length_seq; lia).
  rewrite map_nth, seq_nth by lia. reflexivity.
Qed.

End ArrayFacts.

Section SumFacts.
Import FilterSpec.

Lemma sum_upto_0 (f : Z -> Z) : sum_upto f 0 = 0.
Proof. reflexivity. Qed.

Lemma sum_upto_succ (f : Z -> Z) (n : Z) :
  0 <= n -> sum_upto f (n + 1) = sum_upto f n + f n.
Proof.
  intros Hn. unfold sum_upto.
  replace (Z.to_nat (n + 1)) with (S (Z.to_nat n)) by lia.
  rewrite seq_S, map_app, fold_right_app. simpl.
  rewrite Z2Nat.id by lia.
  generalize (map (fun k => f (Z.of_nat k)) (seq 0 (Z.to_nat n))).
  intros l. induction l as [|a l IH]; simpl; [ring | rewrite IH; ring].
Qed.

Lemma sum_upto_ext (f g : Z -> Z) (n : Z) :
  (forall k, 0 <= k < n -> f k = g k) -> sum_upto f n = sum_upto g n.
Proof.
  intros H. unfold sum_upto. f_equal. apply map_ext_in.
  intros k Hk. apply in_seq in Hk. apply H. lia.
Qed.

Lemma sum_upto_bounds (f : Z -> Z) (n lo hi : Z) :
  0 <= n -> (forall k, 0 <= k < n -> lo <= f k <= hi) ->
  lo * n <= sum_upto f n <= hi * n.
Proof.
  intros Hn. pattern n. apply natlike_ind; [| |exact Hn].
  - intros _. rewrite sum_upto_0. lia.
  - intros m Hm IH Hf. unfold Z.succ. rewrite sum_upto_succ by lia.
    specialize (IH ltac:(intros k Hk; apply Hf; lia)).
    specialize (Hf m ltac:(lia)). lia.
Qed.

Lemma sum_upto_const (v n : Z) : 0 <= n -> sum_upto (fun _ => v) n = v * n.
Proof.
  intros Hn.
  pose proof (sum_upto_bounds (fun _ => v) n v v Hn ltac:(intros; cbv beta; lia)). lia.
Qed.

Lemma block_sum_ext (f g : Z -> Z -> Z) (x y bw bh : Z) :
  (forall i j, x <= i < x + bw -> y <= j < y + bh -> f i j = g i j) ->
  block_sum f x y bw bh = block_sum g x y bw bh.
Proof.
  intros H. unfold block_sum. apply sum_upto_ext. intros dy Hdy.
  apply sum_upto_ext. intros dx Hdx. apply H; lia.
Qed.

Lemma block_sum_bounds (f : Z -> Z -> Z) (x y bw bh lo hi : Z) :
  0 <= bw -> 0 <= bh ->
  (forall i j, x <= i < x + bw -> y <= j < y + bh -> lo <= f i j <= hi) ->
  lo * (bw * bh) <= block_sum f x y bw bh <= hi * (bw * bh).
Proof.
  intros Hbw Hbh H. unfold block_sum.
  pose proof (sum_upto_bounds
                (fun dy => sum_upto (fun dx => f (x + dx) (y + dy)) bw)
                bh (lo * bw) (hi * bw) Hbh) as Hs.
  assert (forall k, 0 <= k < bh ->
            lo * bw <= sum_upto (fun dx => f (x + dx) (y + k)) bw <= hi * bw) as Hrow.
  { intros k Hk. apply sum_upto_bounds; [assumption|].
    intros dx Hdx. apply H; lia. }
  specialize (Hs Hrow). lia.
Qed.

Lemma block_sum_const (v x y bw bh : Z) :
  0 <= bw -> 0 <= bh -> block_sum (fun _ _ => v) x y bw bh = v * (bw * bh).
Proof.
  intros Hbw Hbh.
  pose proof (block_sum_bounds (fun _ _ => v) x y bw bh v v Hbw Hbh
                ltac:(intros; cbv beta; lia)). lia.
Qed.

End SumFacts.

(* ================================================================== *)
(** * The two passes over one block *)
(* ================================================================== *)

Section BlockFacts.
Import JsNumber Canvas2D PrivacyFilter FilterSpec.

Variables W H : Z.
Hypothesis HW : 0 < W.
Hypothesis HH : 0 < H.

Lemma idx_range (i j ch : Z) :
  0 <= i < W -> 0 <= j < H -> 0 <= ch < 4 -> 0 <= idx W i j ch < 4 * W * H.
Proof. unfold idx. intros Hi Hj Hch. nia. Qed.

Lemma idx_inj (i j ch i' j' ch' : Z) :
  0 <= i < W -> 0 <= i' < W -> 0 <= ch < 4 -> 0 <= ch' < 4 ->
  idx W i j ch = idx W i' j' ch' -> i = i' /\ j = j' /\ ch = ch'.
Proof.
  unfold idx. intros Hi Hi' Hch Hch' E.
  assert (j * W + i = j' * W + i' /\ ch = ch') as [E1 ->] by lia.
  assert (j = j') as -> by nia. lia.
Qed.

(** The test of the two inner loops: [(d <? P) && (o + d <? L)]. *)
Lemma inner_test_bound (o L j : Z) :
  (j <? PIXELATION_SIZE) && (o + j <? L) = true ->
  j < Z.succ j /\ j < block_extent L o.
Proof.
  unfold block_extent, PIXELATION_SIZE. intros E.
  apply andb_true_iff in E as [E1 E2].
  apply Z.ltb_lt in E1. apply Z.ltb_lt in E2. lia.
Qed.

Lemma inner_test_exit (o L j : Z) :
  0 <= j <= block_extent L o ->
  (j <? PIXELATION_SIZE) && (o + j <? L) = false ->
  j = block_extent L o.
Proof.
  unfold block_extent, PIXELATION_SIZE. intros Hj E.
  apply andb_false_iff in E as [E|E]; apply Z.ltb_ge in E; lia.
Qed.

Lemma block_extent_range (o L : Z) :
  0 <= o < L -> 0 < block_extent L o <= 16 /\ o + block_extent L o <= L.
Proof. unfold block_extent, PIXELATION_SIZE. lia. Qed.

Section FirstPass.
Variable d : list Z.
Hypothesis Hlen : Z.of_nat (List.length d) = 4 * W * H.
Variables x y : Z.
Hypothesis Hx : 0 <= x < W.
Hypothesis Hy : 0 <= y < H.

(** One row of the first pass. *)
Lemma block_sums_row (dy r0 g0 b0 n0 : Z) :
  0 <= dy -> y + dy < H ->
  for_loop (Z.to_nat PIXELATION_SIZE) 0
    (fun dx => (dx <? PIXELATION_SIZE) && (x + dx <? W)) Z.succ
    (fun dx acc =>
       let idx := ((y + dy) * W + (x + dx)) * 4 in
       {| r := add_load (r acc) d idx;
          g := add_load (g acc) d (idx + 1);
          b := add_load (b acc) d (idx + 2);
          count := count acc + 1 |})
    {| r := Some r0; g := Some g0; b := Some b0; count := n0 |}
  = {| r := Some (r0 + sum_upto (fun dx => get d (idx W (x + dx) (y + dy) 0)) (block_extent W x));
       g := Some (g0 + sum_upto (fun dx => get d (idx W (x + dx) (y + dy) 1)) (block_extent W x));
       b := Some (b0 + sum_upto (fun dx => get d (idx W (x + dx) (y + dy) 2)) (block_extent W x));
       count := n0 + block_extent W x |}.
Proof.
  intros Hdy Hrow.
  pose proof (block_extent_range x W Hx) as Hbw.
  match goal with |- for_loop ?fu 0 ?tst ?nx ?bd ?st = _ =>
    destruct (for_loop_rule
      (fun j acc => 0 <= j <= block_extent W x /\
         acc = {| r := Some (r0 + sum_upto (fun dx => get d (idx W (x + dx) (y + dy) 0)) j);
                  g := Some (g0 + sum_upto (fun dx => get d (idx W (x + dx) (y + dy) 1)) j);
                  b := Some (b0 + sum_upto (fun dx => get d (idx W (x + dx) (y + dy) 2)) j);
                  count := n0 + j |})
      tst nx bd (block_extent W x)) with (fuel := fu) (i := 0) (s := st)
      as (j & Hexit & Hj & ->)
  end.
  - intros j E. now apply inner_test_bound.
  - intros j acc E [Hj ->].
    pose proof (inner_test_bound _ _ _ E) as [_ Hlt].
    split; [lia|]. cbv zeta. simpl r. simpl g. simpl b. simpl count.
    unfold add_load.
    replace (((y + dy) * W + (x + j)) * 4) with (idx W (x + j) (y + dy) 0)
      by (unfold idx; lia).
    replace (idx W (x + j) (y + dy) 0 + 1) with (idx W (x + j) (y + dy) 1)
      by (unfold idx; lia).
    replace (idx W (x + j) (y + dy) 0 + 2) with (idx W (x + j) (y + dy) 2)
      by (unfold idx; lia).
    rewrite !load_get by (rewrite Hlen; apply idx_range; lia).
    unfold Z.succ. rewrite !sum_upto_succ by lia.
    f_equal; try apply f_equal; lia.
  - unfold PIXELATION_SIZE. simpl Z.to_nat. lia.
  - split; [lia|]. rewrite !sum_upto_0. f_equal; try apply f_equal; lia.
  - apply inner_test_exit in Hexit; [|exact Hj]. subst j. reflexivity.
Qed.

(** The first pass sums each colour over the clipped block and counts
    its pixels. *)
Lemma block_sums_spec :
  block_sums W H d x y
  = {| r := Some (block_sum (fun i j => get d (idx W i j 0)) x y (block_extent W x) (block_extent H y));
       g := Some (block_sum (fun i j => get d (idx W i j 1)) x y (block_extent W x) (block_extent H y));
       b := Some (block_sum (fun i j => get d (idx W i j 2)) x y (block_extent W x) (block_extent H y));
       count := block_extent W x * block_extent H y |}.
Proof.
  pose proof (block_extent_range y H Hy) as Hbh.
  unfold block_sums. cbv zeta.
  match goal with |- for_loop ?fu 0 ?tst ?nx ?bd ?st = _ =>
    destruct (for_loop_rule
      (fun j acc => 0 <= j <= block_extent H y /\
         acc = {| r := Some (block_sum (fun i j => get d (idx W i j 0)) x y (block_extent W x) j);
                  g := Some (block_sum (fun i j => get d (idx W i j 1)) x y (block_extent W x) j);
                  b := Some (block_sum (fun i j => get d (idx W i j 2)) x y (block_extent W x) j);
                  count := block_extent W x * j |})
      tst nx bd (block_extent H y)) with (fuel := fu) (i := 0) (s := st)
      as (j & Hexit & Hj & ->)
  end.
  - intros j E. now apply inner_test_bound.
  - intros j acc E [Hj ->].
    pose proof (inner_test_bound _ _ _ E) as [_ Hlt].
    split; [lia|].
    rewrite block_sums_row by (unfold block_extent in Hlt; lia).
    unfold block_sum, Z.succ. rewrite !sum_upto_succ by lia.
    f_equal. lia.
  - unfold PIXELATION_SIZE. simpl Z.to_nat. lia.
  - split; [lia|]. unfold block_sum. rewrite !sum_upto_0. f_equal. lia.
  - apply inner_test_exit in Hexit; [|exact Hj]. subst j. reflexivity.
Qed.

End FirstPass.

Section SecondPass.
Variables x y : Z.
Hypothesis Hx : 0 <= x < W.
Hypothesis Hy : 0 <= y < H.
Variables cr cg cb : option Z.

(** One row of the second pass. *)
Lemma block_fill_row (d : list Z) (dy : Z) :
  Z.of_nat (List.length d) = 4 * W * H -> 0 <= dy -> y + dy < H ->
  let d' :=
    for_loop (Z.to_nat PIXELATION_SIZE) 0
      (fun dx => (dx <? PIXELATION_SIZE) && (x + dx <? W)) Z.succ
      (fun dx d =>
         let idx := ((y + dy) * W + (x + dx)) * 4 in
         store (store (store d idx cr) (idx + 1) cg) (idx + 2) cb)
      d in
  List.length d' = List.length d /\
  forall i j ch, 0 <= i < W -> 0 <= j < H -> 0 <= ch < 4 ->
    get d' (idx W i j ch) =
    if (j =? y + dy) && (x <=? i) && (i <? x + block_extent W x) && (ch <? 3)
    then fill_byte cr cg cb ch else get d (idx W i j ch).
Proof.
  intros Hlen Hdy Hrow d'. subst d'.
  pose proof (block_extent_range x W Hx) as Hbw.
  match goal with |- context [for_loop ?fu 0 ?tst ?nx ?bd ?st] =>
    destruct (for_loop_rule
      (fun k d' => 0 <= k <= block_extent W x /\
         List.length d' = List.length d /\
         forall i j ch, 0 <= i < W -> 0 <= j < H -> 0 <= ch < 4 ->
           get d' (idx W i j ch) =
           if (j =? y + dy) && (x <=? i) && (i <? x + k) && (ch <? 3)
           then fill_byte cr cg cb ch else get d (idx W i j ch))
      tst nx bd (block_extent W x)) with (fuel := fu) (i := 0) (s := st)
      as (k & Hexit & Hk & Hl & Hget)
  end.
  - intros j E. now apply inner_test_bound.
  - intros k d' E (Hk & Hl & Hget).
    pose proof (inner_test_bound _ _ _ E) as [_ Hlt].
    split; [lia|]. cbv zeta. split; [now rewrite !length_store|].
    intros i j ch Hi Hj Hch.
    replace (((y + dy) * W + (x + k)) * 4) with (idx W (x + k) (y + dy) 0)
      by (unfold idx; lia).
    replace (idx W (x + k) (y + dy) 0 + 1) with (idx W (x + k) (y + dy) 1)
      by (unfold idx; lia).
    replace (idx W (x + k) (y + dy) 0 + 2) with (idx W (x + k) (y + dy) 2)
      by (unfold idx; lia).
    assert (forall c, 0 <= c < 4 ->
              0 <= idx W (x + k) (y + dy) c < Z.of_nat (List.length d')) as Hin
      by (intros c Hc; rewrite Hl, Hlen; apply idx_range; lia).
    pose proof (idx_range i j ch Hi Hj Hch) as Hr.
    destruct (Z.eq_dec (idx W (x + k) (y + dy) 2) (idx W i j ch)) as [E2|N2].
    { apply idx_inj in E2 as (Ei & Ej & Ec); try lia. subst i j ch.
      rewrite get_store_eq by (rewrite !length_store; apply Hin; lia).
      rewrite Z.eqb_refl.
      destruct (Z.leb_spec x (x + k)), (Z.ltb_spec (x + k) (x + Z.succ k));
        try lia. reflexivity. }
    rewrite get_store_ne by lia.
    destruct (Z.eq_dec (idx W (x + k) (y + dy) 1) (idx W i j ch)) as [E1|N1].
    { apply idx_inj in E1 as (Ei & Ej & Ec); try lia. subst i j ch.
      rewrite get_store_eq by (rewrite !length_store; apply Hin; lia).
      rewrite Z.eqb_refl.
      destruct (Z.leb_spec x (x + k)), (Z.ltb_spec (x + k) (x + Z.succ k));
        try lia. reflexivity. }
    rewrite get_store_ne by lia.
    destruct (Z.eq_dec (idx W (x + k) (y + dy) 0) (idx W i j ch)) as [E0|N0].
    { apply idx_inj in E0 as (Ei & Ej & Ec); try lia. subst i j ch.
      rewrite get_store_eq by (apply Hin; lia).
      rewrite Z.eqb_refl.
      destruct (Z.leb_spec x (x + k)), (Z.ltb_spec (x + k) (x + Z.succ k));
        try lia. reflexivity. }
    rewrite get_store_ne by lia.
    rewrite Hget by assumption.
    assert (~ (i = x + k /\ j = y + dy /\ ch < 3)) as Hout.
    { intros (-> & -> & Hc).
      assert (ch = 0 \/ ch = 1 \/ ch = 2) as [-> | [-> | ->]] by lia; congruence. }
    destruct (Z.eqb_spec j (y + dy)), (Z.leb_spec x i), (Z.ltb_spec i (x + k)),
      (Z.ltb_spec i (x + Z.succ k)), (Z.ltb_spec ch 3);
      simpl; try reflexivity; lia.
  - unfold PIXELATION_SIZE. simpl Z.to_nat. lia.
  - split; [lia|]. split; [reflexivity|].
    intros i j ch Hi Hj Hch.
    destruct (Z.eqb_spec j (y + dy)), (Z.leb_spec x i), (Z.ltb_spec i (x + 0));
      simpl; try reflexivity; lia.
  - apply inner_test_exit in Hexit; [|exact Hk]. subst k.
    split; assumption.
Qed.

(** The second pass overwrites the three colours of every pixel of the
    clipped block, and nothing else. *)
Lemma block_fill_spec (d : list Z) :
  Z.of_nat (List.length d) = 4 * W * H ->
  List.length (block_fill W H x y cr cg cb d) = List.length d /\
  forall i j ch, 0 <= i < W -> 0 <= j < H -> 0 <= ch < 4 ->
    get (block_fill W H x y cr cg cb d) (idx W i j ch) =
    if (y <=? j) && (j <? y + block_extent H y)
       && (x <=? i) && (i <? x + block_extent W x) && (ch <? 3)
    then fill_byte cr cg cb ch else get d (idx W i j ch).
Proof.
  intros Hlen.
  pose proof (block_extent_range y H Hy) as Hbh.
  unfold block_fill. cbv zeta.
  match goal with |- context [for_loop ?fu 0 ?tst ?nx ?bd ?st] =>
    destruct (for_loop_rule
      (fun m d' => 0 <= m <= block_extent H y /\
         List.length d' = List.length d /\
         forall i j ch, 0 <= i < W -> 0 <= j < H -> 0 <= ch < 4 ->
           get d' (idx W i j ch) =
           if (y <=? j) && (j <? y + m)
              && (x <=? i) && (i <? x + block_extent W x) && (ch <? 3)
           then fill_byte cr cg cb ch else get d (idx W i j ch))
      tst nx bd (block_extent H y)) with (fuel := fu) (i := 0) (s := st)
      as (m & Hexit & Hm & Hl & Hget)
  end.
  - intros j E. now apply inner_test_bound.
  - intros m d' E (Hm & Hl & Hget).
    pose proof (inner_test_bound _ _ _ E) as [_ Hlt].
    destruct (block_fill_row d' m) as [Hl' Hget'];
      [rewrite Hl; exact Hlen | lia | unfold block_extent in Hlt; lia |].
    split; [lia|]. split; [etransitivity; [exact Hl' | exact Hl]|].
    intros i j ch Hi Hj Hch.
    etransitivity; [apply Hget'; assumption|].
    rewrite Hget by assumption.
    destruct (Z.eqb_spec j (y + m)), (Z.leb_spec y j), (Z.ltb_spec j (y + m)),
      (Z.ltb_spec j (y + Z.succ m)), (Z.leb_spec x i),
      (Z.ltb_spec i (x + block_extent W x)), (Z.ltb_spec ch 3);
      simpl; try reflexivity; lia.
  - unfold PIXELATION_SIZE. simpl Z.to_nat. lia.
  - split; [lia|]. split; [reflexivity|].
    intros i j ch Hi Hj Hch.
    destruct (Z.leb_spec y j), (Z.ltb_spec j (y + 0)); simpl; try reflexivity; lia.
  - apply inner_test_exit in Hexit; [|exact Hm]. subst m.
    split; assumption.
Qed.

End SecondPass.

End BlockFacts.

(* ================================================================== *)
(** * The filter on image data *)
(* ================================================================== *)

Section PixelateFacts.
Import JsNumber Canvas2D PrivacyFilter FilterSpec.

Variables W H : Z.
Hypothesis HW : 0 < W.
Hypothesis HH : 0 < H.

(** A block aligned on the grid is the block of each of its pixels. *)
Lemma block_origin_in (x i : Z) :
  0 <= x -> x mod PIXELATION_SIZE = 0 -> x <= i < x + PIXELATION_SIZE ->
  block_origin i = x.
Proof. unfold block_origin, PIXELATION_SIZE. intros. lia_div. Qed.

(** One block: its colours become the floored means of the block, read
    before any store. *)
Lemma pixelate_block_spec (d : list Z) (x y : Z) :
  Z.of_nat (List.length d) = 4 * W * H ->
  0 <= x < W -> 0 <= y < H ->
  (forall i j ch, x <= i < x + block_extent W x -> y <= j < y + block_extent H y ->
     0 <= ch < 4 -> 0 <= get d (idx W i j ch) <= 255) ->
  List.length (pixelate_block W H x y d) = List.length d /\
  forall i j ch, 0 <= i < W -> 0 <= j < H -> 0 <= ch < 4 ->
    get (pixelate_block W H x y d) (idx W i j ch) =
    if (y <=? j) && (j <? y + block_extent H y)
       && (x <=? i) && (i <? x + block_extent W x) && (ch <? 3)
    then block_sum (fun i' j' => get d (idx W i' j' ch)) x y
           (block_extent W x) (block_extent H y)
         / (block_extent W x * block_extent H y)
    else get d (idx W i j ch).
Proof.
  intros Hlen Hx Hy Hb.
  pose proof (block_extent_range x W Hx) as Hbw.
  pose proof (block_extent_range y H Hy) as Hbh.
  set (bw := block_extent W x) in *. set (bh := block_extent H y) in *.
  assert (0 < bw * bh <= 256) as Hn by nia.
  assert (forall ch, 0 <= ch < 4 ->
            0 <= block_sum (fun i' j' => get d (idx W i' j' ch)) x y bw bh
              <= 255 * (bw * bh)) as Hs.
  { intros ch Hch.
    pose proof (block_sum_bounds (fun i' j' => get d (idx W i' j' ch))
                  x y bw bh 0 255 ltac:(lia) ltac:(lia)) as Hsb.
    cbv beta in Hsb. specialize (Hsb ltac:(intros; apply Hb; lia)). lia. }
  assert (forall ch, 0 <= ch < 4 ->
            floor_div
              (Some (block_sum (fun i' j' => get d (idx W i' j' ch)) x y bw bh))
              (bw * bh)
            = Some (block_sum (fun i' j' => get d (idx W i' j' ch)) x y bw bh
                    / (bw * bh))) as Hfd.
  { intros ch Hch. unfold floor_div. specialize (Hs ch Hch).
    apply floor_div_of_Z.
    - change (2 ^ 51) with 2251799813685248. lia.
    - change (2 ^ 53) with 9007199254740992. lia. }
  assert (forall ch, 0 <= ch < 4 ->
            0 <= block_sum (fun i' j' => get d (idx W i' j' ch)) x y bw bh
                 / (bw * bh) <= 255) as Hmean.
  { intros ch Hch. specialize (Hs ch Hch). split.
    - apply Z.div_pos; lia.
    - apply Z.div_le_upper_bound; lia. }
  unfold pixelate_block. cbv zeta.
  rewrite (block_sums_spec W H HW d Hlen x y Hx Hy).
  simpl r. simpl g. simpl b. simpl count. fold bw bh.
  rewrite !Hfd by lia.
  destruct (block_fill_spec W H HW x y Hx Hy
              (Some (block_sum (fun i' j' => get d (idx W i' j' 0)) x y bw bh / (bw * bh)))
              (Some (block_sum (fun i' j' => get d (idx W i' j' 1)) x y bw bh / (bw * bh)))
              (Some (block_sum (fun i' j' => get d (idx W i' j' 2)) x y bw bh / (bw * bh)))
              d Hlen) as [Hl Hget].
  fold bw bh in Hget. split; [exact Hl|].
  intros i j ch Hi Hj Hch. rewrite Hget by assumption.
  destruct ((y <=? j) && (j <? y + bh) && (x <=? i) && (i <? x + bw) && (ch <? 3))
    eqn:Ein; [|reflexivity].
  rewrite !andb_true_iff in Ein. destruct Ein as (_ & Hc%Z.ltb_lt).
  assert (ch = 0 \/ ch = 1 \/ ch = 2) as [-> | [-> | ->]] by lia;
    unfold fill_byte, ToUint8Clamp; simpl Z.eqb; cbv iota;
    [ pose proof (Hmean 0 ltac:(lia)) | pose proof (Hmean 1 ltac:(lia))
    | pose proof (Hmean 2 ltac:(lia)) ]; lia.
Qed.

Variable d0 : list Z.
Hypothesis Hlen0 : Z.of_nat (List.length d0) = 4 * W * H.
Hypothesis Hbytes0 : bytes_in W H d0.

(** One row of blocks. *)
Lemma pixelate_row (y : Z) (d : list Z) :
  0 <= y < H -> y mod PIXELATION_SIZE = 0 ->
  List.length d = List.length d0 ->
  (forall i j ch, 0 <= i < W -> 0 <= j < H -> 0 <= ch < 4 ->
     get d (idx W i j ch) =
     if j <? y then pixelated W H d0 i j ch else get d0 (idx W i j ch)) ->
  let d' :=
    for_loop (Z.to_nat W) 0 (fun x => x <? W) (fun x => x + PIXELATION_SIZE)
      (fun x d => pixelate_block W H x y d) d in
  List.length d' = List.length d0 /\
  forall i j ch, 0 <= i < W -> 0 <= j < H -> 0 <= ch < 4 ->
    get d' (idx W i j ch) =
    if j <? y + PIXELATION_SIZE then pixelated W H d0 i j ch
    else get d0 (idx W i j ch).
Proof.
  intros Hy Hym Hl Hget d'. subst d'.
  match goal with |- context [for_loop ?fu 0 ?tst ?nx ?bd ?st] =>
    destruct (for_loop_rule
      (fun x d' => 0 <= x /\ x mod PIXELATION_SIZE = 0 /\
         List.length d' = List.length d0 /\
         forall i j ch, 0 <= i < W -> 0 <= j < H -> 0 <= ch < 4 ->
           get d' (idx W i j ch) =
           if passed y x i j then pixelated W H d0 i j ch
           else get d0 (idx W i j ch))
      tst nx bd W) with (fuel := fu) (i := 0) (s := st)
      as (x & Hexit & Hx & Hxm & Hl' & Hget')
  end.
  - intros j E. apply Z.ltb_lt in E. unfold PIXELATION_SIZE. lia.
  - intros x cur E (Hx & Hxm & Hlc & Hgc). apply Z.ltb_lt in E.
    pose proof (block_extent_range x W ltac:(lia)) as Hbw.
    pose proof (block_extent_range y H Hy) as Hbh.
    assert (forall i j ch,
              x <= i < x + block_extent W x -> y <= j < y + block_extent H y ->
              0 <= ch < 4 -> get cur (idx W i j ch) = get d0 (idx W i j ch)) as Hsame.
    { intros i j ch Hi Hj Hch. rewrite Hgc by lia. unfold passed.
      destruct (Z.ltb_spec j y), (Z.ltb_spec i x); try lia.
      simpl. now rewrite andb_false_r. }
    destruct (pixelate_block_spec cur x y) as [Hl2 Hg2]; try lia.
    { intros i j ch Hi Hj Hch. rewrite Hsame by assumption.
      apply Hbytes0; lia. }
    split; [unfold PIXELATION_SIZE; lia|].
    split; [unfold PIXELATION_SIZE in *; lia_div|].
    split; [congruence|].
    intros i j ch Hi Hj Hch. rewrite Hg2 by assumption.
    destruct ((y <=? j) && (j <? y + block_extent H y) && (x <=? i)
              && (i <? x + block_extent W x)) eqn:Eblk.
    + rewrite !andb_true_iff in Eblk.
      destruct Eblk as (((Hj1%Z.leb_le & Hj2%Z.ltb_lt) & Hi1%Z.leb_le) & Hi2%Z.ltb_lt).
      assert (passed y (x + PIXELATION_SIZE) i j = true) as ->.
      { unfold passed, PIXELATION_SIZE.
        destruct (Z.ltb_spec j y), (Z.ltb_spec j (y + 16)),
          (Z.ltb_spec i (x + 16)); simpl; try reflexivity; lia. }
      unfold pixelated, data_block_mean. simpl andb.
      destruct (ch <? 3) eqn:Ech.
      * rewrite (block_origin_in x i), (block_origin_in y j)
          by (try assumption; unfold PIXELATION_SIZE; lia).
        f_equal. apply block_sum_ext. intros i' j' Hi' Hj'.
        apply Hsame; lia.
      * apply Hsame; lia.
    + replace ((y <=? j) && (j <? y + block_extent H y) && (x <=? i)
               && (i <? x + block_extent W x) && (ch <? 3)) with false
        by (rewrite Eblk; reflexivity).
      rewrite Hgc by assumption.
      assert (passed y (x + PIXELATION_SIZE) i j = passed y x i j) as ->; [|reflexivity].
      unfold passed, block_extent in *. unfold PIXELATION_SIZE in *.
      rewrite !andb_false_iff, Z.leb_gt, !Z.ltb_ge in Eblk.
      destruct (Z.ltb_spec j y), (Z.ltb_spec j (y + 16)),
        (Z.ltb_spec i (x + 16)), (Z.ltb_spec i x); simpl; try reflexivity; lia.
  - lia.
  - split; [lia|]. split; [reflexivity|]. split; [exact Hl|].
    intros i j ch Hi Hj Hch. rewrite Hget by assumption. unfold passed.
    destruct (Z.ltb_spec j y), (Z.ltb_spec i 0); simpl; try reflexivity; try lia.
    now rewrite andb_false_r.
  - apply Z.ltb_ge in Hexit. split; [exact Hl'|].
    intros i j ch Hi Hj Hch. rewrite Hget' by assumption. unfold passed.
    destruct (Z.ltb_spec j y), (Z.ltb_spec j (y + PIXELATION_SIZE)),
      (Z.ltb_spec i x); simpl; try reflexivity; unfold PIXELATION_SIZE in *; lia.
Qed.

(** The filter on the data of an image: every colour byte becomes the
    floored mean of its clipped block in the input, every alpha byte
    stays. *)
Lemma pixelate_spec :
  List.length (pixelate W H d0) = List.length d0 /\
  forall i j ch, 0 <= i < W -> 0 <= j < H -> 0 <= ch < 4 ->
    get (pixelate W H d0) (idx W i j ch) = pixelated W H d0 i j ch.
Proof.
  unfold pixelate. cbv zeta.
  match goal with |- context [for_loop ?fu 0 ?tst ?nx ?bd ?st] =>
    destruct (for_loop_rule
      (fun y d' => 0 <= y /\ y mod PIXELATION_SIZE = 0 /\
         List.length d' = List.length d0 /\
         forall i j ch, 0 <= i < W -> 0 <= j < H -> 0 <= ch < 4 ->
           get d' (idx W i j ch) =
           if j <? y then pixelated W H d0 i j ch else get d0 (idx W i j ch))
      tst nx bd H) with (fuel := fu) (i := 0) (s := st)
      as (y & Hexit & Hy & Hym & Hl & Hget)
  end.
  - intros j E. apply Z.ltb_lt in E. unfold PIXELATION_SIZE. lia.
  - intros y cur E (Hy & Hym & Hlc & Hgc). apply Z.ltb_lt in E.
    destruct (pixelate_row y cur) as [Hl2 Hg2]; try assumption; try lia.
    split; [unfold PIXELATION_SIZE; lia|].
    split; [unfold PIXELATION_SIZE in *; lia_div|].
    split; assumption.
  - lia.
  - split; [lia|]. split; [reflexivity|]. split; [reflexivity|].
    intros i j ch Hi Hj Hch. destruct (Z.ltb_spec j 0); [lia | reflexivity].
  - apply Z.ltb_ge in Hexit. split; [exact Hl|].
    intros i j ch Hi Hj Hch. rewrite Hget by assumption.
    destruct (Z.ltb_spec j y); [reflexivity | lia].
Qed.

End PixelateFacts.

(* ================================================================== *)
(** * The filter on the canvas *)
(* ================================================================== *)

Section CanvasFacts.
Import JsNumber Canvas2D PrivacyFilter FilterSpec.

Lemma idx_decode (W i j ch : Z) :
  0 <= i < W -> 0 <= ch < 4 ->
  idx W i j ch / 4 = j * W + i /\ idx W i j ch mod 4 = ch /\
  (j * W + i) mod W = i /\ (j * W + i) / W = j.
Proof.
  intros Hi Hch. unfold idx. repeat split.
  - symmetry. apply Z.div_unique with (r := ch); lia.
  - symmetry. apply Z.mod_unique with (q := j * W + i); lia.
  - symmetry. apply Z.mod_unique with (q := j); lia.
  - symmetry. apply Z.div_unique with (r := i); lia.
Qed.

Lemma all_bytes_get (d : list Z) (k : Z) :
  all_bytes d = true -> 0 <= k < Z.of_nat (List.length d) -> 0 <= get d k <= 255.
Proof.
  intros Hb Hk. unfold all_bytes in Hb. rewrite forallb_forall in Hb.
  specialize (Hb (get d k)). unfold get in *.
  assert (In (nth (Z.to_nat k) d 0) d) as Hin by (apply nth_In; lia).
  apply Hb in Hin. lia.
Qed.

Lemma canvas_ok_inv (c : canvas) :
  canvas_ok c = true ->
  0 <= canvas_width c < 2 ^ 32 /\ 0 <= canvas_height c < 2 ^ 32 /\
  Z.of_nat (List.length (bitmap c)) = 4 * canvas_width c * canvas_height c /\
  forall k, 0 <= k < 4 * canvas_width c * canvas_height c ->
    0 <= get (bitmap c) k <= 255.
Proof.
  unfold canvas_ok. rewrite !andb_true_iff.
  intros ((((((H1 & H2) & H3) & H4) & H5) & H6) & H7).
  apply Z.leb_le in H1, H3. apply Z.ltb_lt in H2, H4. apply Z.eqb_eq in H6.
  repeat split; try lia; apply all_bytes_get; try assumption; lia.
Qed.

(** A rectangle inside the canvas is copied byte for byte. *)
Lemma getImageData_inside (c : canvas) (sx sy sw sh : Z) :
  0 <= sx -> 0 <= sy -> 0 < sw -> 0 < sh ->
  sx + sw <= canvas_width c -> sy + sh <= canvas_height c ->
  exists img,
    getImageData c sx sy sw sh = Normal img /\
    img_width img = sw /\ img_height img = sh /\
    Z.of_nat (List.length (data img)) = 4 * sw * sh /\
    forall i j ch, 0 <= i < sw -> 0 <= j < sh -> 0 <= ch < 4 ->
      get (data img) (idx sw i j ch) = byte_at c (sx + i) (sy + j) ch.
Proof.
  intros Hsx Hsy Hsw Hsh Hw Hh. unfold getImageData.
  destruct (Z.eqb_spec sw 0); [lia|]. destruct (Z.eqb_spec sh 0); [lia|].
  destruct (Z.ltb_spec sw 0); [lia|]. destruct (Z.ltb_spec sh 0); [lia|].
  simpl orb. cbv iota zeta. rewrite !Z.abs_eq by lia.
  eexists. split; [reflexivity|]. cbn [img_width img_height data].
  split; [reflexivity|]. split; [reflexivity|].
  split; [rewrite length_map, length_seq; lia|].
  intros i j ch Hi Hj Hch.
  assert (0 <= idx sw i j ch < 4 * sw * sh) as Hr by (unfold idx; nia).
  rewrite get_map_seq by lia. rewrite Z2Nat.id by lia.
  destruct (idx_decode sw i j ch Hi Hch) as (E1 & E2 & E3 & E4).
  rewrite E1, E2, E3, E4.
  unfold inside.
  destruct (Z.leb_spec 0 (sx + i)), (Z.ltb_spec (sx + i) (canvas_width c)),
    (Z.leb_spec 0 (sy + j)), (Z.ltb_spec (sy + j) (canvas_height c));
    try lia. reflexivity.
Qed.

(** Writing back replaces the rectangle and nothing else. *)
Lemma putImageData_spec (c : canvas) (img : ImageData) (dx dy : Z) :
  Z.of_nat (List.length (bitmap c)) = 4 * canvas_width c * canvas_height c ->
  forall X Y ch,
    0 <= X < canvas_width c -> 0 <= Y < canvas_height c -> 0 <= ch < 4 ->
    byte_at (putImageData c img dx dy) X Y ch =
    if (dx <=? X) && (X <? dx + img_width img)
       && (dy <=? Y) && (Y <? dy + img_height img)
    then get (data img) (idx (img_width img) (X - dx) (Y - dy) ch)
    else byte_at c X Y ch.
Proof.
  intros Hlen X Y ch HX HY Hch. unfold byte_at, putImageData.
  cbn [canvas_width canvas_height bitmap].
  fold (idx (canvas_width c) X Y ch).
  assert (0 <= idx (canvas_width c) X Y ch < 4 * canvas_width c * canvas_height c)
    as Hr by (unfold idx; nia).
  rewrite get_map_seq by lia. rewrite Z2Nat.id by lia.
  destruct (idx_decode (canvas_width c) X Y ch HX Hch) as (E1 & E2 & E3 & E4).
  rewrite E1, E2, E3, E4. reflexivity.
Qed.

(** A block sum over the canvas, from the block sum over the copy. *)
Lemma block_sum_shift (f : Z -> Z -> Z) (rx ry x y bw bh : Z) :
  block_sum (fun i j => f (rx + i) (ry + j)) x y bw bh
  = block_sum f (rx + x) (ry + y) bw bh.
Proof.
  unfold block_sum. apply sum_upto_ext. intros dy _.
  apply sum_upto_ext. intros dx _. f_equal; lia.
Qed.

Lemma block_origin_range (L i : Z) :
  0 <= i < L ->
  0 <= block_origin i <= i /\ i < block_origin i + block_extent L (block_origin i)
  /\ block_origin i + block_extent L (block_origin i) <= L
  /\ 0 < block_extent L (block_origin i).
Proof.
  unfold block_origin, block_extent, PIXELATION_SIZE. intros Hi. lia_div.
Qed.

End CanvasFacts.

Section FilterFacts.
Import JsNumber Canvas2D PrivacyFilter FilterSpec.

(** The region lies inside the canvas. *)
Lemma faceRegion_inside (w h : Z) (fr : FaceRegion.region) :
  0 <= w < 2 ^ 32 -> 0 <= h < 2 ^ 32 ->
  FaceRegion.faceRegion w h = Some fr ->
  0 <= FaceRegion.x fr /\ 0 <= FaceRegion.y fr /\
  0 <= FaceRegion.width fr /\ 0 <= FaceRegion.height fr /\
  FaceRegion.x fr + FaceRegion.width fr <= w /\
  FaceRegion.y fr + FaceRegion.height fr <= h.
Proof.
  intros Hw Hh Hfr. rewrite faceRegion_eq in Hfr by assumption.
  assert (fr = {| FaceRegion.x := w / 4; FaceRegion.y := h / 20;
                   FaceRegion.width := w / 2; FaceRegion.height := 9 * h / 20 |})
    as -> by congruence.
  cbn [FaceRegion.x FaceRegion.y FaceRegion.width FaceRegion.height].
  lia_div.
Qed.

(** What the filter leaves on the canvas, byte by byte. *)
Lemma applyPrivacyFilter_bytes (c : canvas) (fr : FaceRegion.region) :
  canvas_ok c = true ->
  FaceRegion.faceRegion (canvas_width c) (canvas_height c) = Some fr ->
  canvas_width (snd (applyPrivacyFilter c)) = canvas_width c /\
  canvas_height (snd (applyPrivacyFilter c)) = canvas_height c /\
  List.length (bitmap (snd (applyPrivacyFilter c))) = List.length (bitmap c) /\
  forall X Y ch,
    0 <= X < canvas_width c -> 0 <= Y < canvas_height c -> 0 <= ch < 4 ->
    byte_at (snd (applyPrivacyFilter c)) X Y ch =
    if in_region fr X Y && (ch <? 3)
    then block_mean_at c fr X Y ch
    else byte_at c X Y ch.
Proof.
  intros Hok Hfr.
  destruct (canvas_ok_inv c Hok) as (Hw & Hh & Hlen & Hbytes).
  destruct (faceRegion_inside _ _ fr Hw Hh Hfr) as (Hx & Hy & Hrw & Hrh & Hxw & Hyh).
  unfold applyPrivacyFilter. cbv zeta. rewrite Hfr.
  destruct fr as [rx ry rw rh]. cbn [FaceRegion.x FaceRegion.y FaceRegion.width
    FaceRegion.height] in *.
  destruct (Z.eq_dec rw 0) as [Erw|Nrw];
    [|destruct (Z.eq_dec rh 0) as [Erh|Nrh]].
  - (* an empty region: the call throws before any write *)
    subst rw. unfold getImageData. simpl. repeat split; try reflexivity.
    intros X Y ch HX HY Hch. unfold in_region. cbn.
    destruct (Z.leb_spec rx X), (Z.ltb_spec X (rx + 0)); try lia; reflexivity.
  - subst rh. unfold getImageData.
    replace ((rw =? 0) || (0 =? 0)) with true by (now rewrite orb_true_r).
    repeat split; try reflexivity.
    intros X Y ch HX HY Hch. unfold in_region. cbn.
    destruct (Z.leb_spec ry Y), (Z.ltb_spec Y (ry + 0)); try lia;
      now rewrite ?andb_false_r.
  - destruct (getImageData_inside c rx ry rw rh) as (img & -> & Ew & Eh & Hl & Hg);
      try lia.
    cbn [snd]. rewrite Ew, Eh.
    assert (bytes_in rw rh (data img)) as Hb.
    { intros i j ch Hi Hj Hch. rewrite Hg by assumption.
      apply Hbytes. unfold idx. nia. }
    destruct (pixelate_spec rw rh ltac:(lia) ltac:(lia) (data img) Hl Hb)
      as [Hpl Hpg].
    split; [reflexivity|]. split; [reflexivity|].
    split; [unfold putImageData; cbn; now rewrite length_map, length_seq|].
    intros X Y ch HX HY Hch.
    rewrite putImageData_spec by assumption.
    cbn [img_width img_height data]. unfold in_region.
    cbn [FaceRegion.x FaceRegion.y FaceRegion.width FaceRegion.height].
    destruct ((rx <=? X) && (X <? rx + rw) && (ry <=? Y) && (Y <? ry + rh))
      eqn:Ein; [|reflexivity].
    rewrite !andb_true_iff in Ein.
    destruct Ein as (((HX1%Z.leb_le & HX2%Z.ltb_lt) & HY1%Z.leb_le) & HY2%Z.ltb_lt).
    rewrite Hpg by lia. unfold pixelated. simpl andb.
    destruct (ch <? 3) eqn:Ech;
      [|rewrite Hg by lia; f_equal; lia].
    unfold data_block_mean, block_mean_at.
    cbn [FaceRegion.x FaceRegion.y FaceRegion.width FaceRegion.height].
    pose proof (block_origin_range rw (X - rx) ltac:(lia)) as Hox.
    pose proof (block_origin_range rh (Y - ry) ltac:(lia)) as Hoy.
    f_equal. rewrite <- block_sum_shift. apply block_sum_ext.
    intros i j Hi Hj. apply Hg; lia.
Qed.

End FilterFacts.

Section IdempotenceFacts.
Import JsNumber Canvas2D PrivacyFilter FilterSpec.

Lemma idx_encode (W H k : Z) :
  0 <= W -> 0 <= H -> 0 <= k < 4 * W * H ->
  exists i j ch,
    0 <= i < W /\ 0 <= j < H /\ 0 <= ch < 4 /\ k = idx W i j ch.
Proof.
  intros HW0 HH0 Hk.
  assert (0 < W) as HW by nia.
  exists ((k / 4) mod W), ((k / 4) / W), (k mod 4).
  pose proof (Z.mod_pos_bound (k / 4) W HW).
  pose proof (Z.mod_pos_bound k 4 ltac:(lia)).
  pose proof (Z.div_mod (k / 4) W ltac:(lia)) as E1.
  pose proof (Z.div_mod k 4 ltac:(lia)) as E2.
  assert (0 <= k / 4) by (apply Z.div_pos; lia).
  assert (0 <= k / 4 / W) by (apply Z.div_pos; lia).
  assert (k / 4 / W < H).
  { apply Z.div_lt_upper_bound; [lia|].
    assert (k / 4 < W * H); [|lia].
    apply Z.div_lt_upper_bound; lia. }
  unfold idx. repeat split; try lia.
Qed.

(** Two canvases with the same dimensions and the same bytes are the
    same canvas. *)
Lemma canvas_ext (c1 c2 : canvas) :
  canvas_width c1 = canvas_width c2 -> canvas_height c1 = canvas_height c2 ->
  0 <= canvas_width c1 -> 0 <= canvas_height c1 ->
  Z.of_nat (List.length (bitmap c1)) = 4 * canvas_width c1 * canvas_height c1 ->
  List.length (bitmap c1) = List.length (bitmap c2) ->
  (forall X Y ch,
     0 <= X < canvas_width c1 -> 0 <= Y < canvas_height c1 -> 0 <= ch < 4 ->
     byte_at c1 X Y ch = byte_at c2 X Y ch) ->
  c1 = c2.
Proof.
  destruct c1 as [w1 h1 b1], c2 as [w2 h2 b2].
  cbn [canvas_width canvas_height bitmap].
  intros <- <- Hw1 Hh1 Hlen Hl Hb. f_equal.
  apply nth_ext with (d := 0) (d' := 0); [exact Hl|].
  intros n Hn.
  destruct (idx_encode w1 h1 (Z.of_nat n) Hw1 Hh1 ltac:(lia))
    as (i & j & ch & Hi & Hj & Hch & E).
  specialize (Hb i j ch Hi Hj Hch). unfold byte_at, get in Hb.
  cbn [canvas_width canvas_height bitmap] in Hb.
  unfold idx in E. rewrite <- E, Nat2Z.id in Hb. exact Hb.
Qed.

Lemma block_mean_at_range (c : canvas) (fr : FaceRegion.region) (X Y ch : Z) :
  canvas_ok c = true ->
  FaceRegion.faceRegion (canvas_width c) (canvas_height c) = Some fr ->
  in_region fr X Y = true -> 0 <= ch < 4 ->
  0 <= block_mean_at c fr X Y ch <= 255.
Proof.
  intros Hok Hfr Hin Hch.
  destruct (canvas_ok_inv c Hok) as (Hw & Hh & Hlen & Hbytes).
  destruct (faceRegion_inside _ _ fr Hw Hh Hfr) as (Hx & Hy & Hrw & Hrh & Hxw & Hyh).
  unfold in_region in Hin. rewrite !andb_true_iff in Hin.
  destruct Hin as (((HX1%Z.leb_le & HX2%Z.ltb_lt) & HY1%Z.leb_le) & HY2%Z.ltb_lt).
  unfold block_mean_at.
  pose proof (block_origin_range (FaceRegion.width fr) (X - FaceRegion.x fr)
                ltac:(lia)) as Hox.
  pose proof (block_origin_range (FaceRegion.height fr) (Y - FaceRegion.y fr)
                ltac:(lia)) as Hoy.
  set (ox := block_origin (X - FaceRegion.x fr)) in *.
  set (oy := block_origin (Y - FaceRegion.y fr)) in *.
  set (bw := block_extent (FaceRegion.width fr) ox) in *.
  set (bh := block_extent (FaceRegion.height fr) oy) in *.
  pose proof (block_sum_bounds (fun X' Y' => byte_at c X' Y' ch)
                (FaceRegion.x fr + ox) (FaceRegion.y fr + oy) bw bh 0 255
                ltac:(lia) ltac:(lia)) as Hs.
  cbv beta in Hs.
  assert (0 < bw * bh) by nia.
  specialize (Hs ltac:(intros i j Hi Hj; apply Hbytes; nia)).
  split; [apply Z.div_pos; lia | apply Z.div_le_upper_bound; lia].
Qed.

(** The filter leaves a canvas of bytes. *)
Lemma canvas_ok_filter (c : canvas) (fr : FaceRegion.region) :
  canvas_ok c = true ->
  FaceRegion.faceRegion (canvas_width c) (canvas_height c) = Some fr ->
  canvas_ok (snd (applyPrivacyFilter c)) = true.
Proof.
  intros Hok Hfr.
  destruct (applyPrivacyFilter_bytes c fr Hok Hfr) as (Ew & Eh & El & Hb).
  destruct (canvas_ok_inv c Hok) as (Hw & Hh & Hlen & Hbytes).
  pose proof Hok as Hok'. unfold canvas_ok in Hok'.
  rewrite !andb_true_iff in Hok'.
  destruct Hok' as ((((((H1 & H2) & H3) & H4) & H5) & H6) & H7).
  unfold canvas_ok. rewrite Ew, Eh, El, H1, H2, H3, H4, H5, H6. cbn [andb].
  unfold all_bytes. apply forallb_forall. intros v Hv.
  apply (In_nth _ _ 0) in Hv as (n & Hn & <-).
  destruct (idx_encode (canvas_width c) (canvas_height c) (Z.of_nat n)
              ltac:(lia) ltac:(lia) ltac:(lia))
    as (i & j & ch & Hi & Hj & Hch & E).
  specialize (Hb i j ch Hi Hj Hch). unfold byte_at at 1 in Hb. unfold get in Hb.
  rewrite Ew in Hb. unfold idx in E. rewrite <- E, Nat2Z.id in Hb. rewrite Hb.
  destruct (in_region fr i j) eqn:Ein; cbn [andb].
  - destruct (ch <? 3).
    + pose proof (block_mean_at_range c fr i j ch Hok Hfr Ein Hch). lia.
    + pose proof (Hbytes (idx (canvas_width c) i j ch) ltac:(unfold idx; nia)).
      unfold byte_at. fold (idx (canvas_width c) i j ch). lia.
  - pose proof (Hbytes (idx (canvas_width c) i j ch) ltac:(unfold idx; nia)).
    unfold byte_at. fold (idx (canvas_width c) i j ch). lia.
Qed.

(** Over a filtered canvas every block is of one colour, its mean. *)
Lemma block_mean_at_filtered (c : canvas) (fr : FaceRegion.region) (X Y ch : Z) :
  canvas_ok c = true ->
  FaceRegion.faceRegion (canvas_width c) (canvas_height c) = Some fr ->
  in_region fr X Y = true -> 0 <= ch < 3 ->
  block_mean_at (snd (applyPrivacyFilter c)) fr X Y ch = block_mean_at c fr X Y ch.
Proof.
  intros Hok Hfr Hin Hch.
  destruct (applyPrivacyFilter_bytes c fr Hok Hfr) as (Ew & Eh & El & Hb).
  destruct (canvas_ok_inv c Hok) as (Hw & Hh & Hlen & Hbytes).
  destruct (faceRegion_inside _ _ fr Hw Hh Hfr) as (Hx & Hy & Hrw & Hrh & Hxw & Hyh).
  unfold in_region in Hin. rewrite !andb_true_iff in Hin.
  destruct Hin as (((HX1%Z.leb_le & HX2%Z.ltb_lt) & HY1%Z.leb_le) & HY2%Z.ltb_lt).
  pose proof (block_origin_range (FaceRegion.width fr) (X - FaceRegion.x fr)
                ltac:(lia)) as Hox.
  pose proof (block_origin_range (FaceRegion.height fr) (Y - FaceRegion.y fr)
                ltac:(lia)) as Hoy.
  pose proof (block_extent_range (block_origin (X - FaceRegion.x fr))
                (FaceRegion.width fr) ltac:(lia)) as Hbw.
  pose proof (block_extent_range (block_origin (Y - FaceRegion.y fr))
                (FaceRegion.height fr) ltac:(lia)) as Hbh.
  assert (block_origin (X - FaceRegion.x fr) mod PIXELATION_SIZE = 0) as Hxm
    by (unfold block_origin, PIXELATION_SIZE; lia_div).
  assert (block_origin (Y - FaceRegion.y fr) mod PIXELATION_SIZE = 0) as Hym
    by (unfold block_origin, PIXELATION_SIZE; lia_div).
  unfold block_mean_at at 1.
  set (ox := block_origin (X - FaceRegion.x fr)) in *.
  set (oy := block_origin (Y - FaceRegion.y fr)) in *.
  set (bw := block_extent (FaceRegion.width fr) ox) in *.
  set (bh := block_extent (FaceRegion.height fr) oy) in *.
  rewrite (block_sum_ext _ (fun _ _ => block_mean_at c fr X Y ch)).
  - rewrite block_sum_const by lia. apply Z.div_mul. nia.
  - intros i j Hi Hj. rewrite Hb by lia.
    assert (in_region fr i j = true) as ->.
    { unfold in_region. rewrite !andb_true_iff.
      repeat split; try apply Z.leb_le; try apply Z.ltb_lt; lia. }
    replace (ch <? 3) with true by (symmetry; apply Z.ltb_lt; lia).
    cbn [andb]. unfold block_mean_at.
    rewrite (block_origin_in ox (i - FaceRegion.x fr)),
      (block_origin_in oy (j - FaceRegion.y fr))
      by (try assumption; unfold PIXELATION_SIZE; lia).
    reflexivity.
Qed.

(** A second application of the filter changes nothing, whatever the
    size of the region. *)
Lemma applyPrivacyFilter_twice (c : canvas) (fr : FaceRegion.region) :
  canvas_ok c = true ->
  FaceRegion.faceRegion (canvas_width c) (canvas_height c) = Some fr ->
  snd (applyPrivacyFilter (snd (applyPrivacyFilter c))) = snd (applyPrivacyFilter c).
Proof.
  intros Hok Hfr.
  destruct (applyPrivacyFilter_bytes c fr Hok Hfr) as (Ew & Eh & El & Hb).
  pose proof (canvas_ok_filter c fr Hok Hfr) as Hok'.
  set (c' := snd (applyPrivacyFilter c)) in *.
  assert (FaceRegion.faceRegion (canvas_width c') (canvas_height c') = Some fr)
    as Hfr' by (rewrite Ew, Eh; exact Hfr).
  destruct (applyPrivacyFilter_bytes c' fr Hok' Hfr') as (Ew' & Eh' & El' & Hb').
  destruct (canvas_ok_inv c' Hok') as (Hw' & Hh' & Hlen' & _).
  apply canvas_ext.
  - exact Ew'.
  - exact Eh'.
  - rewrite Ew'. lia.
  - rewrite Eh'. lia.
  - rewrite El', Ew', Eh'. exact Hlen'.
  - exact El'.
  - intros X Y ch HX HY Hch. rewrite Ew' in HX. rewrite Eh' in HY.
    rewrite Hb' by assumption.
    destruct (in_region fr X Y) eqn:Ein; [|reflexivity].
    destruct (Z.ltb_spec ch 3); [|reflexivity]. cbn [andb].
    subst c'. rewrite block_mean_at_filtered by (try assumption; lia).
    rewrite Ew in HX. rewrite Eh in HY.
    rewrite Hb by assumption. rewrite Ein.
    replace (ch <? 3) with true by (symmetry; apply Z.ltb_lt; lia).
    reflexivity.
Qed.

End IdempotenceFacts.

(* ================================================================== *)
(** * Properties of the privacy filter *)
(* ================================================================== *)

Section OpacityFacts.
Import JsNumber Canvas2D PrivacyFilter FilterSpec CanvasAlpha.

Lemma opaque_spec (c : canvas) :
  opaque c = true <->
  forall X Y, 0 <= X < canvas_width c -> 0 <= Y < canvas_height c ->
    byte_at c X Y 3 = 255.
Proof.
  unfold opaque. rewrite forallb_forall. split.
  - intros H X Y HX HY.
    specialize (H (Z.to_nat Y)). rewrite forallb_forall in H.
    specialize (H ltac:(apply in_seq; lia) (Z.to_nat X) ltac:(apply in_seq; lia)).
    rewrite !Z2Nat.id in H by lia. now apply Z.eqb_eq.
  - intros H j Hj. apply in_seq in Hj. apply forallb_forall. intros i Hi.
    apply in_seq in Hi. apply Z.eqb_eq. apply H; lia.
Qed.

(** The filter keeps alpha, so it keeps a canvas opaque: every pixel
    that it puts back has alpha 255. *)
Lemma opaque_filter (c : canvas) (fr : FaceRegion.region) :
  canvas_ok c = true -> opaque c = true ->
  FaceRegion.faceRegion (canvas_width c) (canvas_height c) = Some fr ->
  opaque (snd (applyPrivacyFilter c)) = true.
Proof.
  intros Hok Hop Hfr.
  destruct (applyPrivacyFilter_bytes c fr Hok Hfr) as (Ew & Eh & _ & Hb).
  apply opaque_spec. rewrite Ew, Eh. intros X Y HX HY.
  rewrite Hb by lia. rewrite andb_false_r.
  now apply (proj1 (opaque_spec c)).
Qed.

End OpacityFacts.

Section FilterClaims.
Import JsNumber Canvas2D PrivacyFilter FilterSpec CanvasAlpha.

(** C1.  After [applyPrivacyFilter], on every opaque canvas, as the
    frame buffer is when a video frame has been drawn on it: each pixel
    of the face region carries, in R, G and B, the floored mean of its
    block of side 16 (clipped to the region) taken over the canvas as
    it was before the call, and keeps its alpha; each pixel outside the
    region keeps its four bytes; the dimensions do not change, and the
    canvas is opaque as before. *)
Theorem applyPrivacyFilter_pixelates (c : canvas) (fr : FaceRegion.region) :
  canvas_ok c = true -> opaque c = true ->
  FaceRegion.faceRegion (canvas_width c) (canvas_height c) = Some fr ->
  canvas_width (snd (applyPrivacyFilter c)) = canvas_width c /\
  canvas_height (snd (applyPrivacyFilter c)) = canvas_height c /\
  opaque (snd (applyPrivacyFilter c)) = true /\
  forall X Y, 0 <= X < canvas_width c -> 0 <= Y < canvas_height c ->
    if in_region fr X Y
    then (forall ch, 0 <= ch < 3 ->
            byte_at (snd (applyPrivacyFilter c)) X Y ch = block_mean_at c fr X Y ch)
         /\ byte_at (snd (applyPrivacyFilter c)) X Y 3 = byte_at c X Y 3
    else forall ch, 0 <= ch < 4 ->
           byte_at (snd (applyPrivacyFilter c)) X Y ch = byte_at c X Y ch.
Proof.
  intros Hok Hop Hfr.
  destruct (applyPrivacyFilter_bytes c fr Hok Hfr) as (Ew & Eh & _ & Hb).
  split; [exact Ew|]. split; [exact Eh|].
  split; [exact (opaque_filter c fr Hok Hop Hfr)|].
  intros X Y HX HY. destruct (in_region fr X Y) eqn:Ein.
  - split.
    + intros ch Hch. rewrite Hb by lia. rewrite Ein.
      replace (ch <? 3) with true by (symmetry; apply Z.ltb_lt; lia).
      reflexivity.
    + rewrite Hb by lia. rewrite Ein. reflexivity.
  - intros ch Hch. rewrite Hb by lia. rewrite Ein. reflexivity.
Qed.

Lemma applyPrivacyFilter_pixelates_witness :
  canvas_ok OpaqueSamples.small_opaque_canvas = true /\
  opaque OpaqueSamples.small_opaque_canvas = true /\
  opaque (snd (applyPrivacyFilter OpaqueSamples.small_opaque_canvas)) = true /\
  forall X Y, 0 <= X < 8 -> 0 <= Y < 9 ->
    if in_region {| FaceRegion.x := 2; FaceRegion.y := 0;
                    FaceRegion.width := 4; FaceRegion.height := 4 |} X Y
    then (forall ch, 0 <= ch < 3 ->
            byte_at (snd (applyPrivacyFilter OpaqueSamples.small_opaque_canvas)) X Y ch
            = block_mean_at OpaqueSamples.small_opaque_canvas
                {| FaceRegion.x := 2; FaceRegion.y := 0;
                   FaceRegion.width := 4; FaceRegion.height := 4 |} X Y ch)
         /\ byte_at (snd (applyPrivacyFilter OpaqueSamples.small_opaque_canvas)) X Y 3
            = byte_at OpaqueSamples.small_opaque_canvas X Y 3
    else forall ch, 0 <= ch < 4 ->
           byte_at (snd (applyPrivacyFilter OpaqueSamples.small_opaque_canvas)) X Y ch
           = byte_at OpaqueSamples.small_opaque_canvas X Y ch.
Proof.
  split; [vm_compute; reflexivity|].
  split; [vm_compute; reflexivity|].
  apply (applyPrivacyFilter_pixelates OpaqueSamples.small_opaque_canvas
           {| FaceRegion.x := 2; FaceRegion.y := 0;
              FaceRegion.width := 4; FaceRegion.height := 4 |});
    vm_compute; reflexivity.
Defined.

(** C5.  On an opaque canvas whose face region has a width and a
    height that are multiples of 16, applying the filter to the
    filtered canvas gives the filtered canvas again; the filtered
    canvas is opaque, so the second pass reads the bytes that the first
    one put. *)
Theorem applyPrivacyFilter_idempotent_aligned (c : canvas) (fr : FaceRegion.region) :
  canvas_ok c = true -> opaque c = true ->
  FaceRegion.faceRegion (canvas_width c) (canvas_height c) = Some fr ->
  FaceRegion.width fr mod PIXELATION_SIZE = 0 ->
  FaceRegion.height fr mod PIXELATION_SIZE = 0 ->
  opaque (snd (applyPrivacyFilter c)) = true /\
  snd (applyPrivacyFilter (snd (applyPrivacyFilter c))) = snd (applyPrivacyFilter c).
Proof.
  intros Hok Hop Hfr _ _. split; [exact (opaque_filter c fr Hok Hop Hfr)|].
  now apply applyPrivacyFilter_twice with (fr := fr).
Qed.

Lemma applyPrivacyFilter_idempotent_aligned_witness :
  canvas_ok OpaqueSamples.aligned_opaque_canvas = true /\
  opaque OpaqueSamples.aligned_opaque_canvas = true /\
  opaque (snd (applyPrivacyFilter OpaqueSamples.aligned_opaque_canvas)) = true /\
  snd (applyPrivacyFilter (snd (applyPrivacyFilter OpaqueSamples.aligned_opaque_canvas)))
  = snd (applyPrivacyFilter OpaqueSamples.aligned_opaque_canvas).
Proof.
  split; [vm_compute; reflexivity|].
  split; [vm_compute; reflexivity|].
  apply (applyPrivacyFilter_idempotent_aligned OpaqueSamples.aligned_opaque_canvas
           {| FaceRegion.x := 8; FaceRegion.y := 1;
              FaceRegion.width := 16; FaceRegion.height := 16 |});
    vm_compute; reflexivity.
Defined.

(** C4.  For canvas dimensions [w] and [h] (positive, in the range of
    an unsigned long) the face region is
    [{x: floor(w/4), y: floor(h/20), width: floor(w/2), height: floor(9h/20)}]
    and lies inside the canvas; for 640 by 480 it is
    [{x: 160, y: 24, width: 320, height: 216}]. *)
Theorem faceRegion_contained (w h : Z) :
  0 < w < 2 ^ 32 -> 0 < h < 2 ^ 32 ->
  FaceRegion.faceRegion 640 480
  = Some {| FaceRegion.x := 160; FaceRegion.y := 24;
            FaceRegion.width := 320; FaceRegion.height := 216 |} /\
  exists fr,
    FaceRegion.faceRegion w h = Some fr /\
    FaceRegion.x fr = w / 4 /\ FaceRegion.y fr = h / 20 /\
    FaceRegion.width fr = w / 2 /\ FaceRegion.height fr = 9 * h / 20 /\
    0 <= FaceRegion.x fr /\ 0 <= FaceRegion.width fr /\
    FaceRegion.x fr + FaceRegion.width fr <= w /\
    0 <= FaceRegion.y fr /\ 0 <= FaceRegion.height fr /\
    FaceRegion.y fr + FaceRegion.height fr <= h.
Proof.
  intros Hw Hh. split; [reflexivity|].
  eexists. split; [apply faceRegion_eq; lia|].
  cbn [FaceRegion.x FaceRegion.y FaceRegion.width FaceRegion.height].
  lia_div.
Qed.

Lemma faceRegion_contained_witness :
  exists fr,
    FaceRegion.faceRegion 1920 1080 = Some fr /\
    FaceRegion.x fr = 1920 / 4 /\ FaceRegion.y fr = 1080 / 20 /\
    FaceRegion.width fr = 1920 / 2 /\ FaceRegion.height fr = 9 * 1080 / 20 /\
    0 <= FaceRegion.x fr /\ 0 <= FaceRegion.width fr /\
    FaceRegion.x fr + FaceRegion.width fr <= 1920 /\
    0 <= FaceRegion.y fr /\ 0 <= FaceRegion.height fr /\
    FaceRegion.y fr + FaceRegion.height fr <= 1080.
Proof.
  apply (faceRegion_contained 1920 1080); vm_compute; split; reflexivity.
Defined.

End FilterClaims.

(* ================================================================== *)
(** * Properties of the alert classification *)
(* ================================================================== *)

Section AlertClaims.
Import JsString Alerts.
Local Open Scope string_scope.

Lemma includes_false (s needle : string) :
  includes s needle = false <-> ~ occurs_in needle s.
Proof.
  rewrite <- includes_occurs. destruct (includes s needle); split;
    intros H; try reflexivity; try discriminate; try congruence.
Qed.

(** C8.  [getAlertClass] gives every issue text exactly one of the four
    classes: critical when it contains "Fall"; otherwise warning when
    it contains "Aggression"; otherwise caution when it contains
    "Risky"; otherwise info.  A text that contains both "Fall" and
    "Aggression" is critical. *)
Theorem getAlertClass_precedence (issue : string) :
  (exists c, getAlertClass issue = class_of c /\ classified issue c /\
             forall d, getAlertClass issue = class_of d -> d = c) /\
  (occurs_in "Fall" issue /\ occurs_in "Aggression" issue ->
   getAlertClass issue = class_of critical).
Proof.
  unfold getAlertClass. split.
  - destruct (includes issue "Fall") eqn:EF;
      [|destruct (includes issue "Aggression") eqn:EA;
        [|destruct (includes issue "Risky") eqn:ER]];
      rewrite ?includes_occurs, ?includes_false in *.
    + exists critical. split; [reflexivity|]. split; [cbn; auto|].
      intros d Hd. apply class_of_inj. symmetry. exact Hd.
    + exists warning. split; [reflexivity|]. split; [cbn; auto|].
      intros d Hd. apply class_of_inj. symmetry. exact Hd.
    + exists caution. split; [reflexivity|]. split; [cbn; auto|].
      intros d Hd. apply class_of_inj. symmetry. exact Hd.
    + exists info. split; [reflexivity|]. split; [cbn; auto|].
      intros d Hd. apply class_of_inj. symmetry. exact Hd.
  - intros [HF _]. apply includes_occurs in HF. now rewrite HF.
Qed.

Example getAlertClass_fall_and_aggression :
  getAlertClass "Aggression after Fall Detected" = "alert-critical".
Proof. reflexivity. Qed.

End AlertClaims.

(* ================================================================== *)
(** * Properties of the indicator panel *)
(* ================================================================== *)

Section IndicatorFacts.
Import JsString JsNumber Indicators.
Local Open Scope string_scope.

Lemma existsb_classList_add (l : list string) (c : string) :
  existsb (String.eqb c) (classList_add l c) = true.
Proof.
  unfold classList_add. destruct (existsb (String.eqb c) l) eqn:E; [exact E|].
  rewrite existsb_app. simpl. rewrite String.eqb_refl. now rewrite orb_true_r.
Qed.

Lemma existsb_classList_remove (l : list string) (c : string) :
  existsb (String.eqb c) (classList_remove l c) = false.
Proof.
  unfold classList_remove. induction l as [|x l IH]; [reflexivity|].
  simpl. destruct (String.eqb c x) eqn:E; simpl; [exact IH|].
  now rewrite E, IH.
Qed.

(** A percentage that parses replaces the width. *)
Lemma width_set_width (b : bar) (v : number) :
  (is_finite v && negb (is_negative v))%bool = true ->
  width (set_width b v) = Some v.
Proof. intros H. unfold set_width. now rewrite H. Qed.

(** One block of [updateIndicators] on elements that are in the page:
    the card carries the class exactly when the flag is set, and the
    bar is given the confidence, or 0, times 100. *)
Lemma guarded_flag_indicator_spec
    (detected : bool) (confidence : option number)
    (activeClass activeText activeColor idleText : string)
    (c : option card) (b : option bar) :
  has_status c = true -> present b = true ->
  exists c' b0 b',
    b = Some b0 /\
    guarded_flag_indicator detected confidence
      activeClass activeText activeColor idleText c b = (Some c', Some b') /\
    active (Some c') activeClass = detected /\
    width b' = width (set_width b0 (mul (or_default confidence lit_0) lit_100)).
Proof.
  intros Hc Hb. destruct c as [[cl [st|]]|]; try discriminate.
  destruct b as [b0|]; try discriminate.
  unfold guarded_flag_indicator, update_flag_indicator.
  cbn [indicator_status]. destruct detected.
  - eexists _, b0, _. split; [reflexivity|]. split; [reflexivity|].
    split; [apply existsb_classList_add | reflexivity].
  - eexists _, b0, _. split; [reflexivity|]. split; [reflexivity|].
    split; [apply existsb_classList_remove | reflexivity].
Qed.

Lemma mul_0_9_100 : mul (literal 9 1) lit_100 = of_Z 90.
Proof. vm_compute. reflexivity. Qed.

Lemma mul_0_100 : mul lit_0 lit_100 = of_Z 0.
Proof. vm_compute. reflexivity. Qed.

Lemma mul_0_5_100 : mul lit_0_5 lit_100 = of_Z 50.
Proof. vm_compute. reflexivity. Qed.

(** What the emotion block leaves, whatever the other blocks do. *)
Lemma updateIndicators_emotion (r : AnalysisResult) (doc : document)
    (st : status_element) (b : bar) :
  present (emotionIcon doc) = true ->
  emotionStatus doc = Some st -> emotionConfidence doc = Some b ->
  let e := string_or (emotion r) "neutral" in
  emotionIcon (updateIndicators r doc)
    = Some (property_or (lookup emotionIcons e) "&#128528;") /\
  emotionStatus (updateIndicators r doc)
    = Some {| textContent := capitalizeFirst e;
              color := css_assign (color st) (lookup emotionColors e) |} /\
  fill (emotionConfidence (updateIndicators r doc))
    = width (set_width b (mul (or_default (emotion_confidence r) lit_0_5) lit_100)) /\
  option_map background (emotionConfidence (updateIndicators r doc))
    = Some (css_assign
              (background
                 (set_width b (mul (or_default (emotion_confidence r) lit_0_5) lit_100)))
              (lookup emotionColors e)).
Proof.
  intros Hi Hs Hb e. unfold updateIndicators.
  destruct (guarded_flag_indicator _ _ _ _ _ _ (fallIndicator doc) _) as [? ?].
  destruct (guarded_flag_indicator _ _ _ _ _ _ (aggressionIndicator doc) _) as [? ?].
  destruct (guarded_flag_indicator _ _ _ _ _ _ (riskyIndicator doc) _) as [? ?].
  rewrite Hs, Hb. destruct (emotionIcon doc); [|discriminate].
  cbn [emotionIcon emotionStatus emotionConfidence fill width background option_map].
  repeat split; reflexivity.
Qed.

(** What the three flag blocks leave. *)
Lemma updateIndicators_flags (r : AnalysisResult) (doc : document) :
  complete doc = true ->
  (active (fallIndicator (updateIndicators r doc)) "active-fall"
     = flag (fall_detected r) /\
   exists b, fallConfidence doc = Some b /\
     fill (fallConfidence (updateIndicators r doc))
     = width (set_width b (mul (or_default (fall_confidence r) lit_0) lit_100))) /\
  (active (aggressionIndicator (updateIndicators r doc)) "active-aggression"
     = flag (aggression r) /\
   exists b, aggressionConfidence doc = Some b /\
     fill (aggressionConfidence (updateIndicators r doc))
     = width (set_width b (mul (or_default (aggression_confidence r) lit_0) lit_100))) /\
  (active (riskyIndicator (updateIndicators r doc)) "active-risky"
     = flag (risky_behavior r) /\
   exists b, riskyConfidence doc = Some b /\
     fill (riskyConfidence (updateIndicators r doc))
     = width (set_width b (mul (or_default (risky_confidence r) lit_0) lit_100))).
Proof.
  unfold complete. rewrite !andb_true_iff.
  intros ((((((((H1 & H2) & H3) & H4) & H5) & H6) & H7) & H8) & H9).
  unfold updateIndicators.
  destruct (guarded_flag_indicator_spec (flag (fall_detected r)) (fall_confidence r)
              "active-fall" "FALL DETECTED!" "var(--danger-color)" "No Fall Detected"
              _ _ H1 H2) as (c1 & b1 & b1' & E1 & -> & A1 & W1).
  destruct (guarded_flag_indicator_spec (flag (aggression r)) (aggression_confidence r)
              "active-aggression" "AGGRESSION DETECTED!" "var(--warning-color)"
              "Normal Behavior" _ _ H3 H4) as (c2 & b2 & b2' & E2 & -> & A2 & W2).
  destruct (guarded_flag_indicator_spec (flag (risky_behavior r)) (risky_confidence r)
              "active-risky" "RISKY BEHAVIOR!" "#eab308" "Safe Position"
              _ _ H5 H6) as (c3 & b3 & b3' & E3 & -> & A3 & W3).
  destruct (match emotionIcon doc with Some _ => _ | None => _ end) as [[? ?] ?].
  cbn [fallIndicator fallConfidence aggressionIndicator aggressionConfidence
       riskyIndicator riskyConfidence fill].
  repeat split; try assumption; eexists; split; eassumption.
Qed.

End IndicatorFacts.

Section IndicatorClaims.
Import JsString JsNumber Indicators.
Local Open Scope string_scope.

Lemma complete_emotion (doc : document) :
  complete doc = true ->
  present (emotionIcon doc) = true /\
  exists st b, emotionStatus doc = Some st /\ emotionConfidence doc = Some b.
Proof.
  unfold complete. rewrite !andb_true_iff.
  intros ((((((((_ & _) & _) & _) & _) & _) & H7) & H8) & H9).
  split; [exact H7|].
  destruct (emotionStatus doc) as [st|]; [|discriminate].
  destruct (emotionConfidence doc) as [b|]; [|discriminate].
  now exists st, b.
Qed.

Lemma own_property_unknown (e : string) :
  ~ In e known_emotions ->
  own_property emotionIcons e = None /\ own_property emotionColors e = None.
Proof.
  unfold known_emotions. simpl In. intros H. unfold emotionIcons, emotionColors.
  cbn [own_property].
  destruct (String.eqb_spec "happy" e); [tauto|].
  destruct (String.eqb_spec "sad" e); [tauto|].
  destruct (String.eqb_spec "angry" e); [tauto|].
  destruct (String.eqb_spec "scared" e); [tauto|].
  destruct (String.eqb_spec "neutral" e); [tauto|].
  split; reflexivity.
Qed.

Lemma existsb_not_in (e : string) (l : list string) :
  ~ In e l -> existsb (String.eqb e) l = false.
Proof.
  intros H. destruct (existsb (String.eqb e) l) eqn:E; [|reflexivity].
  apply existsb_exists in E as (x & Hx & Ex).
  apply String.eqb_eq in Ex. subst x. contradiction.
Qed.

(** C6.  For the result [{fall_detected: true, fall_confidence: 0.9}]
    and a panel with all its elements: the fall indicator is active
    with a bar at 90%; the aggression and risky indicators are
    inactive with bars at 0%; the emotion is the default "neutral",
    shown with the neutral icon under the label "Neutral", with a bar
    at 50%. *)
Theorem updateIndicators_fall_only (doc : document) :
  complete doc = true ->
  let doc' := updateIndicators Samples.fall_result doc in
  active (fallIndicator doc') "active-fall" = true /\
  fill (fallConfidence doc') = Some (of_Z 90) /\
  active (aggressionIndicator doc') "active-aggression" = false /\
  fill (aggressionConfidence doc') = Some (of_Z 0) /\
  active (riskyIndicator doc') "active-risky" = false /\
  fill (riskyConfidence doc') = Some (of_Z 0) /\
  string_or (emotion Samples.fall_result) "neutral" = "neutral" /\
  emotion_label doc' = Some (capitalizeFirst "neutral") /\
  emotion_label doc' = Some "Neutral" /\
  emotionIcon doc' = Some (Markup "&#128528;") /\
  fill (emotionConfidence doc') = Some (of_Z 50).
Proof.
  intros Hc doc'. subst doc'.
  destruct (updateIndicators_flags Samples.fall_result doc Hc)
    as ((A1 & b1 & _ & W1) & (A2 & b2 & _ & W2) & (A3 & b3 & _ & W3)).
  destruct (complete_emotion doc Hc) as (Hi & st & b & Hs & Hb).
  destruct (updateIndicators_emotion Samples.fall_result doc st b Hi Hs Hb)
    as (Ei & Es & Ew & _).
  rewrite A1, A2, A3, W1, W2, W3, Ew. unfold emotion_label. rewrite Es, Ei.
  cbn [Samples.fall_result fall_detected fall_confidence aggression
       aggression_confidence risky_behavior risky_confidence emotion
       emotion_confidence flag option_map textContent].
  change (or_default (Some (literal 9 1)) lit_0) with (literal 9 1).
  change (or_default None lit_0) with lit_0.
  change (or_default None lit_0_5) with lit_0_5.
  rewrite mul_0_9_100, mul_0_100, mul_0_5_100.
  rewrite !width_set_width by (vm_compute; reflexivity).
  repeat split; reflexivity.
Qed.

Lemma updateIndicators_fall_only_witness :
  let doc' := updateIndicators Samples.fall_result Samples.panel in
  active (fallIndicator doc') "active-fall" = true /\
  fill (fallConfidence doc') = Some (of_Z 90) /\
  active (aggressionIndicator doc') "active-aggression" = false /\
  fill (aggressionConfidence doc') = Some (of_Z 0) /\
  active (riskyIndicator doc') "active-risky" = false /\
  fill (riskyConfidence doc') = Some (of_Z 0) /\
  string_or (emotion Samples.fall_result) "neutral" = "neutral" /\
  emotion_label doc' = Some (capitalizeFirst "neutral") /\
  emotion_label doc' = Some "Neutral" /\
  emotionIcon doc' = Some (Markup "&#128528;") /\
  fill (emotionConfidence doc') = Some (of_Z 50).
Proof.
  apply (updateIndicators_fall_only Samples.panel). reflexivity.
Defined.

(** C7, as the code has it.  On a panel with all its elements: when
    the emotion field is absent or empty, the label is "Neutral" (the
    default "neutral" with its first letter in upper case), with the
    neutral icon and the neutral colour; when it is another string,
    none of happy, sad, angry, scared and neutral, the icon is the
    neutral one unless the string names a member that objects
    inherit, and the label, for a string that begins with an ASCII
    character, is that string with a first letter from a to z in upper
    case. *)
Theorem emotion_label_default (r : AnalysisResult) (doc : document) :
  complete doc = true ->
  (emotion r = None \/ emotion r = Some "" ->
   emotion_label (updateIndicators r doc) = Some "Neutral" /\
   emotionIcon (updateIndicators r doc) = Some (Markup "&#128528;") /\
   option_map color (emotionStatus (updateIndicators r doc))
     = Some "var(--secondary-color)" /\
   option_map background (emotionConfidence (updateIndicators r doc))
     = Some "var(--secondary-color)") /\
  (forall e, emotion r = Some e -> e <> "" -> ~ In e known_emotions ->
   (ascii_first e = true ->
    emotion_label (updateIndicators r doc) = Some (capitalizeFirst e)) /\
   (~ In e object_prototype_keys ->
    emotionIcon (updateIndicators r doc) = Some (Markup "&#128528;"))).
Proof.
  intros Hc.
  destruct (complete_emotion doc Hc) as (Hi & st & b & Hs & Hb).
  destruct (updateIndicators_emotion r doc st b Hi Hs Hb) as (Ei & Es & _ & Eb).
  unfold emotion_label. rewrite Ei, Es, Eb. split.
  - intros Habsent.
    assert (string_or (emotion r) "neutral" = "neutral") as ->
      by (destruct Habsent as [-> | ->]; reflexivity).
    repeat split; reflexivity.
  - intros e He Hne Hunknown. rewrite He.
    assert (string_or (Some e) "neutral" = e) as ->
      by (destruct e; [contradiction | reflexivity]).
    split; [intros _; reflexivity|]. intros Hproto.
    unfold lookup. destruct (own_property_unknown e Hunknown) as [-> _].
    now rewrite (existsb_not_in e _ Hproto).
Qed.

Lemma emotion_label_default_witness :
  (emotion Samples.no_fields = None \/ emotion Samples.no_fields = Some "" ->
   emotion_label (updateIndicators Samples.no_fields Samples.panel) = Some "Neutral" /\
   emotionIcon (updateIndicators Samples.no_fields Samples.panel)
     = Some (Markup "&#128528;") /\
   option_map color (emotionStatus (updateIndicators Samples.no_fields Samples.panel))
     = Some "var(--secondary-color)" /\
   option_map background
     (emotionConfidence (updateIndicators Samples.no_fields Samples.panel))
     = Some "var(--secondary-color)") /\
  (forall e, emotion Samples.no_fields = Some e -> e <> "" -> ~ In e known_emotions ->
   (ascii_first e = true ->
    emotion_label (updateIndicators Samples.no_fields Samples.panel)
      = Some (capitalizeFirst e)) /\
   (~ In e object_prototype_keys ->
    emotionIcon (updateIndicators Samples.no_fields Samples.panel)
      = Some (Markup "&#128528;"))).
Proof.
  apply (emotion_label_default Samples.no_fields Samples.panel). reflexivity.
Defined.

(** C7, as stated, fails: the emotion "confused" is none of the five,
    and the label shows "Confused", not the neutral label, while the
    status keeps the colour it had. *)
Lemma emotion_label_unrecognized :
  complete Samples.panel = true /\
  emotion Samples.confused_result = Some "confused" /\
  ~ In "confused" known_emotions /\
  emotion_label (updateIndicators Samples.confused_result Samples.panel)
    = Some "Confused" /\
  emotion_label (updateIndicators Samples.confused_result Samples.panel)
    <> Some "neutral" /\
  emotion_label (updateIndicators Samples.confused_result Samples.panel)
    <> Some "Neutral" /\
  option_map color (emotionStatus (updateIndicators Samples.confused_result Samples.panel))
    <> Some "var(--secondary-color)".
Proof.
  repeat split; try reflexivity; try (vm_compute; discriminate).
  unfold known_emotions. simpl. intros [H|[H|[H|[H|[H|[]]]]]]; discriminate H.
Qed.



End IndicatorClaims.

(* ================================================================== *)
(** * Properties of the session *)
(* ================================================================== *)

Section HalfFacts.
Import JsNumber.

(** Half of a dimension, as the setter of the fresh canvas stores it. *)
Lemma ToUint32_half (w : Z) :
  0 <= w < 2 ^ 32 -> ToUint32 (mul (of_Z w) lit_0_5) = w / 2.
Proof.
  intros Hw. pose proof (floor_mul_0_5 w Hw) as Hf.
  destruct (mul (of_Z w) lit_0_5) as [sg|sg| |sg m e]; simpl in Hf;
    try discriminate.
  - injection Hf as <-. reflexivity.
  - injection Hf as Hf. unfold ToUint32.
    assert (0 <= w / 2 < 2 ^ 32) as Hr
      by (change (2 ^ 32) with 4294967296 in *; lia_div).
    destruct sg; simpl cond_Zopp in *.
    + exfalso. change (- Zpos m) with (Zneg m) in Hf.
      assert (Z.shiftl (Zneg m) e < 0) by (apply Z.shiftl_neg; lia). lia.
    + rewrite Hf. apply Z.mod_small. lia.
Qed.

End HalfFacts.

Section SessionFacts.
Import JsString JsNumber Canvas2D Session.
Local Open Scope string_scope.

Variable Frame : Type.
Variable drawImage : Frame -> Z -> Z -> list Z.
Variable toDataURL : canvas -> string.

Lemma skipn_app_length {A : Type} (l l' : list A) :
  skipn (List.length l) (l ++ l') = l'.
Proof. induction l as [|x l IH]; [reflexivity | exact IH]. Qed.

(** A run that leaves a trace [trace s ++ l] has added the events
    [l]. *)
Lemma new_events_of (m : M Frame unit) (s : app Frame) (l : list event) :
  trace (run m s) = (trace s ++ l)%list -> new_events m s = l.
Proof. intros E. unfold new_events. rewrite E. apply skipn_app_length. Qed.

(** The request of one tick, from the video frame and the dimensions of
    the display canvas. *)
Lemma analyzeFrame_run (a : fetch_answer) (s : app Frame) (c : canvas) :
  isMonitoring s = true -> display s = Some c ->
  run (analyzeFrame drawImage toDataURL a) s =
  let request :=
    Fetch "POST" "/api/analyze" (JsonImage (snapshot drawImage toDataURL (video s) c)) in
  match a with
  | Rejected => emit (ConsoleError "Error analyzing frame:") (emit request s)
  | Response true (Some results) =>
      set_indicators (Indicators.updateIndicators results (indicators s))
        (emit request s)
  | Response true None =>
      emit (ConsoleError "Error analyzing frame:") (emit request s)
  | Response false _ => emit request s
  end.
Proof.
  intros Hm Hd. unfold run, analyzeFrame. rewrite Hm, Hd.
  destruct a as [[|] [results|]|]; reflexivity.
Qed.

End SessionFacts.

Section SessionClaims.
Import JsString JsNumber Canvas2D Session.
Local Open Scope string_scope.

Variable Frame : Type.
Variable drawImage : Frame -> Z -> Z -> list Z.
Variable toDataURL : canvas -> string.

(** The events of one tick. *)
Lemma analyzeFrame_events (a : fetch_answer) (s : app Frame) (c : canvas) :
  isMonitoring s = true -> display s = Some c ->
  new_events (analyzeFrame drawImage toDataURL a) s =
  Fetch "POST" "/api/analyze" (JsonImage (snapshot drawImage toDataURL (video s) c))
  :: match a with
     | Rejected | Response true None => [ConsoleError "Error analyzing frame:"]
     | Response _ _ => []
     end.
Proof.
  intros Hm Hd. apply new_events_of.
  rewrite (analyzeFrame_run Frame drawImage toDataURL a s c Hm Hd).
  destruct a as [[|] [results|]|]; cbn [trace emit set_indicators];
    rewrite <- ?app_assoc; reflexivity.
Qed.

(** C2.  While monitoring is active, the one request of a tick to
    [/api/analyze] carries the encoding of the current video frame
    drawn at half the width and half the height of the display canvas;
    with any other bitmap on the display canvas, the request is the
    same. *)
Theorem analyzeFrame_payload_raw
    (s : app Frame) (c : canvas) (bm : list Z) (a : fetch_answer) :
  isMonitoring s = true -> display s = Some c ->
  0 <= canvas_width c < 2 ^ 32 -> 0 <= canvas_height c < 2 ^ 32 ->
  let half :=
    {| canvas_width := canvas_width c / 2;
       canvas_height := canvas_height c / 2;
       bitmap := drawImage (current_frame (video s))
                   (canvas_width c / 2) (canvas_height c / 2) |} in
  let request := Fetch "POST" "/api/analyze" (JsonImage (toDataURL half)) in
  filter (is_Fetch "/api/analyze")
    (new_events (analyzeFrame drawImage toDataURL a) s) = [request] /\
  filter (is_Fetch "/api/analyze")
    (new_events (analyzeFrame drawImage toDataURL a) (with_bitmap bm s)) = [request].
Proof.
  intros Hm Hd Hw Hh half request.
  assert (forall c', canvas_width c' = canvas_width c ->
            canvas_height c' = canvas_height c ->
            snapshot drawImage toDataURL (video s) c' = toDataURL half) as Hsnap.
  { intros c' Ew Eh. unfold snapshot. rewrite Ew, Eh.
    now rewrite !ToUint32_half by assumption. }
  split.
  - rewrite (analyzeFrame_events a s c Hm Hd), Hsnap by reflexivity.
    destruct a as [[|] [results|]|]; reflexivity.
  - unfold with_bitmap. rewrite Hd.
    rewrite (analyzeFrame_events a _
               {| canvas_width := canvas_width c;
                  canvas_height := canvas_height c; bitmap := bm |})
      by (try exact Hm; reflexivity).
    cbn [video set_display]. rewrite Hsnap by reflexivity.
    destruct a as [[|] [results|]|]; reflexivity.
Qed.

(** C9, as the code has it.  A tick of an active session that fails
    sends its one request and leaves the application as it was, but
    for the trace: the indicators, the session fields, the display and
    the video are unchanged.  A transport error is logged; a response
    that is not 2xx is not. *)
Theorem analyzeFrame_failure (s : app Frame) (c : canvas) (a : fetch_answer) :
  isMonitoring s = true -> display s = Some c -> failed a = true ->
  let request :=
    Fetch "POST" "/api/analyze"
      (JsonImage (snapshot drawImage toDataURL (video s) c)) in
  new_events (analyzeFrame drawImage toDataURL a) s
  = request :: match a with
               | Rejected => [ConsoleError "Error analyzing frame:"]
               | Response _ _ => []
               end /\
  indicators (run (analyzeFrame drawImage toDataURL a) s) = indicators s /\
  session_of (run (analyzeFrame drawImage toDataURL a) s) = session_of s /\
  display (run (analyzeFrame drawImage toDataURL a) s) = display s /\
  video (run (analyzeFrame drawImage toDataURL a) s) = video s.
Proof.
  intros Hm Hd Hf request.
  rewrite (analyzeFrame_events a s c Hm Hd).
  rewrite (analyzeFrame_run Frame drawImage toDataURL a s c Hm Hd).
  destruct a as [[|] [results|]|]; try discriminate Hf;
    repeat split; reflexivity.
Qed.

End SessionClaims.

Section SessionWitnesses.
Import JsString JsNumber Canvas2D Session Samples.
Local Open Scope string_scope.

Lemma analyzeFrame_payload_raw_witness :
  let half :=
    {| canvas_width := 8 / 2; canvas_height := 9 / 2;
       bitmap := flat_drawImage 65 (8 / 2) (9 / 2) |} in
  let request := Fetch "POST" "/api/analyze" (JsonImage (plain_toDataURL half)) in
  filter (is_Fetch "/api/analyze")
    (new_events (analyzeFrame flat_drawImage plain_toDataURL Rejected) active_app)
  = [request] /\
  filter (is_Fetch "/api/analyze")
    (new_events (analyzeFrame flat_drawImage plain_toDataURL Rejected)
       (with_bitmap [] active_app))
  = [request].
Proof.
  apply (analyzeFrame_payload_raw Z flat_drawImage plain_toDataURL active_app
           (snd (PrivacyFilter.applyPrivacyFilter
                   {| canvas_width := 8; canvas_height := 9;
                      bitmap := flat_drawImage 65 8 9 |}))
           [] Rejected);
    vm_compute; try reflexivity; split; try reflexivity; discriminate.
Defined.

Lemma analyzeFrame_failure_witness :
  new_events (analyzeFrame flat_drawImage plain_toDataURL (Response false None))
    active_app
  = [Fetch "POST" "/api/analyze"
       (JsonImage
          (snapshot flat_drawImage plain_toDataURL (video active_app)
             (snd (PrivacyFilter.applyPrivacyFilter
                     {| canvas_width := 8; canvas_height := 9;
                        bitmap := flat_drawImage 65 8 9 |}))))] /\
  indicators (run (analyzeFrame flat_drawImage plain_toDataURL (Response false None))
                active_app) = indicators active_app /\
  session_of (run (analyzeFrame flat_drawImage plain_toDataURL (Response false None))
                active_app) = session_of active_app /\
  display (run (analyzeFrame flat_drawImage plain_toDataURL (Response false None))
             active_app) = display active_app /\
  video (run (analyzeFrame flat_drawImage plain_toDataURL (Response false None))
           active_app) = video active_app.
Proof.
  apply (analyzeFrame_failure Z flat_drawImage plain_toDataURL active_app
           (snd (PrivacyFilter.applyPrivacyFilter
                   {| canvas_width := 8; canvas_height := 9;
                      bitmap := flat_drawImage 65 8 9 |}))
           (Response false None));
    vm_compute; reflexivity.
Defined.

(** C9, as stated, fails: a response that is not 2xx is skipped without
    any log. *)
Lemma analyzeFrame_non2xx_not_logged :
  Active active_app /\
  failed (Response false None) = true /\
  filter is_ConsoleError
    (new_events (analyzeFrame flat_drawImage plain_toDataURL (Response false None))
       active_app) = [].
Proof. repeat split; vm_compute; reflexivity. Qed.

End SessionWitnesses.

Section StartStopClaims.
Import JsString JsNumber Canvas2D Session.
Local Open Scope string_scope.

Variable Frame : Type.
Variable drawImage : Frame -> Z -> Z -> list Z.

(** [startMonitoring] begins by asking for the camera, whatever the
    state, and holds the stream it is granted. *)
Lemma startMonitoring_acquires (a : start_answers Frame) (s : app Frame) :
  hd_error (new_events (startMonitoring drawImage a) s) = Some GetUserMedia /\
  forall st, media a = Granted st ->
    stream (run (startMonitoring drawImage a) s) = Some st.
Proof.
  assert (exists l, trace (run (startMonitoring drawImage a) s)
                    = (trace s ++ GetUserMedia :: l)%list /\
                    forall st, media a = Granted st ->
                      stream (run (startMonitoring drawImage a) s) = Some st)
    as (l & Ht & Hs).
  { unfold run, startMonitoring, showError, updateStatusBadge, resize_display,
      renderFrame, try_catch, bind, modify, throw, ret.
    destruct a as [[st|] [w h f|] id [ok j|]];
      cbn [media play interval_id toggle fst snd trace emit set_stream set_video
           set_isMonitoring set_controls set_statusBadge set_display
           set_analysisInterval display isMonitoring stream video statusBadge
           current_frame];
      repeat match goal with
             | |- context [match display s with _ => _ end] =>
                 destruct (display s)
             | |- context [match statusBadge s with _ => _ end] =>
                 destruct (statusBadge s)
             | |- context [PrivacyFilter.applyPrivacyFilter ?c] =>
                 destruct (PrivacyFilter.applyPrivacyFilter c) as [[[]|?] ?]
             | _ => progress cbn [fst snd trace emit set_stream set_video
                      set_isMonitoring set_controls set_statusBadge set_display
                      set_analysisInterval display isMonitoring stream video
                      statusBadge current_frame]
             end;
      rewrite <- ?app_assoc; cbn [List.app];
      (eexists; split; [reflexivity | intros st' E; congruence]). }
  split; [|exact Hs].
  rewrite (new_events_of Frame _ _ _ Ht). reflexivity.
Qed.

(** [stopMonitoring] on a session with no stream and no sampler. *)
Lemma stopMonitoring_idle (s : app Frame) :
  stream s = None -> analysisInterval s = None ->
  new_events stopMonitoring s = [Fetch "POST" "/api/status/toggle" NoBody] /\
  isMonitoring (run stopMonitoring s) = false /\
  stream (run stopMonitoring s) = None /\
  analysisInterval (run stopMonitoring s) = None /\
  startBtn_disabled (run stopMonitoring s) = false /\
  stopBtn_disabled (run stopMonitoring s) = true.
Proof.
  intros Hs Hi.
  assert (trace (run stopMonitoring s)
          = (trace s ++ [Fetch "POST" "/api/status/toggle" NoBody])%list) as Ht.
  { unfold run, stopMonitoring, updateStatusBadge, bind, modify.
    cbn [fst snd stream set_isMonitoring]. rewrite Hs.
    cbn [fst snd analysisInterval set_isMonitoring]. rewrite Hi.
    cbn [fst snd trace emit set_stream set_isMonitoring set_controls
         set_statusBadge set_indicators statusBadge].
    destruct (statusBadge s); reflexivity. }
  split; [exact (new_events_of Frame _ _ _ Ht)|].
  unfold run, stopMonitoring, updateStatusBadge, bind, modify.
  cbn [fst snd stream set_isMonitoring]. rewrite Hs.
  cbn [fst snd analysisInterval set_isMonitoring]. rewrite Hi.
  cbn [fst snd trace emit set_stream set_isMonitoring set_controls
       set_statusBadge set_indicators statusBadge].
  destruct (statusBadge s); repeat split; try reflexivity; assumption.
Qed.

(** C3, as the code has it.  Neither method tests the session state.
    [startMonitoring] on an Active session asks for the camera again
    and holds the stream it is granted; [stopMonitoring] on an Idle
    session with no stream and no sampler keeps the session fields as
    they were, leaves the start button enabled and the stop button
    disabled, and sends the status-toggle notification. *)
Theorem start_stop_unguarded (s1 s2 : app Frame) (a : start_answers Frame) :
  Active s1 -> Idle s2 -> stream s2 = None -> analysisInterval s2 = None ->
  hd_error (new_events (startMonitoring drawImage a) s1) = Some GetUserMedia /\
  (forall st, media a = Granted st ->
     stream (run (startMonitoring drawImage a) s1) = Some st) /\
  session_of (run stopMonitoring s2) = session_of s2 /\
  new_events stopMonitoring s2 = [Fetch "POST" "/api/status/toggle" NoBody] /\
  startBtn_disabled (run stopMonitoring s2) = false /\
  stopBtn_disabled (run stopMonitoring s2) = true.
Proof.
  intros _ Hidle Hs Hi.
  destruct (startMonitoring_acquires a s1) as [H1 H2].
  destruct (stopMonitoring_idle s2 Hs Hi) as (E & Em & Est & Ei & Eb1 & Eb2).
  unfold Idle in Hidle. unfold session_of.
  rewrite Em, Est, Ei, Hidle, Hs, Hi.
  repeat split; assumption.
Qed.

End StartStopClaims.

Section StartStopWitnesses.
Import JsString JsNumber Canvas2D Session Samples.
Local Open Scope string_scope.

Lemma start_stop_unguarded_witness :
  hd_error (new_events (startMonitoring flat_drawImage second_answers) active_app)
    = Some GetUserMedia /\
  (forall st, media second_answers = Granted st ->
     stream (run (startMonitoring flat_drawImage second_answers) active_app)
     = Some st) /\
  session_of (run stopMonitoring idle_app) = session_of idle_app /\
  new_events stopMonitoring idle_app = [Fetch "POST" "/api/status/toggle" NoBody] /\
  startBtn_disabled (run stopMonitoring idle_app) = false /\
  stopBtn_disabled (run stopMonitoring idle_app) = true.
Proof.
  apply (start_stop_unguarded Z flat_drawImage active_app idle_app second_answers);
    vm_compute; reflexivity.
Defined.

(** C3, as stated, fails: a second start on an Active session asks for
    the camera and replaces the stream it held without stopping it,
    and a stop on an Idle session sends the status-toggle
    notification. *)
Lemma duplicate_start_stop_not_noops :
  Active active_app /\
  stream active_app = Some 1%positive /\
  existsb is_GetUserMedia
    (new_events (startMonitoring flat_drawImage second_answers) active_app) = true /\
  stream (run (startMonitoring flat_drawImage second_answers) active_app)
    = Some 2%positive /\
  Idle idle_app /\
  existsb (is_Fetch "/api/status/toggle") (new_events stopMonitoring idle_app) = true.
Proof. repeat split; vm_compute; reflexivity. Qed.

End StartStopWitnesses.

(* ================================================================== *)
(** * Worked examples *)
(* ================================================================== *)

Section Examples.
Import JsString JsNumber Canvas2D PrivacyFilter FilterSpec Samples.
Local Open Scope string_scope.

(** [0.05] and [0.45] are the doubles just above the decimals. *)
Example lit_0_05_above : 20 * 7205759403792794 - 2 ^ 57 = 8.
Proof. reflexivity. Qed.

Example lit_0_45_above : 20 * 8106479329266893 - 9 * 2 ^ 54 = 4.
Proof. reflexivity. Qed.

(** Rounding is as in the engine: [0.57 * 100] is 56.99999999999999,
    one unit in the last place under 57. *)
Example mul_0_57_100 :
  mul (literal 57 2) lit_100 = S754_finite false 8022036836253695 (-47) /\
  Math_floor (mul (literal 57 2) lit_100) = Some 56.
Proof. split; reflexivity. Qed.

Example includes_sample :
  includes "Fall Detected" "Fall" = true /\
  includes "fall detected" "Fall" = false.
Proof. split; reflexivity. Qed.

Example capitalizeFirst_sample :
  capitalizeFirst "neutral" = "Neutral" /\ capitalizeFirst "" = "".
Proof. split; reflexivity. Qed.

(** The small opaque canvas: its region and the bytes of the first
    pixel of the region. *)
Example small_canvas_before :
  FaceRegion.faceRegion 8 9
  = Some {| FaceRegion.x := 2; FaceRegion.y := 0;
            FaceRegion.width := 4; FaceRegion.height := 4 |} /\
  map (byte_at OpaqueSamples.small_opaque_canvas 2 0) [0; 1; 2; 3]
  = [51; 88; 125; 255].
Proof. split; vm_compute; reflexivity. Qed.

(** After the filter: the block colour inside the region, the input
    outside, alpha 255 everywhere. *)
Example small_canvas_after :
  fst (applyPrivacyFilter OpaqueSamples.small_opaque_canvas) = Normal tt /\
  map (byte_at (snd (applyPrivacyFilter OpaqueSamples.small_opaque_canvas)) 2 0)
      [0; 1; 2; 3]
  = [129; 134; 123; 255] /\
  map (byte_at (snd (applyPrivacyFilter OpaqueSamples.small_opaque_canvas)) 5 3)
      [0; 1; 2; 3]
  = [129; 134; 123; 255] /\
  map (byte_at (snd (applyPrivacyFilter OpaqueSamples.small_opaque_canvas)) 1 0)
      [0; 1; 2; 3]
  = map (byte_at OpaqueSamples.small_opaque_canvas 1 0) [0; 1; 2; 3].
Proof. repeat split; vm_compute; reflexivity. Qed.

(** A canvas one pixel wide has an empty region: the call throws and
    writes nothing. *)
Example one_pixel_wide :
  applyPrivacyFilter (patterned 1 9) = (Throw IndexSizeError, patterned 1 9).
Proof. vm_compute. reflexivity. Qed.

End Examples.

(* ================================================================== *)
(** * Further properties of the privacy filter *)
(* ================================================================== *)

Section FilterMore.
Import JsNumber Canvas2D PrivacyFilter FilterSpec FilterBlocks CanvasAlpha.

(** The pixels of the block of [(X, Y)], by their coordinates. *)
Lemma in_block_of_range (fr : FaceRegion.region) (X Y X' Y' : Z) :
  0 <= FaceRegion.width fr -> 0 <= FaceRegion.height fr ->
  in_region fr X Y = true ->
  let ox := block_origin (X - FaceRegion.x fr) in
  let oy := block_origin (Y - FaceRegion.y fr) in
  FaceRegion.x fr + ox <= X'
    < FaceRegion.x fr + ox + block_extent (FaceRegion.width fr) ox ->
  FaceRegion.y fr + oy <= Y'
    < FaceRegion.y fr + oy + block_extent (FaceRegion.height fr) oy ->
  in_block_of fr X Y X' Y'.
Proof.
  intros Hw Hh Hin ox oy HX HY.
  unfold in_region in Hin. rewrite !andb_true_iff in Hin.
  destruct Hin as (((HX1%Z.leb_le & HX2%Z.ltb_lt) & HY1%Z.leb_le) & HY2%Z.ltb_lt).
  pose proof (block_origin_range (FaceRegion.width fr) (X - FaceRegion.x fr)
                ltac:(lia)) as Hox.
  pose proof (block_origin_range (FaceRegion.height fr) (Y - FaceRegion.y fr)
                ltac:(lia)) as Hoy.
  fold ox in Hox. fold oy in Hoy.
  assert (ox mod PIXELATION_SIZE = 0) as Hxm
    by (unfold ox, block_origin, PIXELATION_SIZE; lia_div).
  assert (oy mod PIXELATION_SIZE = 0) as Hym
    by (unfold oy, block_origin, PIXELATION_SIZE; lia_div).
  pose proof (block_extent_range ox (FaceRegion.width fr) ltac:(lia)) as Hbw.
  pose proof (block_extent_range oy (FaceRegion.height fr) ltac:(lia)) as Hbh.
  unfold in_block_of. split; [|split].
  - unfold in_region. rewrite !andb_true_iff.
    repeat split; try apply Z.leb_le; try apply Z.ltb_lt; lia.
  - apply block_origin_in; try assumption; unfold PIXELATION_SIZE; lia.
  - apply block_origin_in; try assumption; unfold PIXELATION_SIZE; lia.
Qed.

(** The mean of a block is the same from each of its pixels. *)
Lemma block_mean_at_same_block (c : canvas) (fr : FaceRegion.region)
    (X Y X' Y' ch : Z) :
  in_block_of fr X Y X' Y' ->
  block_mean_at c fr X' Y' ch = block_mean_at c fr X Y ch.
Proof.
  intros (_ & Ex & Ey). unfold block_mean_at. now rewrite Ex, Ey.
Qed.

(** X1.  On a canvas whose dimensions are in the range of an unsigned
    long, [applyPrivacyFilter] throws IndexSizeError, leaving the canvas
    as it was, when the width is under 2 or the height under 3 (the face
    region is then empty); on every other canvas it completes
    normally. *)
Theorem applyPrivacyFilter_throws_iff (c : canvas) :
  0 <= canvas_width c < 2 ^ 32 -> 0 <= canvas_height c < 2 ^ 32 ->
  (canvas_width c < 2 \/ canvas_height c < 3 ->
   applyPrivacyFilter c = (Throw IndexSizeError, c)) /\
  (2 <= canvas_width c -> 3 <= canvas_height c ->
   fst (applyPrivacyFilter c) = Normal tt).
Proof.
  intros Hw Hh. unfold applyPrivacyFilter. cbv zeta.
  rewrite faceRegion_eq by assumption.
  cbn [FaceRegion.x FaceRegion.y FaceRegion.width FaceRegion.height].
  unfold getImageData. split.
  - intros Hsmall.
    assert (canvas_width c / 2 = 0 \/ 9 * canvas_height c / 20 = 0) as [E|E]
      by (change (2 ^ 32) with 4294967296 in *; lia_div).
    + rewrite E. reflexivity.
    + rewrite E. now rewrite orb_true_r.
  - intros Hw2 Hh3.
    assert (0 < canvas_width c / 2 /\ 0 < 9 * canvas_height c / 20) as [E1 E2]
      by (change (2 ^ 32) with 4294967296 in *; lia_div).
    destruct (Z.eqb_spec (canvas_width c / 2) 0); [lia|].
    destruct (Z.eqb_spec (9 * canvas_height c / 20) 0); [lia|].
    reflexivity.
Qed.

Lemma applyPrivacyFilter_throws_iff_witness :
  applyPrivacyFilter (Samples.patterned 1 9)
  = (Throw IndexSizeError, Samples.patterned 1 9) /\
  fst (applyPrivacyFilter Samples.small_canvas) = Normal tt.
Proof.
  split.
  - apply (proj1 (applyPrivacyFilter_throws_iff (Samples.patterned 1 9)
                    ltac:(vm_compute; split; (reflexivity || discriminate))
                    ltac:(vm_compute; split; (reflexivity || discriminate)))).
    left. reflexivity.
  - apply (proj2 (applyPrivacyFilter_throws_iff Samples.small_canvas
                    ltac:(vm_compute; split; (reflexivity || discriminate))
                    ltac:(vm_compute; split; (reflexivity || discriminate))));
      vm_compute; discriminate.
Defined.

(** X2.  The filter keeps a canvas well formed: on a canvas of bytes
    with a bitmap of [4 * width * height] entries it leaves a canvas of
    the same dimensions, again of bytes, with a bitmap of the same
    length. *)
Theorem applyPrivacyFilter_keeps_canvas_ok (c : canvas) (fr : FaceRegion.region) :
  canvas_ok c = true ->
  FaceRegion.faceRegion (canvas_width c) (canvas_height c) = Some fr ->
  canvas_ok (snd (applyPrivacyFilter c)) = true /\
  canvas_width (snd (applyPrivacyFilter c)) = canvas_width c /\
  canvas_height (snd (applyPrivacyFilter c)) = canvas_height c /\
  List.length (bitmap (snd (applyPrivacyFilter c))) = List.length (bitmap c).
Proof.
  intros Hok Hfr.
  destruct (applyPrivacyFilter_bytes c fr Hok Hfr) as (Ew & Eh & El & _).
  split; [exact (canvas_ok_filter c fr Hok Hfr)|]. repeat split; assumption.
Qed.

Lemma applyPrivacyFilter_keeps_canvas_ok_witness :
  canvas_ok (snd (applyPrivacyFilter Samples.small_canvas)) = true /\
  canvas_width (snd (applyPrivacyFilter Samples.small_canvas)) = 8 /\
  canvas_height (snd (applyPrivacyFilter Samples.small_canvas)) = 9 /\
  List.length (bitmap (snd (applyPrivacyFilter Samples.small_canvas)))
  = List.length (bitmap Samples.small_canvas).
Proof.
  apply (applyPrivacyFilter_keeps_canvas_ok Samples.small_canvas
           {| FaceRegion.x := 2; FaceRegion.y := 0;
              FaceRegion.width := 4; FaceRegion.height := 4 |});
    vm_compute; reflexivity.
Defined.

(** X3.  The filter is idempotent on every well-formed opaque canvas,
    whether or not the sides of the region are multiples of 16: a
    clipped edge block is of one colour after the first pass, as a
    whole block is, and the canvas is still opaque. *)
Theorem applyPrivacyFilter_idempotent (c : canvas) (fr : FaceRegion.region) :
  canvas_ok c = true -> opaque c = true ->
  FaceRegion.faceRegion (canvas_width c) (canvas_height c) = Some fr ->
  opaque (snd (applyPrivacyFilter c)) = true /\
  snd (applyPrivacyFilter (snd (applyPrivacyFilter c))) = snd (applyPrivacyFilter c).
Proof.
  intros Hok Hop Hfr. split.
  - exact (opaque_filter c fr Hok Hop Hfr).
  - exact (applyPrivacyFilter_twice c fr Hok Hfr).
Qed.

Lemma applyPrivacyFilter_idempotent_witness :
  opaque (snd (applyPrivacyFilter OpaqueSamples.small_opaque_canvas)) = true /\
  snd (applyPrivacyFilter (snd (applyPrivacyFilter OpaqueSamples.small_opaque_canvas)))
  = snd (applyPrivacyFilter OpaqueSamples.small_opaque_canvas).
Proof.
  apply (applyPrivacyFilter_idempotent OpaqueSamples.small_opaque_canvas
           {| FaceRegion.x := 2; FaceRegion.y := 0;
              FaceRegion.width := 4; FaceRegion.height := 4 |});
    vm_compute; reflexivity.
Defined.

(** X4.  After the filter, on an opaque canvas, two pixels of the
    region that lie in the same block have the same red, green and
    blue: nothing finer than a block is left of the colours of the
    region. *)
Theorem applyPrivacyFilter_block_uniform
    (c : canvas) (fr : FaceRegion.region) (X Y X' Y' ch : Z) :
  canvas_ok c = true -> opaque c = true ->
  FaceRegion.faceRegion (canvas_width c) (canvas_height c) = Some fr ->
  in_region fr X Y = true -> in_block_of fr X Y X' Y' -> 0 <= ch < 3 ->
  byte_at (snd (applyPrivacyFilter c)) X' Y' ch
  = byte_at (snd (applyPrivacyFilter c)) X Y ch.
Proof.
  intros Hok _ Hfr Hin Hblk Hch.
  destruct (applyPrivacyFilter_bytes c fr Hok Hfr) as (_ & _ & _ & Hb).
  destruct (canvas_ok_inv c Hok) as (Hw & Hh & _ & _).
  destruct (faceRegion_inside _ _ fr Hw Hh Hfr) as (Hx & Hy & Hrw & Hrh & Hxw & Hyh).
  pose proof Hblk as (Hin' & _ & _).
  assert (forall U V, in_region fr U V = true ->
            0 <= U < canvas_width c /\ 0 <= V < canvas_height c) as Hins.
  { intros U V HUV. unfold in_region in HUV. rewrite !andb_true_iff in HUV.
    destruct HUV as (((H1%Z.leb_le & H2%Z.ltb_lt) & H3%Z.leb_le) & H4%Z.ltb_lt).
    lia. }
  destruct (Hins _ _ Hin) as [HX HY]. destruct (Hins _ _ Hin') as [HX' HY'].
  rewrite !Hb by lia. rewrite Hin, Hin'.
  replace (ch <? 3) with true by (symmetry; apply Z.ltb_lt; lia).
  cbn [andb]. now apply block_mean_at_same_block.
Qed.

Lemma applyPrivacyFilter_block_uniform_witness :
  byte_at (snd (applyPrivacyFilter OpaqueSamples.small_opaque_canvas)) 5 3 0
  = byte_at (snd (applyPrivacyFilter OpaqueSamples.small_opaque_canvas)) 2 0 0.
Proof.
  apply (applyPrivacyFilter_block_uniform OpaqueSamples.small_opaque_canvas
           {| FaceRegion.x := 2; FaceRegion.y := 0;
              FaceRegion.width := 4; FaceRegion.height := 4 |} 2 0 5 3 0);
    try (vm_compute; reflexivity).
  - repeat split; vm_compute; reflexivity.
  - lia.
Defined.

End FilterMore.

Section FilterLocality.
Import JsNumber Canvas2D PrivacyFilter FilterSpec FilterBlocks CanvasAlpha.

(** X5.  What the filter leaves at a pixel depends on the block of that
    pixel only: two well-formed canvases of the same dimensions that
    agree on the block of a region pixel, or at a pixel outside the
    region, are given the same four bytes there, whatever the rest of
    them holds. *)
Theorem applyPrivacyFilter_local
    (c1 c2 : canvas) (fr : FaceRegion.region) (X Y : Z) :
  canvas_ok c1 = true -> canvas_ok c2 = true ->
  canvas_width c2 = canvas_width c1 -> canvas_height c2 = canvas_height c1 ->
  FaceRegion.faceRegion (canvas_width c1) (canvas_height c1) = Some fr ->
  0 <= X < canvas_width c1 -> 0 <= Y < canvas_height c1 ->
  (forall ch, 0 <= ch < 4 -> byte_at c1 X Y ch = byte_at c2 X Y ch) ->
  (forall X' Y' ch, in_block_of fr X Y X' Y' -> 0 <= ch < 4 ->
     byte_at c1 X' Y' ch = byte_at c2 X' Y' ch) ->
  forall ch, 0 <= ch < 4 ->
    byte_at (snd (applyPrivacyFilter c1)) X Y ch
    = byte_at (snd (applyPrivacyFilter c2)) X Y ch.
Proof.
  intros Hok1 Hok2 Ew Eh Hfr HX HY Hself Hblk ch Hch.
  assert (FaceRegion.faceRegion (canvas_width c2) (canvas_height c2) = Some fr)
    as Hfr2 by (rewrite Ew, Eh; exact Hfr).
  destruct (applyPrivacyFilter_bytes c1 fr Hok1 Hfr) as (_ & _ & _ & Hb1).
  destruct (applyPrivacyFilter_bytes c2 fr Hok2 Hfr2) as (_ & _ & _ & Hb2).
  destruct (canvas_ok_inv c1 Hok1) as (Hw & Hh & _ & _).
  destruct (faceRegion_inside _ _ fr Hw Hh Hfr) as (Hx & Hy & Hrw & Hrh & Hxw & Hyh).
  rewrite Hb1 by lia. rewrite Hb2 by lia.
  destruct (in_region fr X Y && (ch <? 3)) eqn:E; [|now apply Hself].
  apply andb_true_iff in E as [Hin _].
  unfold block_mean_at. f_equal. apply block_sum_ext. intros X' Y' HX' HY'.
  apply Hblk; [|lia]. now apply in_block_of_range.
Qed.

Lemma applyPrivacyFilter_local_witness :
  byte_at Samples.small_canvas 0 0 0 <> byte_at Scenarios.small_canvas_other 0 0 0 /\
  forall ch, 0 <= ch < 4 ->
    byte_at (snd (applyPrivacyFilter Samples.small_canvas)) 2 0 ch
    = byte_at (snd (applyPrivacyFilter Scenarios.small_canvas_other)) 2 0 ch.
Proof.
  split; [vm_compute; discriminate|].
  apply (applyPrivacyFilter_local Samples.small_canvas Scenarios.small_canvas_other
           {| FaceRegion.x := 2; FaceRegion.y := 0;
              FaceRegion.width := 4; FaceRegion.height := 4 |} 2 0);
    try (vm_compute; reflexivity);
    try (vm_compute; split; (reflexivity || discriminate)).
  - intros ch Hch.
    assert (ch = 0 \/ ch = 1 \/ ch = 2 \/ ch = 3) as [-> | [-> | [-> | ->]]] by lia;
      vm_compute; reflexivity.
  - intros X' Y' ch (Hin & _ & _) Hch.
    unfold in_region in Hin. rewrite !andb_true_iff in Hin.
    cbn [FaceRegion.x FaceRegion.y FaceRegion.width FaceRegion.height] in Hin.
    destruct Hin as (((HX1%Z.leb_le & HX2%Z.ltb_lt) & HY1%Z.leb_le) & HY2%Z.ltb_lt).
    assert (X' = 2 \/ X' = 3 \/ X' = 4 \/ X' = 5) as HX by lia.
    assert (Y' = 0 \/ Y' = 1 \/ Y' = 2 \/ Y' = 3) as HY by lia.
    assert (ch = 0 \/ ch = 1 \/ ch = 2 \/ ch = 3) as HC by lia.
    destruct HX as [-> | [-> | [-> | ->]]], HY as [-> | [-> | [-> | ->]]],
      HC as [-> | [-> | [-> | ->]]]; vm_compute; reflexivity.
Defined.

(** X6.  On an opaque canvas the filter never takes a colour out of
    the range of its block: when every byte of a channel over the block
    of a region pixel lies between [lo] and [hi], so does the byte it
    leaves at that pixel. *)
Theorem applyPrivacyFilter_within_block_range
    (c : canvas) (fr : FaceRegion.region) (X Y ch lo hi : Z) :
  canvas_ok c = true -> opaque c = true ->
  FaceRegion.faceRegion (canvas_width c) (canvas_height c) = Some fr ->
  in_region fr X Y = true -> 0 <= ch < 3 ->
  (forall X' Y', in_block_of fr X Y X' Y' -> lo <= byte_at c X' Y' ch <= hi) ->
  lo <= byte_at (snd (applyPrivacyFilter c)) X Y ch <= hi.
Proof.
  intros Hok _ Hfr Hin Hch Hrange.
  destruct (applyPrivacyFilter_bytes c fr Hok Hfr) as (_ & _ & _ & Hb).
  destruct (canvas_ok_inv c Hok) as (Hw & Hh & _ & _).
  destruct (faceRegion_inside _ _ fr Hw Hh Hfr) as (Hx & Hy & Hrw & Hrh & Hxw & Hyh).
  pose proof Hin as Hin0.
  unfold in_region in Hin0. rewrite !andb_true_iff in Hin0.
  destruct Hin0 as (((HX1%Z.leb_le & HX2%Z.ltb_lt) & HY1%Z.leb_le) & HY2%Z.ltb_lt).
  rewrite Hb by lia. rewrite Hin.
  replace (ch <? 3) with true by (symmetry; apply Z.ltb_lt; lia).
  cbn [andb]. unfold block_mean_at.
  pose proof (block_origin_range (FaceRegion.width fr) (X - FaceRegion.x fr)
                ltac:(lia)) as Hox.
  pose proof (block_origin_range (FaceRegion.height fr) (Y - FaceRegion.y fr)
                ltac:(lia)) as Hoy.
  pose proof (fun X' Y' => in_block_of_range fr X Y X' Y' Hrw Hrh Hin) as Hmem.
  cbv zeta in Hmem.
  set (ox := block_origin (X - FaceRegion.x fr)) in *.
  set (oy := block_origin (Y - FaceRegion.y fr)) in *.
  set (bw := block_extent (FaceRegion.width fr) ox) in *.
  set (bh := block_extent (FaceRegion.height fr) oy) in *.
  pose proof (block_sum_bounds (fun X' Y' => byte_at c X' Y' ch)
                (FaceRegion.x fr + ox) (FaceRegion.y fr + oy) bw bh lo hi
                ltac:(lia) ltac:(lia)) as Hs.
  cbv beta in Hs.
  specialize (Hs ltac:(intros i j Hi Hj; apply Hrange; apply Hmem; lia)).
  assert (0 < bw * bh) by nia.
  split.
  - apply Z.div_le_lower_bound; lia.
  - apply Z.div_le_upper_bound; lia.
Qed.

Lemma applyPrivacyFilter_within_block_range_witness :
  7 <= byte_at (snd (applyPrivacyFilter OpaqueSamples.small_opaque_canvas)) 2 0 0 <= 251.
Proof.
  apply (applyPrivacyFilter_within_block_range OpaqueSamples.small_opaque_canvas
           {| FaceRegion.x := 2; FaceRegion.y := 0;
              FaceRegion.width := 4; FaceRegion.height := 4 |} 2 0 0 7 251);
    try (vm_compute; reflexivity); try lia.
  intros X' Y' (Hin & _ & _).
  unfold in_region in Hin. rewrite !andb_true_iff in Hin.
  cbn [FaceRegion.x FaceRegion.y FaceRegion.width FaceRegion.height] in Hin.
  destruct Hin as (((HX1%Z.leb_le & HX2%Z.ltb_lt) & HY1%Z.leb_le) & HY2%Z.ltb_lt).
  assert (X' = 2 \/ X' = 3 \/ X' = 4 \/ X' = 5) as HX by lia.
  assert (Y' = 0 \/ Y' = 1 \/ Y' = 2 \/ Y' = 3) as HY by lia.
  destruct HX as [-> | [-> | [-> | ->]]], HY as [-> | [-> | [-> | ->]]];
    vm_compute; split; discriminate.
Defined.

(** X7.  [Math.floor(r / count)] is the integer quotient: for a sum
    [r] below [2^51] and a positive count below [2^53], rounding the
    binary64 division never moves its floor. *)
Theorem floor_div_exact (r count : Z) :
  0 <= r < 2 ^ 51 -> 0 < count < 2 ^ 53 ->
  floor_div (Some r) count = Some (r / count).
Proof. intros Hr Hc. unfold floor_div. now apply floor_div_of_Z. Qed.

Lemma floor_div_exact_witness : floor_div (Some 65280) 256 = Some 255.
Proof.
  apply (floor_div_exact 65280 256); vm_compute; split; (reflexivity || discriminate).
Defined.

End FilterLocality.

(* ================================================================== *)
(** * Further properties of the indicator panel *)
(* ================================================================== *)

Section IndicatorMore.
Import JsString JsNumber Indicators IndicatorViews.
Local Open Scope string_scope.

Lemma classList_add_idem (l : list string) (c : string) :
  classList_add (classList_add l c) c = classList_add l c.
Proof.
  unfold classList_add at 1. now rewrite existsb_classList_add.
Qed.

Lemma classList_remove_idem (l : list string) (c : string) :
  classList_remove (classList_remove l c) c = classList_remove l c.
Proof.
  unfold classList_remove. induction l as [|x l IH]; [reflexivity|].
  simpl. destruct (String.eqb c x) eqn:E; simpl; [exact IH|].
  now rewrite E, IH.
Qed.

Lemma set_width_idem (b : bar) (v : number) :
  set_width (set_width b v) v = set_width b v.
Proof.
  unfold set_width.
  destruct (is_finite v && negb (is_negative v)) eqn:E;
    cbn [background]; rewrite ?E; reflexivity.
Qed.

(** The fields of the panel after [updateIndicators], block by block. *)
Lemma updateIndicators_fall (r : AnalysisResult) (doc : document) :
  (fallIndicator (updateIndicators r doc), fallConfidence (updateIndicators r doc))
  = guarded_flag_indicator (flag (fall_detected r)) (fall_confidence r)
      "active-fall" "FALL DETECTED!" "var(--danger-color)" "No Fall Detected"
      (fallIndicator doc) (fallConfidence doc).
Proof.
  unfold updateIndicators.
  destruct (guarded_flag_indicator _ _ _ _ _ _ (fallIndicator doc) _) as [? ?].
  destruct (guarded_flag_indicator _ _ _ _ _ _ (aggressionIndicator doc) _) as [? ?].
  destruct (guarded_flag_indicator _ _ _ _ _ _ (riskyIndicator doc) _) as [? ?].
  destruct (match emotionIcon doc with Some _ => _ | None => _ end) as [[? ?] ?].
  reflexivity.
Qed.

Lemma updateIndicators_aggression (r : AnalysisResult) (doc : document) :
  (aggressionIndicator (updateIndicators r doc),
   aggressionConfidence (updateIndicators r doc))
  = guarded_flag_indicator (flag (aggression r)) (aggression_confidence r)
      "active-aggression" "AGGRESSION DETECTED!" "var(--warning-color)"
      "Normal Behavior"
      (aggressionIndicator doc) (aggressionConfidence doc).
Proof.
  unfold updateIndicators.
  destruct (guarded_flag_indicator _ _ _ _ _ _ (fallIndicator doc) _) as [? ?].
  destruct (guarded_flag_indicator _ _ _ _ _ _ (aggressionIndicator doc) _) as [? ?].
  destruct (guarded_flag_indicator _ _ _ _ _ _ (riskyIndicator doc) _) as [? ?].
  destruct (match emotionIcon doc with Some _ => _ | None => _ end) as [[? ?] ?].
  reflexivity.
Qed.

Lemma updateIndicators_risky (r : AnalysisResult) (doc : document) :
  (riskyIndicator (updateIndicators r doc), riskyConfidence (updateIndicators r doc))
  = guarded_flag_indicator (flag (risky_behavior r)) (risky_confidence r)
      "active-risky" "RISKY BEHAVIOR!" "#eab308" "Safe Position"
      (riskyIndicator doc) (riskyConfidence doc).
Proof.
  unfold updateIndicators.
  destruct (guarded_flag_indicator _ _ _ _ _ _ (fallIndicator doc) _) as [? ?].
  destruct (guarded_flag_indicator _ _ _ _ _ _ (aggressionIndicator doc) _) as [? ?].
  destruct (guarded_flag_indicator _ _ _ _ _ _ (riskyIndicator doc) _) as [? ?].
  destruct (match emotionIcon doc with Some _ => _ | None => _ end) as [[? ?] ?].
  reflexivity.
Qed.

(** The emotion block when one of its three elements is missing. *)
Lemma updateIndicators_emotion_missing (r : AnalysisResult) (doc : document) :
  (present (emotionIcon doc) && present (emotionStatus doc)
   && present (emotionConfidence doc))%bool = false ->
  emotionIcon (updateIndicators r doc) = emotionIcon doc /\
  emotionStatus (updateIndicators r doc) = emotionStatus doc /\
  emotionConfidence (updateIndicators r doc) = emotionConfidence doc.
Proof.
  intros H. unfold updateIndicators.
  destruct (guarded_flag_indicator _ _ _ _ _ _ (fallIndicator doc) _) as [? ?].
  destruct (guarded_flag_indicator _ _ _ _ _ _ (aggressionIndicator doc) _) as [? ?].
  destruct (guarded_flag_indicator _ _ _ _ _ _ (riskyIndicator doc) _) as [? ?].
  destruct (emotionIcon doc), (emotionStatus doc), (emotionConfidence doc);
    try discriminate H; repeat split; reflexivity.
Qed.

Lemma document_ext (d1 d2 : document) :
  (fallIndicator d1, fallConfidence d1) = (fallIndicator d2, fallConfidence d2) ->
  (aggressionIndicator d1, aggressionConfidence d1)
    = (aggressionIndicator d2, aggressionConfidence d2) ->
  (riskyIndicator d1, riskyConfidence d1) = (riskyIndicator d2, riskyConfidence d2) ->
  emotionIcon d1 = emotionIcon d2 -> emotionStatus d1 = emotionStatus d2 ->
  emotionConfidence d1 = emotionConfidence d2 ->
  d1 = d2.
Proof.
  destruct d1, d2. cbn. intros H1 H2 H3 -> -> ->.
  injection H1 as -> ->. injection H2 as -> ->. injection H3 as -> ->.
  reflexivity.
Qed.

(** One block, applied to what it left. *)
Lemma guarded_flag_indicator_idem
    (detected : bool) (confidence : option number)
    (activeClass activeText activeColor idleText : string)
    (c : option card) (b : option bar) :
  guarded_flag_indicator detected confidence activeClass activeText activeColor
    idleText
    (fst (guarded_flag_indicator detected confidence activeClass activeText
            activeColor idleText c b))
    (snd (guarded_flag_indicator detected confidence activeClass activeText
            activeColor idleText c b))
  = guarded_flag_indicator detected confidence activeClass activeText activeColor
      idleText c b.
Proof.
  destruct c as [[cl [st|]]|], b as [b0|]; try reflexivity.
  unfold guarded_flag_indicator, update_flag_indicator, set_background.
  cbn [indicator_status fst snd classList].
  destruct detected; cbn [indicator_status fst snd classList width background];
    rewrite ?classList_add_idem, ?classList_remove_idem;
    unfold set_width;
    destruct (is_finite (mul (or_default confidence lit_0) lit_100)
              && negb (is_negative (mul (or_default confidence lit_0) lit_100)))
      eqn:E; cbn [width background]; rewrite ?E; reflexivity.
Qed.

(** The emotion block when its three elements are in the page. *)
Lemma updateIndicators_emotion_present (r : AnalysisResult) (doc : document)
    (i : html) (st : status_element) (b : bar) :
  emotionIcon doc = Some i -> emotionStatus doc = Some st ->
  emotionConfidence doc = Some b ->
  let e := string_or (emotion r) "neutral" in
  let b1 := set_width b (mul (or_default (emotion_confidence r) lit_0_5) lit_100) in
  emotionIcon (updateIndicators r doc)
    = Some (property_or (lookup emotionIcons e) "&#128528;") /\
  emotionStatus (updateIndicators r doc)
    = Some {| textContent := capitalizeFirst e;
              color := css_assign (color st) (lookup emotionColors e) |} /\
  emotionConfidence (updateIndicators r doc)
    = Some {| width := width b1;
              background := css_assign (background b1) (lookup emotionColors e) |}.
Proof.
  intros Hi Hs Hb e b1. unfold updateIndicators.
  destruct (guarded_flag_indicator _ _ _ _ _ _ (fallIndicator doc) _) as [? ?].
  destruct (guarded_flag_indicator _ _ _ _ _ _ (aggressionIndicator doc) _) as [? ?].
  destruct (guarded_flag_indicator _ _ _ _ _ _ (riskyIndicator doc) _) as [? ?].
  rewrite Hi, Hs, Hb. repeat split; reflexivity.
Qed.

Lemma css_assign_idem (old : string) (p : property) :
  css_assign (css_assign old p) p = css_assign old p.
Proof. destruct p; reflexivity. Qed.

(** The emotion block, applied to what it left. *)
Lemma updateIndicators_emotion_idem (r : AnalysisResult) (doc : document) :
  emotionIcon (updateIndicators r (updateIndicators r doc))
    = emotionIcon (updateIndicators r doc) /\
  emotionStatus (updateIndicators r (updateIndicators r doc))
    = emotionStatus (updateIndicators r doc) /\
  emotionConfidence (updateIndicators r (updateIndicators r doc))
    = emotionConfidence (updateIndicators r doc).
Proof.
  destruct (present (emotionIcon doc) && present (emotionStatus doc)
            && present (emotionConfidence doc))%bool eqn:E.
  - destruct (emotionIcon doc) as [i|] eqn:Hi; [|discriminate].
    destruct (emotionStatus doc) as [st|] eqn:Hs; [|discriminate].
    destruct (emotionConfidence doc) as [b|] eqn:Hb; [|discriminate].
    destruct (updateIndicators_emotion_present r doc i st b Hi Hs Hb)
      as (Ei & Es & Eb).
    destruct (updateIndicators_emotion_present r (updateIndicators r doc) _ _ _
                Ei Es Eb) as (Ei' & Es' & Eb').
    rewrite Ei', Es', Eb', Ei, Es, Eb. cbn [color].
    rewrite css_assign_idem. split; [reflexivity|]. split; [reflexivity|].
    f_equal. unfold set_width.
    destruct (is_finite (mul (or_default (emotion_confidence r) lit_0_5) lit_100)
              && negb (is_negative
                         (mul (or_default (emotion_confidence r) lit_0_5) lit_100)))
      eqn:Ev; cbn [width background]; rewrite ?Ev; cbn [width background];
      now rewrite css_assign_idem.
  - destruct (updateIndicators_emotion_missing r doc E) as (Ei & Es & Eb).
    apply updateIndicators_emotion_missing. now rewrite Ei, Es, Eb.
Qed.

(** X8.  [updateIndicators] is idempotent: showing a result a second
    time changes nothing on the panel, whichever of its elements are in
    the page and whatever the result holds. *)
Theorem updateIndicators_idempotent (r : AnalysisResult) (doc : document) :
  updateIndicators r (updateIndicators r doc) = updateIndicators r doc.
Proof.
  apply document_ext.
  - rewrite (updateIndicators_fall r (updateIndicators r doc)).
    pose proof (updateIndicators_fall r doc) as E.
    replace (fallIndicator (updateIndicators r doc)) with (fst
      (fallIndicator (updateIndicators r doc), fallConfidence (updateIndicators r doc)))
      at 1 by reflexivity.
    replace (fallConfidence (updateIndicators r doc)) with (snd
      (fallIndicator (updateIndicators r doc), fallConfidence (updateIndicators r doc)))
      at 2 by reflexivity.
    rewrite E. apply guarded_flag_indicator_idem.
  - rewrite (updateIndicators_aggression r (updateIndicators r doc)).
    pose proof (updateIndicators_aggression r doc) as E.
    replace (aggressionIndicator (updateIndicators r doc)) with (fst
      (aggressionIndicator (updateIndicators r doc),
       aggressionConfidence (updateIndicators r doc))) at 1 by reflexivity.
    replace (aggressionConfidence (updateIndicators r doc)) with (snd
      (aggressionIndicator (updateIndicators r doc),
       aggressionConfidence (updateIndicators r doc))) at 2 by reflexivity.
    rewrite E. apply guarded_flag_indicator_idem.
  - rewrite (updateIndicators_risky r (updateIndicators r doc)).
    pose proof (updateIndicators_risky r doc) as E.
    replace (riskyIndicator (updateIndicators r doc)) with (fst
      (riskyIndicator (updateIndicators r doc), riskyConfidence (updateIndicators r doc)))
      at 1 by reflexivity.
    replace (riskyConfidence (updateIndicators r doc)) with (snd
      (riskyIndicator (updateIndicators r doc), riskyConfidence (updateIndicators r doc)))
      at 2 by reflexivity.
    rewrite E. apply guarded_flag_indicator_idem.
  - apply updateIndicators_emotion_idem.
  - apply updateIndicators_emotion_idem.
  - apply updateIndicators_emotion_idem.
Qed.

End IndicatorMore.

Section IndicatorViewsFacts.
Import JsString JsNumber Indicators IndicatorViews.
Local Open Scope string_scope.

(** What a block shows, on elements that are in the page and for a
    percentage that parses: nothing of what the elements held. *)
Lemma guarded_flag_indicator_view
    (detected : bool) (confidence : option number)
    (activeClass activeText activeColor idleText : string)
    (c : option card) (b : option bar) :
  has_status c = true -> present b = true ->
  valid_percent (mul (or_default confidence lit_0) lit_100) = true ->
  let g := guarded_flag_indicator detected confidence activeClass activeText
             activeColor idleText c b in
  has_status (fst g) = true /\ present (snd g) = true /\
  card_view (fst g) activeClass
    = (detected, Some (if detected then activeText else idleText),
       Some (if detected then activeColor else "")) /\
  bar_view (snd g)
    = (Some (mul (or_default confidence lit_0) lit_100),
       Some (if detected then activeColor else "var(--success-color)")).
Proof.
  intros Hc Hb Hv g. subst g.
  destruct c as [[cl [st|]]|]; try discriminate.
  destruct b as [b0|]; try discriminate.
  unfold guarded_flag_indicator, update_flag_indicator, set_background, set_width.
  unfold valid_percent in Hv. rewrite Hv.
  cbn [indicator_status fst snd]. unfold card_view, bar_view, active, fill.
  destruct detected;
    cbn [fst snd classList indicator_status option_map textContent color width
         background has_status present];
    rewrite ?existsb_classList_add, ?existsb_classList_remove;
    repeat split; reflexivity.
Qed.

(** A block keeps the elements in the page, whatever it is given. *)
Lemma guarded_flag_indicator_present
    (detected : bool) (confidence : option number)
    (activeClass activeText activeColor idleText : string)
    (c : option card) (b : option bar) :
  has_status c = true -> present b = true ->
  has_status (fst (guarded_flag_indicator detected confidence activeClass
                     activeText activeColor idleText c b)) = true /\
  present (snd (guarded_flag_indicator detected confidence activeClass
                  activeText activeColor idleText c b)) = true.
Proof.
  intros Hc Hb.
  destruct c as [[cl [st|]]|]; try discriminate.
  destruct b as [b0|]; try discriminate.
  unfold guarded_flag_indicator, update_flag_indicator, set_background.
  cbn [indicator_status fst snd].
  destruct detected; split; reflexivity.
Qed.

Lemma complete_inv (doc : document) :
  complete doc = true ->
  (has_status (fallIndicator doc) = true /\ present (fallConfidence doc) = true) /\
  (has_status (aggressionIndicator doc) = true
   /\ present (aggressionConfidence doc) = true) /\
  (has_status (riskyIndicator doc) = true /\ present (riskyConfidence doc) = true) /\
  exists i st b,
    emotionIcon doc = Some i /\ emotionStatus doc = Some st /\
    emotionConfidence doc = Some b.
Proof.
  unfold complete. rewrite !andb_true_iff.
  intros ((((((((H1 & H2) & H3) & H4) & H5) & H6) & H7) & H8) & H9).
  repeat split; try assumption.
  destruct (emotionIcon doc) as [i|]; [|discriminate].
  destruct (emotionStatus doc) as [st|]; [|discriminate].
  destruct (emotionConfidence doc) as [b|]; [|discriminate].
  now exists i, st, b.
Qed.

Lemma fst_snd_eq {A B : Type} (a : A) (b : B) (p : A * B) :
  (a, b) = p -> a = fst p /\ b = snd p.
Proof. intros <-. split; reflexivity. Qed.

(** [updateIndicators] keeps every element of a whole panel. *)
Lemma complete_updateIndicators (r : AnalysisResult) (doc : document) :
  complete doc = true -> complete (updateIndicators r doc) = true.
Proof.
  intros Hc.
  destruct (complete_inv doc Hc)
    as ((F1 & F2) & (A1 & A2) & (R1 & R2) & i & st & b & Hi & Hs & Hb).
  destruct (fst_snd_eq _ _ _ (updateIndicators_fall r doc)) as [E1 E2].
  destruct (fst_snd_eq _ _ _ (updateIndicators_aggression r doc)) as [E3 E4].
  destruct (fst_snd_eq _ _ _ (updateIndicators_risky r doc)) as [E5 E6].
  destruct (updateIndicators_emotion_present r doc i st b Hi Hs Hb) as (Ei & Es & Eb).
  unfold complete. rewrite E1, E2, E3, E4, E5, E6, Ei, Es, Eb.
  destruct (guarded_flag_indicator_present (flag (fall_detected r)) (fall_confidence r)
              "active-fall" "FALL DETECTED!" "var(--danger-color)" "No Fall Detected"
              _ _ F1 F2) as [-> ->].
  destruct (guarded_flag_indicator_present (flag (aggression r))
              (aggression_confidence r) "active-aggression" "AGGRESSION DETECTED!"
              "var(--warning-color)" "Normal Behavior" _ _ A1 A2) as [-> ->].
  destruct (guarded_flag_indicator_present (flag (risky_behavior r))
              (risky_confidence r) "active-risky" "RISKY BEHAVIOR!" "#eab308"
              "Safe Position" _ _ R1 R2) as [-> ->].
  reflexivity.
Qed.

(** The tables know the five emotions. *)
Lemma lookup_known (e : string) :
  In e known_emotions ->
  exists icon colour,
    lookup emotionIcons e = Own icon /\ icon <> "" /\
    lookup emotionColors e = Own colour.
Proof.
  unfold known_emotions. simpl In.
  intros [<- | [<- | [<- | [<- | [<- | []]]]]];
    eexists _, _; (split; [reflexivity | split; [discriminate | reflexivity]]).
Qed.

(** On whole panels, what a showable result shows does not depend on
    what the panel held. *)
Lemma view_of_showable (r : AnalysisResult) (d1 d2 : document) :
  complete d1 = true -> complete d2 = true -> showable r ->
  view_of (updateIndicators r d1) = view_of (updateIndicators r d2).
Proof.
  intros Hc1 Hc2 (V1 & V2 & V3 & V4 & Hknown).
  destruct (complete_inv d1 Hc1)
    as ((F1 & F2) & (A1 & A2) & (R1 & R2) & i1 & st1 & b1 & Hi1 & Hs1 & Hb1).
  destruct (complete_inv d2 Hc2)
    as ((F1' & F2') & (A1' & A2') & (R1' & R2') & i2 & st2 & b2 & Hi2 & Hs2 & Hb2).
  unfold view_of.
  destruct (fst_snd_eq _ _ _ (updateIndicators_fall r d1)) as [-> ->].
  destruct (fst_snd_eq _ _ _ (updateIndicators_aggression r d1)) as [-> ->].
  destruct (fst_snd_eq _ _ _ (updateIndicators_risky r d1)) as [-> ->].
  destruct (fst_snd_eq _ _ _ (updateIndicators_fall r d2)) as [-> ->].
  destruct (fst_snd_eq _ _ _ (updateIndicators_aggression r d2)) as [-> ->].
  destruct (fst_snd_eq _ _ _ (updateIndicators_risky r d2)) as [-> ->].
  destruct (updateIndicators_emotion_present r d1 i1 st1 b1 Hi1 Hs1 Hb1)
    as (-> & -> & ->).
  destruct (updateIndicators_emotion_present r d2 i2 st2 b2 Hi2 Hs2 Hb2)
    as (-> & -> & ->).
  destruct (guarded_flag_indicator_view (flag (fall_detected r)) (fall_confidence r)
              "active-fall" "FALL DETECTED!" "var(--danger-color)" "No Fall Detected"
              _ _ F1 F2 V1) as (_ & _ & -> & ->).
  destruct (guarded_flag_indicator_view (flag (fall_detected r)) (fall_confidence r)
              "active-fall" "FALL DETECTED!" "var(--danger-color)" "No Fall Detected"
              _ _ F1' F2' V1) as (_ & _ & -> & ->).
  destruct (guarded_flag_indicator_view (flag (aggression r)) (aggression_confidence r)
              "active-aggression" "AGGRESSION DETECTED!" "var(--warning-color)"
              "Normal Behavior" _ _ A1 A2 V2) as (_ & _ & -> & ->).
  destruct (guarded_flag_indicator_view (flag (aggression r)) (aggression_confidence r)
              "active-aggression" "AGGRESSION DETECTED!" "var(--warning-color)"
              "Normal Behavior" _ _ A1' A2' V2) as (_ & _ & -> & ->).
  destruct (guarded_flag_indicator_view (flag (risky_behavior r)) (risky_confidence r)
              "active-risky" "RISKY BEHAVIOR!" "#eab308" "Safe Position"
              _ _ R1 R2 V3) as (_ & _ & -> & ->).
  destruct (guarded_flag_indicator_view (flag (risky_behavior r)) (risky_confidence r)
              "active-risky" "RISKY BEHAVIOR!" "#eab308" "Safe Position"
              _ _ R1' R2' V3) as (_ & _ & -> & ->).
  destruct (lookup_known _ Hknown) as (icon & colour & -> & _ & ->).
  unfold bar_view, fill, set_width. unfold valid_percent in V4. rewrite V4.
  reflexivity.
Qed.

(** X9.  On a panel with all its elements, what is shown after a
    result that can be shown in full (confidences whose percentages are
    finite and not negative, an emotion that is absent or one of the
    five) is the same whatever result was shown before it: the last
    result wins, and nothing of the earlier one is left. *)
Theorem updateIndicators_last_write_wins
    (r1 r2 : AnalysisResult) (doc : document) :
  complete doc = true -> showable r2 ->
  view_of (updateIndicators r2 (updateIndicators r1 doc))
  = view_of (updateIndicators r2 doc).
Proof.
  intros Hc Hs. apply view_of_showable; [|assumption|assumption].
  now apply complete_updateIndicators.
Qed.

Lemma updateIndicators_last_write_wins_witness :
  view_of (updateIndicators Samples.zero_result
             (updateIndicators Samples.fall_result Samples.panel))
  = view_of (updateIndicators Samples.zero_result Samples.panel).
Proof.
  apply (updateIndicators_last_write_wins Samples.fall_result Samples.zero_result
           Samples.panel).
  - reflexivity.
  - repeat split; try (vm_compute; reflexivity). simpl. tauto.
Defined.

Lemma when_texts_card (sel : bool) (c : option card) (cls : string) :
  snd (fst (card_view (when sel reset_card c) cls)) = snd (fst (card_view c cls)).
Proof.
  unfold when, card_view. destruct sel; [|reflexivity].
  destruct c as [[cl [st|]]|]; reflexivity.
Qed.

Lemma when_background (sel : bool) (b : option bar) :
  option_map background (when sel reset_bar b) = option_map background b.
Proof.
  unfold when. destruct sel; [|reflexivity].
  destruct b as [b|]; [|reflexivity]. reflexivity.
Qed.

(** X10.  [resetIndicators] never writes a text: whichever elements the
    markup lets it select, the three status texts, the emotion label,
    the emotion icon and the four bar backgrounds are after it what they
    were before it. *)
Theorem resetIndicators_keeps_texts (sel : selection) (doc : document) :
  texts_of (resetIndicators_on sel doc) = texts_of doc.
Proof.
  unfold texts_of, resetIndicators_on.
  cbn [fallIndicator aggressionIndicator riskyIndicator emotionStatus emotionIcon
       fallConfidence aggressionConfidence riskyConfidence emotionConfidence].
  rewrite !when_texts_card, !when_background.
  do 3 f_equal.
  unfold when. destruct (emotion_status_selected sel); [|reflexivity].
  destruct (emotionStatus doc); reflexivity.
Qed.

Lemma existsb_filter_false (a : string) (p : string -> bool) (l : list string) :
  existsb (String.eqb a) l = false ->
  existsb (String.eqb a) (filter p l) = false.
Proof.
  induction l as [|x l IH]; [reflexivity|].
  simpl. rewrite orb_false_iff. intros [Hx Hl].
  destruct (p x); simpl; [rewrite Hx|]; now apply IH.
Qed.

(** A card that was reset carries none of the three classes. *)
Lemma inactive_reset_card (c : card) : inactive (Some (reset_card c)) = true.
Proof.
  unfold inactive, active, reset_card. cbn [classList].
  rewrite existsb_classList_remove.
  assert (existsb (String.eqb "active-aggression")
            (classList_remove
               (classList_remove (classList_remove (classList c) "active-fall")
                  "active-aggression") "active-risky") = false) as ->.
  { unfold classList_remove at 1.
    apply existsb_filter_false, existsb_classList_remove. }
  assert (existsb (String.eqb "active-fall")
            (classList_remove
               (classList_remove (classList_remove (classList c) "active-fall")
                  "active-aggression") "active-risky") = false) as ->.
  { unfold classList_remove at 1 2.
    apply existsb_filter_false, existsb_filter_false, existsb_classList_remove. }
  reflexivity.
Qed.

(** X11.  A reset after an alarm takes the alarm class and colour off
    the card but leaves its text: when a result with a detected fall was
    shown on a whole panel and the fall card and bar are reset, the card
    carries no active class and has the default colour, yet still reads
    "FALL DETECTED!", and the bar is at 0% on the alarm background. *)
Theorem resetIndicators_leaves_alarm_text
    (sel : selection) (r : AnalysisResult) (doc : document) :
  complete doc = true -> flag (fall_detected r) = true ->
  fall_card_selected sel = true -> fall_bar_selected sel = true ->
  let d := resetIndicators_on sel (updateIndicators r doc) in
  inactive (fallIndicator d) = true /\
  card_view (fallIndicator d) "active-fall" = (false, Some "FALL DETECTED!", Some "") /\
  bar_view (fallConfidence d) = (Some lit_0, Some "var(--danger-color)").
Proof.
  intros Hc Hf Hsc Hsb d. subst d.
  destruct (complete_inv doc Hc) as ((F1 & F2) & _).
  unfold resetIndicators_on. cbn [fallIndicator fallConfidence].
  rewrite Hsc, Hsb. unfold when.
  destruct (fst_snd_eq _ _ _ (updateIndicators_fall r doc)) as [-> ->].
  rewrite Hf.
  destruct (fallIndicator doc) as [[cl [st|]]|]; try discriminate.
  destruct (fallConfidence doc) as [b0|]; try discriminate.
  unfold guarded_flag_indicator, update_flag_indicator, set_background.
  cbn [indicator_status fst snd option_map].
  split; [apply inactive_reset_card|].
  split.
  - pose proof (inactive_reset_card
        {| classList := classList_add cl "active-fall";
           indicator_status :=
             Some {| textContent := "FALL DETECTED!"; color := "var(--danger-color)" |} |})
        as H.
    unfold inactive in H. rewrite !andb_true_iff, !negb_true_iff in H.
    destruct H as [[H _] _].
    unfold card_view. cbn [classList] in *. rewrite H. reflexivity.
  - unfold bar_view, fill, reset_bar. cbn [option_map].
    unfold set_width at 1.
    replace (is_finite lit_0 && negb (is_negative lit_0))%bool with true
      by (vm_compute; reflexivity).
    cbn [width background].
    unfold set_width.
    now destruct (is_finite _ && negb (is_negative _))%bool.
Qed.

Lemma resetIndicators_leaves_alarm_text_witness :
  let d := resetIndicators_on everything
             (updateIndicators Samples.fall_result Samples.panel) in
  inactive (fallIndicator d) = true /\
  card_view (fallIndicator d) "active-fall" = (false, Some "FALL DETECTED!", Some "") /\
  bar_view (fallConfidence d) = (Some lit_0, Some "var(--danger-color)").
Proof.
  apply (resetIndicators_leaves_alarm_text everything Samples.fall_result
           Samples.panel); reflexivity.
Defined.

End IndicatorViewsFacts.

Section FilterCompletion.
Import Canvas2D.

(** The filter on a canvas that is too small, and on the others. *)
Lemma applyPrivacyFilter_small (c : canvas) :
  0 <= canvas_width c < 2 ^ 32 -> 0 <= canvas_height c < 2 ^ 32 ->
  canvas_width c < 2 \/ canvas_height c < 3 ->
  PrivacyFilter.applyPrivacyFilter c = (Throw IndexSizeError, c).
Proof.
  intros Hw Hh Hsmall. unfold PrivacyFilter.applyPrivacyFilter. cbv zeta.
  rewrite faceRegion_eq by assumption.
  cbn [FaceRegion.x FaceRegion.y FaceRegion.width FaceRegion.height].
  unfold getImageData.
  assert (canvas_width c / 2 = 0 \/ 9 * canvas_height c / 20 = 0) as [E|E]
    by (change (2 ^ 32) with 4294967296 in *; lia_div).
  - rewrite E. reflexivity.
  - rewrite E. now rewrite orb_true_r.
Qed.

Lemma applyPrivacyFilter_normal (c : canvas) :
  2 <= canvas_width c < 2 ^ 32 -> 3 <= canvas_height c < 2 ^ 32 ->
  fst (PrivacyFilter.applyPrivacyFilter c) = Normal tt.
Proof.
  intros Hw Hh. unfold PrivacyFilter.applyPrivacyFilter. cbv zeta.
  rewrite faceRegion_eq by lia.
  cbn [FaceRegion.x FaceRegion.y FaceRegion.width FaceRegion.height].
  unfold getImageData.
  assert (0 < canvas_width c / 2 /\ 0 < 9 * canvas_height c / 20) as [E1 E2]
    by (change (2 ^ 32) with 4294967296 in *; lia_div).
  destruct (Z.eqb_spec (canvas_width c / 2) 0); [lia|].
  destruct (Z.eqb_spec (9 * canvas_height c / 20) 0); [lia|].
  reflexivity.
Qed.

End FilterCompletion.

Section SessionMore.
Import JsString JsNumber Canvas2D Session.
Local Open Scope string_scope.

Variable Frame : Type.
Variable drawImage : Frame -> Z -> Z -> list Z.
Variable toDataURL : canvas -> string.

Ltac session_fields :=
  cbn [fst snd trace emit set_stream set_video set_isMonitoring set_controls
       set_statusBadge set_display set_analysisInterval set_indicators display
       isMonitoring stream video statusBadge analysisInterval indicators
       overlay_hidden startBtn_disabled stopBtn_disabled current_frame
       media play interval_id toggle session_of].

(** What [stopMonitoring] leaves and what it does, from any state. *)
Lemma stopMonitoring_any (s : app Frame) :
  session_of (run stopMonitoring s) = (false, None, None) /\
  trace (run stopMonitoring s)
  = (trace s
     ++ match stream s with Some st => [TrackStop st] | None => [] end
     ++ match analysisInterval s with Some id => [ClearInterval id] | None => [] end
     ++ [Fetch "POST" "/api/status/toggle" NoBody])%list /\
  (overlay_hidden (run stopMonitoring s), startBtn_disabled (run stopMonitoring s),
   stopBtn_disabled (run stopMonitoring s)) = (false, false, true) /\
  video (run stopMonitoring s) = video s /\
  display (run stopMonitoring s) = display s.
Proof.
  unfold session_of, run, stopMonitoring, updateStatusBadge, bind, modify.
  destruct s as [m [st|] [id|] v d o sb pb [b|] ind tr]; session_fields;
    rewrite <- ?app_assoc; cbn [List.app]; repeat split; reflexivity.
Qed.

(** X12.  [stopMonitoring] releases what the session holds, from any
    state: afterwards the session is Idle with no stream and no
    sampler, the overlay is shown, the start button is enabled and the
    stop button disabled; it stops the stream that was held, clears the
    sampler that was held and sends the one status-toggle request, and
    nothing else; the video element and the picture on the display
    canvas are left as they were. *)
Theorem stopMonitoring_releases (s : app Frame) :
  session_of (run stopMonitoring s) = (false, None, None) /\
  new_events stopMonitoring s
  = (match stream s with Some st => [TrackStop st] | None => [] end
     ++ match analysisInterval s with Some id => [ClearInterval id] | None => [] end
     ++ [Fetch "POST" "/api/status/toggle" NoBody])%list /\
  (overlay_hidden (run stopMonitoring s), startBtn_disabled (run stopMonitoring s),
   stopBtn_disabled (run stopMonitoring s)) = (false, false, true) /\
  video (run stopMonitoring s) = video s /\
  display (run stopMonitoring s) = display s.
Proof.
  destruct (stopMonitoring_any s) as (H1 & H2 & H3 & H4 & H5).
  repeat split; try assumption.
  now apply new_events_of.
Qed.

Ltac start_unfold :=
  unfold session_of, run, startMonitoring, showError, updateStatusBadge,
    resize_display, renderFrame, try_catch, bind, modify, throw, ret.

(** A start that the camera refuses. *)
Lemma startMonitoring_denied_run (a : start_answers Frame) (s : app Frame) :
  media a = Denied ->
  run (startMonitoring drawImage a) s
  = emit (Alert "Could not access camera. Please allow camera permissions and try again.")
      (emit (ConsoleError "Error starting monitoring:") (emit GetUserMedia s)).
Proof.
  intros Hm. start_unfold. rewrite Hm. reflexivity.
Qed.

(** X13.  A start that is refused the camera changes nothing but the
    trace: it asks for the camera, logs the error and shows the camera
    alert; the session, the controls, the badge, the display and the
    indicators are as they were. *)
Theorem startMonitoring_denied (a : start_answers Frame) (s : app Frame) :
  media a = Denied ->
  run (startMonitoring drawImage a) s
  = emit (Alert "Could not access camera. Please allow camera permissions and try again.")
      (emit (ConsoleError "Error starting monitoring:") (emit GetUserMedia s)) /\
  new_events (startMonitoring drawImage a) s
  = [GetUserMedia; ConsoleError "Error starting monitoring:";
     Alert "Could not access camera. Please allow camera permissions and try again."].
Proof.
  intros Hm. split; [now apply startMonitoring_denied_run|].
  apply new_events_of. rewrite startMonitoring_denied_run by assumption.
  cbn [trace emit]. now rewrite <- !app_assoc.
Qed.

(** A start that is granted the camera and then fails before the
    session is marked: the video does not play, or there is no canvas
    to size. *)
Lemma startMonitoring_early_failure
    (a : start_answers Frame) (s : app Frame) (st : MediaStream) :
  media a = Granted st ->
  play a = PlayRejected \/ display s = None ->
  session_of (run (startMonitoring drawImage a) s)
  = (isMonitoring s, Some st, analysisInterval s) /\
  trace (run (startMonitoring drawImage a) s)
  = (trace s ++
     [GetUserMedia; Play; ConsoleError "Error starting monitoring:";
      Alert "Could not access camera. Please allow camera permissions and try again."])%list /\
  (overlay_hidden (run (startMonitoring drawImage a) s),
   startBtn_disabled (run (startMonitoring drawImage a) s),
   stopBtn_disabled (run (startMonitoring drawImage a) s))
  = (overlay_hidden s, startBtn_disabled s, stopBtn_disabled s).
Proof.
  intros Hm Hfail. start_unfold.
  destruct s as [m st0 id0 v d o sb pb bd ind tr].
  destruct a as [md pl id tg]. cbn [media play display] in Hm, Hfail. subst md.
  destruct Hfail as [-> | ->]; [|destruct pl as [w h f|]]; session_fields;
    rewrite <- ?app_assoc; cbn [List.app]; repeat split; reflexivity.
Qed.

(** X14.  A start that fails after the camera was granted keeps the
    camera: when the video does not play, or when there is no canvas,
    the stream is held and not stopped, the session is not marked
    Active, no sampler is set and the controls are as they were, while
    the alert says that the camera could not be accessed. *)
Theorem startMonitoring_failure_keeps_camera
    (a : start_answers Frame) (s : app Frame) (st : MediaStream) :
  media a = Granted st ->
  play a = PlayRejected \/ display s = None ->
  session_of (run (startMonitoring drawImage a) s)
  = (isMonitoring s, Some st, analysisInterval s) /\
  new_events (startMonitoring drawImage a) s
  = [GetUserMedia; Play; ConsoleError "Error starting monitoring:";
     Alert "Could not access camera. Please allow camera permissions and try again."] /\
  (overlay_hidden (run (startMonitoring drawImage a) s),
   startBtn_disabled (run (startMonitoring drawImage a) s),
   stopBtn_disabled (run (startMonitoring drawImage a) s))
  = (overlay_hidden s, startBtn_disabled s, stopBtn_disabled s).
Proof.
  intros Hm Hfail.
  destruct (startMonitoring_early_failure a s st Hm Hfail) as (H1 & H2 & H3).
  repeat split; try assumption. now apply new_events_of.
Qed.

(** A start that gets as far as the first frame. *)
Lemma startMonitoring_frame
    (a : start_answers Frame) (s : app Frame) (st : MediaStream)
    (w h : Z) (f : Frame) (c0 : canvas) :
  media a = Granted st -> play a = Playing w h f -> display s = Some c0 ->
  let W := if (w =? 0)%Z then 640 else w in
  let H := if (h =? 0)%Z then 480 else h in
  let drawn :=
    {| canvas_width := W; canvas_height := H; bitmap := drawImage f W H |} in
  let s' := run (startMonitoring drawImage a) s in
  (overlay_hidden s', startBtn_disabled s', stopBtn_disabled s') = (true, true, false) /\
  display s' = Some (snd (PrivacyFilter.applyPrivacyFilter drawn)) /\
  match fst (PrivacyFilter.applyPrivacyFilter drawn) with
  | Normal _ =>
      session_of s' = (true, Some st, Some (interval_id a)) /\
      trace s'
      = (trace s ++
         [GetUserMedia; Play; RequestAnimationFrame;
          SetInterval 500 (interval_id a);
          Fetch "POST" "/api/status/toggle" NoBody] ++
         match toggle a with
         | Rejected =>
             [ConsoleError "Error starting monitoring:";
              Alert "Could not access camera. Please allow camera permissions and try again."]
         | Response _ _ => []
         end)%list
  | Throw _ =>
      session_of s' = (true, Some st, analysisInterval s) /\
      trace s'
      = (trace s ++
         [GetUserMedia; Play; ConsoleError "Error starting monitoring:";
          Alert "Could not access camera. Please allow camera permissions and try again."])%list
  end.
Proof.
  intros Hm Hp Hd W H drawn s'. subst s'. start_unfold.
  destruct s as [m st0 id0 v d o sb pb bd ind tr].
  destruct a as [md pl id tg]. cbn [media play display] in Hm, Hp, Hd.
  subst md pl d. destruct bd as [b|].
  all: cbn [fst snd trace emit set_stream set_video set_isMonitoring set_controls
       set_statusBadge set_display set_analysisInterval display isMonitoring
       stream video statusBadge analysisInterval current_frame media play
       interval_id toggle canvas_width canvas_height].
  all: fold W H; fold drawn.
  all: destruct (PrivacyFilter.applyPrivacyFilter drawn) as [[[]|e] c'];
    destruct tg as [ok j|]; session_fields;
    rewrite <- ?app_assoc; cbn [List.app]; repeat split; reflexivity.
Qed.

(** X15.  A start that is granted a camera of usable dimensions, on a
    page with a canvas: the canvas takes the dimensions of the video, or
    640 and 480 where the video reports 0; the session is Active and
    holds the stream and the sampler of 500 ms; the display shows the
    first frame, filtered; and the status-toggle request is sent.  Its
    answer is not read: any response leaves it at that, and a request
    that fails raises the camera alert on a session that is started. *)
Theorem startMonitoring_started
    (a : start_answers Frame) (s : app Frame) (st : MediaStream)
    (w h : Z) (f : Frame) (c0 : canvas) :
  media a = Granted st -> play a = Playing w h f -> display s = Some c0 ->
  let W := if (w =? 0)%Z then 640 else w in
  let H := if (h =? 0)%Z then 480 else h in
  2 <= W < 2 ^ 32 -> 3 <= H < 2 ^ 32 ->
  let s' := run (startMonitoring drawImage a) s in
  session_of s' = (true, Some st, Some (interval_id a)) /\
  display s'
  = Some (snd (PrivacyFilter.applyPrivacyFilter
                 {| canvas_width := W; canvas_height := H;
                    bitmap := drawImage f W H |})) /\
  (overlay_hidden s', startBtn_disabled s', stopBtn_disabled s') = (true, true, false) /\
  new_events (startMonitoring drawImage a) s
  = ([GetUserMedia; Play; RequestAnimationFrame; SetInterval 500 (interval_id a);
      Fetch "POST" "/api/status/toggle" NoBody] ++
     match toggle a with
     | Rejected =>
         [ConsoleError "Error starting monitoring:";
          Alert "Could not access camera. Please allow camera permissions and try again."]
     | Response _ _ => []
     end)%list.
Proof.
  intros Hm Hp Hd W H HW HH s'.
  destruct (startMonitoring_frame a s st w h f c0 Hm Hp Hd) as (Hc & Hdisp & Hrest).
  fold W H in Hc, Hdisp, Hrest.
  rewrite (applyPrivacyFilter_normal
             {| canvas_width := W; canvas_height := H; bitmap := drawImage f W H |})
    in Hrest by assumption.
  destruct Hrest as [Hs Ht].
  repeat split; try assumption. now apply new_events_of.
Qed.

(** X16.  A start on a camera whose picture is too small to hold a
    face region (under 2 pixels wide or under 3 high): the filter
    throws on the first frame, so the session is left Active and holding
    the stream, with the stop button enabled, but with no sampler and no
    animation frame requested, and the camera alert is shown. *)
Theorem startMonitoring_tiny_camera
    (a : start_answers Frame) (s : app Frame) (st : MediaStream)
    (w h : Z) (f : Frame) (c0 : canvas) :
  media a = Granted st -> play a = Playing w h f -> display s = Some c0 ->
  let W := if (w =? 0)%Z then 640 else w in
  let H := if (h =? 0)%Z then 480 else h in
  0 <= W < 2 ^ 32 -> 0 <= H < 2 ^ 32 -> W < 2 \/ H < 3 ->
  let s' := run (startMonitoring drawImage a) s in
  session_of s' = (true, Some st, analysisInterval s) /\
  (overlay_hidden s', startBtn_disabled s', stopBtn_disabled s') = (true, true, false) /\
  new_events (startMonitoring drawImage a) s
  = [GetUserMedia; Play; ConsoleError "Error starting monitoring:";
     Alert "Could not access camera. Please allow camera permissions and try again."].
Proof.
  intros Hm Hp Hd W H HW HH Hsmall s'.
  destruct (startMonitoring_frame a s st w h f c0 Hm Hp Hd) as (Hc & Hdisp & Hrest).
  fold W H in Hc, Hdisp, Hrest.
  rewrite (applyPrivacyFilter_small
             {| canvas_width := W; canvas_height := H; bitmap := drawImage f W H |})
    in Hrest by assumption.
  destruct Hrest as [Hs Ht].
  repeat split; try assumption. now apply new_events_of.
Qed.

(** [startMonitoring] stops no stream and clears no sampler. *)
Lemma startMonitoring_no_release (a : start_answers Frame) (s : app Frame) :
  forall ev, In ev (new_events (startMonitoring drawImage a) s) ->
    match ev with TrackStop _ | ClearInterval _ => False | _ => True end.
Proof.
  destruct (media a) as [st|] eqn:Hm.
  - destruct (play a) as [w h f|] eqn:Hp; [destruct (display s) as [c0|] eqn:Hd|].
    + destruct (startMonitoring_frame a s st w h f c0 Hm Hp Hd) as (_ & _ & Hrest).
      cbv zeta in Hrest.
      destruct (fst (PrivacyFilter.applyPrivacyFilter _)); destruct Hrest as [_ Ht];
        rewrite (new_events_of _ _ _ _ Ht); [destruct (toggle a)|];
        cbn [List.app In]; intros ev He;
        repeat (destruct He as [<- | He]; [exact I|]); destruct He.
    + destruct (startMonitoring_early_failure a s st Hm (or_intror Hd)) as (_ & Ht & _).
      rewrite (new_events_of _ _ _ _ Ht). cbn [In]. intros ev He.
      repeat (destruct He as [<- | He]; [exact I|]); destruct He.
    + destruct (startMonitoring_early_failure a s st Hm (or_introl Hp)) as (_ & Ht & _).
      rewrite (new_events_of _ _ _ _ Ht). cbn [In]. intros ev He.
      repeat (destruct He as [<- | He]; [exact I|]); destruct He.
  - assert (trace (run (startMonitoring drawImage a) s)
            = (trace s ++
               [GetUserMedia; ConsoleError "Error starting monitoring:";
                Alert "Could not access camera. Please allow camera permissions and try again."])%list)
      as Ht.
    { rewrite startMonitoring_denied_run by assumption.
      cbn [trace emit]. now rewrite <- !app_assoc. }
    rewrite (new_events_of _ _ _ _ Ht). cbn [In]. intros ev He.
    repeat (destruct He as [<- | He]; [exact I|]); destruct He.
Qed.

(** The stream, and the sampler, after a start. *)
Lemma startMonitoring_holds (a : start_answers Frame) (s : app Frame) :
  stream (run (startMonitoring drawImage a) s)
  = match media a with Granted st => Some st | Denied => stream s end /\
  (analysisInterval (run (startMonitoring drawImage a) s) = analysisInterval s \/
   analysisInterval (run (startMonitoring drawImage a) s) = Some (interval_id a)).
Proof.
  destruct (media a) as [st|] eqn:Hm.
  - destruct (play a) as [w h f|] eqn:Hp; [destruct (display s) as [c0|] eqn:Hd|].
    + destruct (startMonitoring_frame a s st w h f c0 Hm Hp Hd) as (_ & _ & Hrest).
      cbv zeta in Hrest. unfold session_of in Hrest.
      destruct (fst (PrivacyFilter.applyPrivacyFilter _)); destruct Hrest as [Hs _];
        injection Hs as _ -> ->; split; auto.
    + destruct (startMonitoring_early_failure a s st Hm (or_intror Hd)) as (Hs & _ & _).
      unfold session_of in Hs. injection Hs as _ -> ->. split; auto.
    + destruct (startMonitoring_early_failure a s st Hm (or_introl Hp)) as (Hs & _ & _).
      unfold session_of in Hs. injection Hs as _ -> ->. split; auto.
  - rewrite startMonitoring_denied_run by assumption. split; [reflexivity|now left].
Qed.

(** X17.  A start on a session that holds a stream drops it without
    stopping it: when another stream is granted, neither the start nor
    the stop that follows stops the stream that was held, and after that
    stop the application holds no stream at all. *)
Theorem restart_leaks_stream
    (a : start_answers Frame) (s : app Frame) (st0 st : MediaStream) :
  stream s = Some st0 -> media a = Granted st -> st <> st0 ->
  let s1 := run (startMonitoring drawImage a) s in
  ~ In (TrackStop st0)
      (new_events (startMonitoring drawImage a) s ++ new_events stopMonitoring s1) /\
  In (TrackStop st) (new_events stopMonitoring s1) /\
  stream (run stopMonitoring s1) = None.
Proof.
  intros Hs Hm Hne s1.
  destruct (startMonitoring_holds a s) as [Hst _]. rewrite Hm in Hst. fold s1 in Hst.
  destruct (stopMonitoring_any s1) as (Hsess & Ht & _).
  rewrite (new_events_of _ _ _ _ Ht). rewrite Hst.
  split; [|split].
  - rewrite in_app_iff. intros [Hin | Hin].
    + exact (startMonitoring_no_release a s _ Hin).
    + cbn [List.app In] in Hin. destruct Hin as [E | Hin]; [congruence|].
      rewrite in_app_iff in Hin. destruct Hin as [Hin | Hin].
      * destruct (analysisInterval s1); cbn [In] in Hin;
          [destruct Hin as [E | []]; discriminate | destruct Hin].
      * cbn [In] in Hin. destruct Hin as [E | []]. discriminate.
  - cbn [List.app In]. now left.
  - unfold session_of in Hsess. now injection Hsess.
Qed.

(** X18.  A start on a session that holds a sampler drops it without
    clearing it: when the start sets another sampler, neither the start
    nor the stop that follows clears the sampler that was held, which
    keeps ticking, and after that stop the application holds none. *)
Theorem restart_leaks_sampler
    (a : start_answers Frame) (s : app Frame) (id0 id1 : timer) :
  analysisInterval s = Some id0 ->
  analysisInterval (run (startMonitoring drawImage a) s) = Some id1 ->
  id1 <> id0 ->
  let s1 := run (startMonitoring drawImage a) s in
  ~ In (ClearInterval id0)
      (new_events (startMonitoring drawImage a) s ++ new_events stopMonitoring s1) /\
  In (ClearInterval id1) (new_events stopMonitoring s1) /\
  analysisInterval (run stopMonitoring s1) = None.
Proof.
  intros Hs Hi Hne s1. fold s1 in Hi.
  destruct (stopMonitoring_any s1) as (Hsess & Ht & _).
  rewrite (new_events_of _ _ _ _ Ht). rewrite Hi.
  split; [|split].
  - rewrite in_app_iff. intros [Hin | Hin].
    + exact (startMonitoring_no_release a s _ Hin).
    + rewrite in_app_iff in Hin. destruct Hin as [Hin | Hin].
      * destruct (stream s1); cbn [In] in Hin;
          [destruct Hin as [E | []]; discriminate | destruct Hin].
      * cbn [List.app In] in Hin.
        destruct Hin as [E | [E | []]]; [congruence | discriminate].
  - rewrite in_app_iff. right. cbn [List.app In]. now left.
  - unfold session_of in Hsess. now injection Hsess.
Qed.

Lemma isMonitoring_stopMonitoring (s : app Frame) :
  isMonitoring (run stopMonitoring s) = false.
Proof.
  destruct (stopMonitoring_any s) as (Hsess & _).
  unfold session_of in Hsess. now injection Hsess.
Qed.

(** X19.  Whatever is still scheduled when the session is stopped finds
    nothing to do: after [stopMonitoring], a tick of a sampler and a
    callback of an animation frame both return at once, with no request
    sent and nothing changed. *)
Theorem callbacks_after_stop_do_nothing (s : app Frame) (a : fetch_answer) :
  analyzeFrame drawImage toDataURL a (run stopMonitoring s)
  = (Normal tt, run stopMonitoring s) /\
  renderFrame drawImage (run stopMonitoring s) = (Normal tt, run stopMonitoring s).
Proof.
  pose proof (isMonitoring_stopMonitoring s) as H.
  unfold analyzeFrame, renderFrame. rewrite H. split; reflexivity.
Qed.

(** The tick that runs without a break is its two parts, one after
    the other. *)
Lemma analyzeFrame_two_parts (a : fetch_answer) (s : app Frame) :
  analyzeFrame drawImage toDataURL a s
  = match Ticks.analyzeFrame_request drawImage toDataURL s with
    | (Normal true, s1) => Ticks.analyzeFrame_resume a s1
    | (_, s1) => (Normal tt, s1)
    end.
Proof.
  unfold analyzeFrame, Ticks.analyzeFrame_request, Ticks.analyzeFrame_resume.
  destruct (isMonitoring s); [|reflexivity].
  destruct (display s) as [c|]; [|reflexivity].
  unfold try_catch, bind, modify, throw, ret.
  destruct a as [[|] [r|]|]; reflexivity.
Qed.

(** What the second part does, in any state. *)
Lemma analyzeFrame_resume_run (a : fetch_answer) (s : app Frame) :
  run (Ticks.analyzeFrame_resume a) s
  = match a with
    | Response true (Some results) =>
        set_indicators (Indicators.updateIndicators results (indicators s)) s
    | Response false _ => s
    | _ => emit (ConsoleError "Error analyzing frame:") s
    end.
Proof.
  unfold run, Ticks.analyzeFrame_resume, try_catch, modify, throw, ret.
  destruct a as [[|] [r|]|]; reflexivity.
Qed.

(** X20.  The answer of a tick is applied with no second test of the
    session.  [analyzeFrame] is its part up to the request followed by
    its part from the answer on; that second part, in any state,
    leaves the session fields, the display, the video, the badge and
    the controls alone, and on a 2xx answer whose body is a result
    (JSON of the shape that the panel reads) it sets the indicators to
    what [updateIndicators] makes of them; on any other answer it
    leaves them.  So an answer that comes after [stopMonitoring] still
    changes the indicators of the session that is then Idle. *)
Theorem analyzeFrame_resume_unguarded (a : fetch_answer) (s : app Frame) :
  analyzeFrame drawImage toDataURL a s
  = match Ticks.analyzeFrame_request drawImage toDataURL s with
    | (Normal true, s1) => Ticks.analyzeFrame_resume a s1
    | (_, s1) => (Normal tt, s1)
    end /\
  (let s' := run (Ticks.analyzeFrame_resume a) s in
   session_of s' = session_of s /\ display s' = display s /\ video s' = video s /\
   statusBadge s' = statusBadge s /\
   (overlay_hidden s', startBtn_disabled s', stopBtn_disabled s')
   = (overlay_hidden s, startBtn_disabled s, stopBtn_disabled s) /\
   indicators s'
   = match a with
     | Response true (Some results) =>
         Indicators.updateIndicators results (indicators s)
     | _ => indicators s
     end) /\
  (forall results,
     let idle := run stopMonitoring s in
     let late := run (Ticks.analyzeFrame_resume (Response true (Some results))) idle in
     isMonitoring late = false /\
     indicators late = Indicators.updateIndicators results (indicators idle)).
Proof.
  split; [apply analyzeFrame_two_parts|]. split.
  - cbv zeta. rewrite analyzeFrame_resume_run.
    destruct a as [[|] [r|]|]; session_fields; repeat split; reflexivity.
  - intros results idle late. subst late.
    rewrite analyzeFrame_resume_run. session_fields.
    split; [apply isMonitoring_stopMonitoring | reflexivity].
Qed.

(** One cycle of [renderFrame] on an Active session. *)
Lemma renderFrame_run (s : app Frame) (c : canvas) :
  isMonitoring s = true -> display s = Some c ->
  let drawn :=
    {| canvas_width := canvas_width c; canvas_height := canvas_height c;
       bitmap := drawImage (current_frame (video s))
                   (canvas_width c) (canvas_height c) |} in
  fst (PrivacyFilter.applyPrivacyFilter drawn) = Normal tt ->
  run (renderFrame drawImage) s
  = emit RequestAnimationFrame
      (set_display (Some (snd (PrivacyFilter.applyPrivacyFilter drawn))) s).
Proof.
  intros Hm Hd drawn Hn. unfold run, renderFrame. rewrite Hm, Hd. fold drawn.
  destruct (PrivacyFilter.applyPrivacyFilter drawn) as [[[]|e] c']; [reflexivity|].
  discriminate.
Qed.

(** X21.  What [renderFrame] leaves on the display is filtered: on an
    Active session whose canvas can hold a face region and whose video
    frame draws as a well-formed opaque bitmap, the canvas keeps its
    dimensions and stays opaque, the filter applied once more to the
    picture it shows would not change a byte, the next frame is
    requested once and the session fields are as they were. *)
Theorem renderFrame_shows_filtered (s : app Frame) (c : canvas) :
  isMonitoring s = true -> display s = Some c ->
  2 <= canvas_width c -> 3 <= canvas_height c ->
  FilterSpec.canvas_ok
    {| canvas_width := canvas_width c; canvas_height := canvas_height c;
       bitmap := drawImage (current_frame (video s))
                   (canvas_width c) (canvas_height c) |} = true ->
  CanvasAlpha.opaque
    {| canvas_width := canvas_width c; canvas_height := canvas_height c;
       bitmap := drawImage (current_frame (video s))
                   (canvas_width c) (canvas_height c) |} = true ->
  exists c',
    display (run (renderFrame drawImage) s) = Some c' /\
    canvas_width c' = canvas_width c /\ canvas_height c' = canvas_height c /\
    CanvasAlpha.opaque c' = true /\
    PrivacyFilter.applyPrivacyFilter c' = (Normal tt, c') /\
    new_events (renderFrame drawImage) s = [RequestAnimationFrame] /\
    session_of (run (renderFrame drawImage) s) = session_of s.
Proof.
  intros Hm Hd Hw2 Hh3 Hok Hop.
  set (drawn := {| canvas_width := canvas_width c; canvas_height := canvas_height c;
                   bitmap := drawImage (current_frame (video s))
                               (canvas_width c) (canvas_height c) |}) in *.
  destruct (canvas_ok_inv drawn Hok) as (Hw & Hh & _).
  cbn [drawn canvas_width canvas_height] in Hw, Hh.
  assert (fst (PrivacyFilter.applyPrivacyFilter drawn) = Normal tt) as Hn
    by (apply applyPrivacyFilter_normal; cbn [drawn canvas_width canvas_height]; lia).
  pose proof (faceRegion_eq (canvas_width drawn) (canvas_height drawn) Hw Hh) as Hfr.
  destruct (applyPrivacyFilter_bytes drawn _ Hok Hfr) as (Ew & Eh & _).
  pose proof (applyPrivacyFilter_twice drawn _ Hok Hfr) as Htwice.
  exists (snd (PrivacyFilter.applyPrivacyFilter drawn)).
  rewrite (renderFrame_run s c Hm Hd Hn). fold drawn.
  split; [reflexivity|]. split; [exact Ew|]. split; [exact Eh|].
  split; [exact (opaque_filter drawn _ Hok Hop Hfr)|].
  split; [|split].
  - apply injective_projections; [|exact Htwice].
    apply applyPrivacyFilter_normal; rewrite ?Ew, ?Eh;
      cbn [drawn canvas_width canvas_height]; lia.
  - apply new_events_of. rewrite (renderFrame_run s c Hm Hd Hn). reflexivity.
  - reflexivity.
Qed.

End SessionMore.

Section SessionMoreWitnesses.
Import JsString JsNumber Canvas2D Session Samples SessionScenarios.
Local Open Scope string_scope.

Lemma startMonitoring_denied_witness :
  run (startMonitoring flat_drawImage denied_answers) idle_app
  = emit (Alert "Could not access camera. Please allow camera permissions and try again.")
      (emit (ConsoleError "Error starting monitoring:") (emit GetUserMedia idle_app)) /\
  new_events (startMonitoring flat_drawImage denied_answers) idle_app
  = [GetUserMedia; ConsoleError "Error starting monitoring:";
     Alert "Could not access camera. Please allow camera permissions and try again."].
Proof.
  apply (startMonitoring_denied Z flat_drawImage denied_answers idle_app).
  reflexivity.
Defined.

Lemma startMonitoring_failure_keeps_camera_witness :
  session_of (run (startMonitoring flat_drawImage unplayable_answers) idle_app)
  = (false, Some 3%positive, None) /\
  new_events (startMonitoring flat_drawImage unplayable_answers) idle_app
  = [GetUserMedia; Play; ConsoleError "Error starting monitoring:";
     Alert "Could not access camera. Please allow camera permissions and try again."] /\
  (overlay_hidden (run (startMonitoring flat_drawImage unplayable_answers) idle_app),
   startBtn_disabled (run (startMonitoring flat_drawImage unplayable_answers) idle_app),
   stopBtn_disabled (run (startMonitoring flat_drawImage unplayable_answers) idle_app))
  = (false, false, true).
Proof.
  apply (startMonitoring_failure_keeps_camera Z flat_drawImage unplayable_answers
           idle_app 3%positive).
  - reflexivity.
  - left. reflexivity.
Defined.

Lemma startMonitoring_started_witness :
  session_of (run (startMonitoring flat_drawImage offline_answers) idle_app)
  = (true, Some 5%positive, Some 12%positive) /\
  display (run (startMonitoring flat_drawImage offline_answers) idle_app)
  = Some (snd (PrivacyFilter.applyPrivacyFilter
                 {| canvas_width := 8; canvas_height := 9;
                    bitmap := flat_drawImage 68 8 9 |})) /\
  (overlay_hidden (run (startMonitoring flat_drawImage offline_answers) idle_app),
   startBtn_disabled (run (startMonitoring flat_drawImage offline_answers) idle_app),
   stopBtn_disabled (run (startMonitoring flat_drawImage offline_answers) idle_app))
  = (true, true, false) /\
  new_events (startMonitoring flat_drawImage offline_answers) idle_app
  = [GetUserMedia; Play; RequestAnimationFrame; SetInterval 500 12%positive;
     Fetch "POST" "/api/status/toggle" NoBody;
     ConsoleError "Error starting monitoring:";
     Alert "Could not access camera. Please allow camera permissions and try again."].
Proof.
  apply (startMonitoring_started Z flat_drawImage offline_answers idle_app
           5%positive 8 9 68 small_canvas).
  - reflexivity.
  - reflexivity.
  - reflexivity.
  - simpl. lia.
  - simpl. lia.
Defined.

Lemma startMonitoring_tiny_camera_witness :
  session_of (run (startMonitoring flat_drawImage tiny_answers) idle_app)
  = (true, Some 4%positive, None) /\
  (overlay_hidden (run (startMonitoring flat_drawImage tiny_answers) idle_app),
   startBtn_disabled (run (startMonitoring flat_drawImage tiny_answers) idle_app),
   stopBtn_disabled (run (startMonitoring flat_drawImage tiny_answers) idle_app))
  = (true, true, false) /\
  new_events (startMonitoring flat_drawImage tiny_answers) idle_app
  = [GetUserMedia; Play; ConsoleError "Error starting monitoring:";
     Alert "Could not access camera. Please allow camera permissions and try again."].
Proof.
  apply (startMonitoring_tiny_camera Z flat_drawImage tiny_answers idle_app
           4%positive 1 9 67 small_canvas).
  - reflexivity.
  - reflexivity.
  - reflexivity.
  - simpl. lia.
  - simpl. lia.
  - left. simpl. lia.
Defined.

Lemma restart_leaks_stream_witness :
  ~ In (TrackStop 1%positive)
      (new_events (startMonitoring flat_drawImage second_answers) active_app
       ++ new_events stopMonitoring
            (run (startMonitoring flat_drawImage second_answers) active_app)) /\
  In (TrackStop 2%positive)
    (new_events stopMonitoring
       (run (startMonitoring flat_drawImage second_answers) active_app)) /\
  stream (run stopMonitoring
            (run (startMonitoring flat_drawImage second_answers) active_app)) = None.
Proof.
  apply (restart_leaks_stream Z flat_drawImage second_answers active_app
           1%positive 2%positive).
  - vm_compute. reflexivity.
  - reflexivity.
  - lia.
Defined.

Lemma restart_leaks_sampler_witness :
  ~ In (ClearInterval 7%positive)
      (new_events (startMonitoring flat_drawImage second_answers) active_app
       ++ new_events stopMonitoring
            (run (startMonitoring flat_drawImage second_answers) active_app)) /\
  In (ClearInterval 8%positive)
    (new_events stopMonitoring
       (run (startMonitoring flat_drawImage second_answers) active_app)) /\
  analysisInterval
    (run stopMonitoring
       (run (startMonitoring flat_drawImage second_answers) active_app)) = None.
Proof.
  apply (restart_leaks_sampler Z flat_drawImage second_answers active_app
           7%positive 8%positive).
  - vm_compute. reflexivity.
  - vm_compute. reflexivity.
  - lia.
Defined.

Lemma renderFrame_shows_filtered_witness :
  exists c',
    display (run (renderFrame OpaqueSamples.grey_drawImage) OpaqueSamples.grey_active_app)
    = Some c' /\
    canvas_width c' = 8 /\ canvas_height c' = 9 /\
    CanvasAlpha.opaque c' = true /\
    PrivacyFilter.applyPrivacyFilter c' = (Normal tt, c') /\
    new_events (renderFrame OpaqueSamples.grey_drawImage) OpaqueSamples.grey_active_app
    = [RequestAnimationFrame] /\
    session_of (run (renderFrame OpaqueSamples.grey_drawImage)
                  OpaqueSamples.grey_active_app)
    = session_of OpaqueSamples.grey_active_app.
Proof.
  apply (renderFrame_shows_filtered Z OpaqueSamples.grey_drawImage
           OpaqueSamples.grey_active_app
           (snd (PrivacyFilter.applyPrivacyFilter
                   {| canvas_width := 8; canvas_height := 9;
                      bitmap := OpaqueSamples.grey_drawImage 65 8 9 |}))).
  - vm_compute. reflexivity.
  - vm_compute. reflexivity.
  - vm_compute. discriminate.
  - vm_compute. discriminate.
  - vm_compute. reflexivity.
  - vm_compute. reflexivity.
Defined.

End SessionMoreWitnesses.

Section AlertFeedFacts.
Import JsString JsNumber Alerts AlertFeed.
Local Open Scope string_scope.

(** X22.  The icon of an alert goes with its class: the warning sign
    for the critical and the caution class, the lightning for the
    warning class, and one of the two remaining icons for the info
    class only. *)
Theorem getAlertIcon_by_class (issue : string) :
  (getAlertClass issue = "alert-critical" \/ getAlertClass issue = "alert-caution"
   <-> getAlertIcon issue = "&#9888;") /\
  (getAlertClass issue = "alert-warning" <-> getAlertIcon issue = "&#9889;") /\
  (getAlertClass issue = "alert-info"
   <-> getAlertIcon issue = "&#128528;" \/ getAlertIcon issue = "&#8505;").
Proof.
  unfold getAlertClass, getAlertIcon.
  destruct (includes issue "Fall"); [|destruct (includes issue "Aggression");
    [|destruct (includes issue "Risky"); [|destruct (includes issue "Emotion")]]].
  all: repeat split; intros H; try discriminate H;
    try (destruct H as [H | H]; discriminate H); auto.
Qed.

Lemma toUpperCase_ascii_idem (c : ascii) :
  toUpperCase_ascii (toUpperCase_ascii c) = toUpperCase_ascii c.
Proof.
  destruct c as [[|] [|] [|] [|] [|] [|] [|] [|]]; vm_compute; reflexivity.
Qed.

(** The upper case of an ASCII unit is an ASCII unit. *)
Lemma toUpperCase_ascii_ascii (c : ascii) :
  Nat.ltb (nat_of_ascii c) 128 = true ->
  Nat.ltb (nat_of_ascii (toUpperCase_ascii c)) 128 = true.
Proof.
  destruct c as [[|] [|] [|] [|] [|] [|] [|] [|]]; vm_compute; intros H;
    (reflexivity || discriminate H).
Qed.

(** X23.  On a string that is empty or begins with an ASCII character,
    [capitalizeFirst] keeps the length and all but the first unit, gives
    a string that begins with an ASCII character again, and applied
    twice gives what it gives once. *)
Theorem capitalizeFirst_idempotent (str : string) :
  ascii_first str = true ->
  ascii_first (capitalizeFirst str) = true /\
  capitalizeFirst (capitalizeFirst str) = capitalizeFirst str /\
  String.length (capitalizeFirst str) = String.length str /\
  (forall n, substring 1 n (capitalizeFirst str) = substring 1 n str).
Proof.
  destruct str as [|c rest]; [repeat split; reflexivity|].
  cbn [capitalizeFirst ascii_first]. intros Hc.
  rewrite toUpperCase_ascii_idem.
  split; [now apply toUpperCase_ascii_ascii|]. repeat split; reflexivity.
Qed.

Lemma string_app_assoc (s t u : string) : (s ++ t) ++ u = s ++ t ++ u.
Proof. induction s as [|c s IH]; [reflexivity|]. cbn. now rewrite IH. Qed.

Lemma string_app_nil_r (s : string) : s ++ EmptyString = s.
Proof. induction s as [|c s IH]; [reflexivity|]. cbn. now rewrite IH. Qed.

(** [join('')] *)
Lemma concat_empty_cons (x : string) (xs : list string) :
  String.concat EmptyString (x :: xs) = x ++ String.concat EmptyString xs.
Proof.
  destruct xs as [|y ys]; [cbn; now rewrite string_app_nil_r | reflexivity].
Qed.

Lemma concat_empty_app (xs ys : list string) :
  String.concat EmptyString (xs ++ ys)
  = String.concat EmptyString xs ++ String.concat EmptyString ys.
Proof.
  induction xs as [|x xs IH]; [reflexivity|].
  rewrite <- app_comm_cons, !concat_empty_cons, IH. now rewrite string_app_assoc.
Qed.

Lemma occurs_in_refl (s : string) : occurs_in s s.
Proof. exists EmptyString, EmptyString. cbn. now rewrite string_app_nil_r. Qed.

Lemma occurs_in_app_r (needle s t : string) :
  occurs_in needle t -> occurs_in needle (s ++ t).
Proof.
  intros (pre & post & ->). exists (s ++ pre), post. now rewrite string_app_assoc.
Qed.

Lemma occurs_in_app_l (needle s t : string) :
  occurs_in needle s -> occurs_in needle (s ++ t).
Proof.
  intros (pre & post & ->). exists pre, (post ++ t).
  now rewrite !string_app_assoc.
Qed.

Variable toLocaleTimeString : string -> string.
Variable exponential : number -> string.

(** An array whose alerts all have an issue is rendered item by item. *)
Lemma map_items_present (l : list alert) :
  Forall (fun a => issue a <> None) l ->
  map_items toLocaleTimeString exponential l
  = Normal (map (item_text toLocaleTimeString exponential) l).
Proof.
  induction 1 as [|a l Ha _ IH]; [reflexivity|].
  cbn [map_items map]. rewrite IH. unfold item_text, alert_item.
  destruct (issue a) as [i|]; [reflexivity | congruence].
Qed.


Lemma renderAlerts_present (shown : string) (l : list alert) :
  l <> [] -> Forall (fun a => issue a <> None) l ->
  renderAlerts toLocaleTimeString exponential (Some shown) (FeedArray l)
  = (Normal tt,
     Some (String.concat EmptyString
             (map (item_text toLocaleTimeString exponential) (rev l))),
     FeedArray (rev l)).
Proof.
  intros Hne Hall. destruct l as [|a l]; [congruence|].
  unfold renderAlerts. rewrite map_items_present; [reflexivity|].
  apply Forall_rev. exact Hall.
Qed.

(** X24.  [renderAlerts] shows an array last alert first, and leaves
    the array that it was given reversed: rendering the same array once
    more shows it first alert first, and gives the array its first
    order back. *)
Theorem renderAlerts_reverses_in_place (shown shown' : string) (l : list alert) :
  l <> [] -> Forall (fun a => issue a <> None) l ->
  renderAlerts toLocaleTimeString exponential (Some shown) (FeedArray l)
  = (Normal tt,
     Some (String.concat EmptyString
             (map (item_text toLocaleTimeString exponential) (rev l))),
     FeedArray (rev l)) /\
  renderAlerts toLocaleTimeString exponential (Some shown') (FeedArray (rev l))
  = (Normal tt,
     Some (String.concat EmptyString
             (map (item_text toLocaleTimeString exponential) l)),
     FeedArray l).
Proof.
  intros Hne Hall. split; [now apply renderAlerts_present|].
  rewrite renderAlerts_present.
  - now rewrite rev_involutive.
  - intros E. apply Hne. rewrite <- (rev_involutive l), E. reflexivity.
  - apply Forall_rev. exact Hall.
Qed.

(** The issue and the action of an alert stand in its item as they
    are. *)
Lemma item_text_copies (a : alert) (i : string) :
  issue a = Some i ->
  occurs_in i (item_text toLocaleTimeString exponential a) /\
  occurs_in (action a) (item_text toLocaleTimeString exponential a).
Proof.
  intros Hi. unfold item_text, alert_item. rewrite Hi. cbv zeta. split.
  - do 3 apply occurs_in_app_r. apply occurs_in_app_l.
    unfold line. do 7 apply occurs_in_app_r.
    apply occurs_in_app_l, occurs_in_refl.
  - do 7 apply occurs_in_app_r. apply occurs_in_app_l.
    unfold line. do 7 apply occurs_in_app_r.
    apply occurs_in_app_l, occurs_in_refl.
Qed.

(** X25.  [renderAlerts] copies the text of an alert into the markup
    as it is: for every alert of the array, the issue and the action
    occur unchanged, whatever characters they hold, in the [innerHTML]
    that is assigned. *)
Theorem renderAlerts_copies_text
    (shown : string) (l : list alert) (a : alert) (i : string) :
  Forall (fun a => issue a <> None) l -> In a l -> issue a = Some i ->
  exists html,
    renderAlerts toLocaleTimeString exponential (Some shown) (FeedArray l)
    = (Normal tt, Some html, FeedArray (rev l)) /\
    occurs_in i html /\ occurs_in (action a) html.
Proof.
  intros Hall Hin Hi.
  assert (l <> []) as Hne by (intros ->; destruct Hin).
  eexists. split; [now apply renderAlerts_present|].
  apply in_rev in Hin. apply in_split in Hin as (l1 & l2 & ->).
  rewrite map_app, concat_empty_app. cbn [map]. rewrite concat_empty_cons.
  destruct (item_text_copies a i Hi) as [H1 H2].
  split; apply occurs_in_app_r, occurs_in_app_l; assumption.
Qed.


(** The percentages from 0 to 100. *)
Lemma toFixed0_hundredths_upto :
  forallb (fun k => String.eqb (toFixed0 exponential (mul (literal (Z.of_nat k) 2) lit_100))
                      (decimal (Z.of_nat k)))
          (seq 0 101) = true.
Proof. vm_compute. reflexivity. Qed.

(** X27.  A confidence of [k] hundredths, as the nearest Number, is
    shown as [k]%: for every [k] from 0 to 100, the rounding of the
    division, of the multiplication by 100 and of [toFixed(0)] gives the
    digits of [k] back. *)
Theorem toFixed0_hundredths (k : Z) :
  0 <= k <= 100 ->
  toFixed0 exponential (mul (literal k 2) lit_100) = decimal k.
Proof.
  intros Hk. pose proof toFixed0_hundredths_upto as H.
  rewrite forallb_forall in H.
  specialize (H (Z.to_nat k)). rewrite Z2Nat.id in H by lia.
  apply String.eqb_eq, H. apply in_seq. lia.
Qed.

End AlertFeedFacts.

Section AlertFeedMore.
Import JsString JsNumber Alerts AlertFeed.
Local Open Scope string_scope.

Variable toLocaleTimeString : string -> string.
Variable exponential : number -> string.

(** What a load shows does not depend on what was logged before. *)
Lemma loadAlerts_logged (a : answer feed) (e : Session.event) (p : panel) :
  alertsList (loadAlerts toLocaleTimeString exponential a (logged e p))
  = alertsList (loadAlerts toLocaleTimeString exponential a p).
Proof.
  unfold loadAlerts, logged. cbn [alertsList log].
  destruct a as [ok [v|]|]; try reflexivity.
  destruct (renderAlerts _ _ (alertsList p) v) as [[[[]|x] shown] after]; reflexivity.
Qed.

(** X28.  [clearAlerts] writes nothing to the list itself: when the
    request that clears is answered, with whatever status, the list
    shows what the reload gives; when it is not, the list is as it was
    and the one error is logged after the one request. *)
Theorem clearAlerts_shows_reload (c : reply) (a : answer feed) (p : panel) :
  alertsList (clearAlerts toLocaleTimeString exponential c a p)
  = match c with
    | Replied _ => alertsList (loadAlerts toLocaleTimeString exponential a p)
    | NoReply => alertsList p
    end /\
  log (clearAlerts toLocaleTimeString exponential NoReply a p)
  = (log p ++ [Session.Fetch "POST" "/api/alerts/clear" Session.NoBody;
               Session.ConsoleError "Error clearing alerts:"])%list.
Proof.
  split.
  - destruct c as [ok|]; [|reflexivity].
    unfold clearAlerts. apply loadAlerts_logged.
  - unfold clearAlerts, logged. cbn [log]. now rewrite <- app_assoc.
Qed.

End AlertFeedMore.

Section StatusPollFacts.
Import JsString Session AlertFeed StatusPoll.
Local Open Scope string_scope.

Variable Frame : Type.

(** A poll that is answered. *)
Lemma updateSystemStatus_answered (ok b : bool) (s : app Frame) :
  run (updateSystemStatus (Answered ok (Some (StatusObject b)))) s
  = run (updateStatusBadge (if b then "Monitoring Active" else "System Ready") b)
      (emit (Fetch "GET" "/api/status" NoBody) s).
Proof.
  unfold run, updateSystemStatus, updateStatusBadge, try_catch, bind, modify.
  cbn [fst snd statusBadge emit].
  destruct (statusBadge s) as [b0|]; destruct b; reflexivity.
Qed.

(** X29.  The poll shows on the badge what the service reports, not
    what the session is: an answered [updateSystemStatus] leaves the
    application as [updateStatusBadge] does for the reported flag, after
    its one request, and does not touch the session fields, so a badge
    can read System Ready over an Active session. *)
Theorem updateSystemStatus_follows_service (ok b : bool) (s : app Frame) :
  run (updateSystemStatus (Answered ok (Some (StatusObject b)))) s
  = run (updateStatusBadge (if b then "Monitoring Active" else "System Ready") b)
      (emit (Fetch "GET" "/api/status" NoBody) s) /\
  session_of (run (updateSystemStatus (Answered ok (Some (StatusObject b)))) s)
  = session_of s /\
  (statusBadge s <> None ->
   statusBadge (run (updateSystemStatus (Answered ok (Some (StatusObject b)))) s)
   = Some {| dot_background :=
               if b then "var(--success-color)" else "var(--secondary-color)";
             label := if b then "Monitoring Active" else "System Ready" |}).
Proof.
  split; [apply updateSystemStatus_answered|].
  rewrite updateSystemStatus_answered.
  unfold run, updateStatusBadge, modify, session_of.
  cbn [fst snd statusBadge emit isMonitoring stream analysisInterval].
  destruct (statusBadge s) as [b0|] eqn:E.
  - split; [reflexivity|]. intros _. cbn [statusBadge set_statusBadge]. reflexivity.
  - split; [reflexivity|]. intros H. congruence.
Qed.

End StatusPollFacts.

Section AlertWitnesses.
Import JsString JsNumber Alerts AlertFeed StatusPoll AlertScenarios Session Samples.
Local Open Scope string_scope.

Lemma renderAlerts_reverses_in_place_witness :
  renderAlerts written_time no_exponential (Some no_alerts)
    (FeedArray [fall_alert; emotion_alert])
  = (Normal tt,
     Some (String.concat EmptyString
             (map (item_text written_time no_exponential)
                (rev [fall_alert; emotion_alert]))),
     FeedArray (rev [fall_alert; emotion_alert])) /\
  renderAlerts written_time no_exponential (Some EmptyString)
    (FeedArray (rev [fall_alert; emotion_alert]))
  = (Normal tt,
     Some (String.concat EmptyString
             (map (item_text written_time no_exponential)
                [fall_alert; emotion_alert])),
     FeedArray [fall_alert; emotion_alert]).
Proof.
  apply (renderAlerts_reverses_in_place written_time no_exponential
           no_alerts EmptyString [fall_alert; emotion_alert]).
  - discriminate.
  - repeat constructor; discriminate.
Defined.

Lemma renderAlerts_copies_text_witness :
  exists html,
    renderAlerts written_time no_exponential (Some no_alerts)
      (FeedArray [fall_alert; emotion_alert])
    = (Normal tt, Some html, FeedArray (rev [fall_alert; emotion_alert])) /\
    occurs_in "Fall Detected <b>now</b>" html /\
    occurs_in (action fall_alert) html.
Proof.
  apply (renderAlerts_copies_text written_time no_exponential no_alerts
           [fall_alert; emotion_alert] fall_alert "Fall Detected <b>now</b>").
  - repeat constructor; discriminate.
  - simpl. left. reflexivity.
  - reflexivity.
Defined.


Lemma capitalizeFirst_idempotent_witness :
  ascii_first (capitalizeFirst "confused") = true /\
  capitalizeFirst (capitalizeFirst "confused") = capitalizeFirst "confused" /\
  String.length (capitalizeFirst "confused") = String.length "confused" /\
  (forall n, substring 1 n (capitalizeFirst "confused") = substring 1 n "confused").
Proof. apply (capitalizeFirst_idempotent "confused"). reflexivity. Defined.

Lemma toFixed0_hundredths_witness :
  toFixed0 no_exponential (mul (literal 29 2) lit_100) = decimal 29.
Proof. apply (toFixed0_hundredths no_exponential 29). lia. Defined.

Lemma updateSystemStatus_follows_service_witness :
  isMonitoring active_app = true /\
  statusBadge (run (updateSystemStatus (Answered true (Some (StatusObject false))))
                 active_app)
  = Some {| dot_background := "var(--secondary-color)"; label := "System Ready" |}.
Proof.
  split; [vm_compute; reflexivity|].
  apply (updateSystemStatus_follows_service Z true false active_app).
  vm_compute. discriminate.
Defined.

End AlertWitnesses.
